(** * OpenTag native kernel (otkernel/~native/system.c): a shallow embedding

    The DASH7 Mode 2 session and MAC event manager of OpenTag, as Rocq
    functions over an explicit kernel state.  The two global structures of
    the C file ([sys] and [dll]) and the data of the sibling modules the
    kernel reads and writes (session stack, byte queues, ISF files) are
    fields of one record that every function threads through a small
    state-and-fault monad.  Calls that leave the library (radio driver,
    platform timer, application hooks) are logged, in the order the code
    makes them, in the [trace] field; the values such calls hand back
    (random numbers, timer readings, CSMA codes) are read from input
    streams.  What a callee does to the kernel later on, such as the
    callback the radio driver delivers after [rm2_kill], is a kernel entry
    of its own ([rfevt_bscan], [rfevt_frx], [rfevt_ftx], [rfevt_btx]).

    The build embedded is the full-featured one with software timing:
    [M2_FEATURE] ENDPOINT, BEACONS, GATEWAY or SUBCONTROLLER, DATASTREAM,
    RTC_SCHEDULER, RTCSLEEP, RTCHOLD and RTCBEACON enabled and BLINKER
    disabled; [OT_FEATURE] CAPI, EXTERNAL_EVENT, SW_WATCHDOG and the three
    callback families enabled and HW_WATCHDOG disabled; SYS_RECEIVE,
    SYS_SESSION and SYS_FLOOD enabled; [RF_FEATURE] RXTIMER and TXTIMER
    disabled; no EXTF_ override.  The byte order of the host is a parameter.
    [sub_csma_scramble] has no caller in system.c and is left out.

    After the kernel come the macros of otlib/OT_utils.h (the big-endian
    converters and the two unrolled loops) and the id comparison of
    otlib/auth.c, which stand on their own. *)

From Stdlib Require Import ZArith List Bool Lia.
Import ListNotations.
Local Open Scope Z_scope.

(** ** Integer types (OT_types.h)

    The casts of the C code.  A value is kept as a [Z] in the range of its
    type; the cast is applied wherever the C code stores into a narrower
    type.  OT_types.h is not part of system.c: [ot_int] and [ot_uint] are
    taken as its 16-bit integers and [ot_long] as its 32-bit one, and the
    tick countdowns ([nextevent], [tc], [tca], [rx_timeout]) as [ot_long]. *)

Definition ot_u8 (z : Z) : Z := z mod 2 ^ 8.
Definition ot_u16 (z : Z) : Z := z mod 2 ^ 16.
Definition ot_uint (z : Z) : Z := ot_u16 z.
Definition ot_int (z : Z) : Z := (z + 2 ^ 15) mod 2 ^ 16 - 2 ^ 15.
Definition ot_long (z : Z) : Z := (z + 2 ^ 31) mod 2 ^ 32 - 2 ^ 31.

(** C truth values of a comparison: [(a == b)] is 1 or 0. *)
Definition c_bool (b : bool) : Z := if b then 1 else 0.
Definition nonzero (z : Z) : bool := negb (z =? 0).

(** ** Data structures (system_native.h, session.h, queue.h, veelite.h) *)

Record idletime_event := Build_idletime_event {
  event_no : Z;       (* ot_u8: 0 is off *)
  sched_id : Z;       (* ot_u8: 0 is unscheduled *)
  cursor : Z;         (* offset into the sequence file *)
  nextevent : Z       (* ot_long: ticks until the event *)
}.

Record radio_event := Build_radio_event {
  rfa_event_no : Z;
  rfa_nextevent : Z
}.

(** [sys.evt]: in C the idle events are also reachable as the array
    [sys.evt.idle[]], a union over HSS, SSS, BTS and EXT in that order. *)
Record sys_evt := Build_sys_evt {
  RFA : radio_event;
  HSS : idletime_event;
  SSS : idletime_event;
  BTS : idletime_event;
  EXT : idletime_event;
  hold_cycle : Z;
  adv_time : Z
}.

Record sys_struct := Build_sys_struct {
  mutex : Z;
  watchdog : Z;
  evt : sys_evt
}.

Record netconf_struct := Build_netconf_struct {
  subnet : Z;
  b_subnet : Z;
  dd_flags : Z;
  b_attempts : Z;
  active : Z;
  hold_limit : Z
}.

(** A channel list pointer: the kernel only ever points it at one of the two
    scratch bytes of the comm block; the network layer may point it at a
    list of its own. *)
Inductive chanlist :=
| Scratch (i : nat)
| Foreign (l : list Z).

Record m2comm_struct := Build_m2comm_struct {
  tc : Z;
  tca : Z;
  rx_timeout : Z;
  csmaca_params : Z;
  redundants : Z;
  tx_channels : Z;
  rx_channels : Z;
  tx_chanlist : chanlist;
  rx_chanlist : chanlist;
  scratch0 : Z;
  scratch1 : Z
}.

Record m2dll_struct := Build_m2dll_struct {
  idle_state : Z;
  netconf : netconf_struct;
  comm : m2comm_struct
}.

Record m2session := Build_m2session {
  s_channel : Z;
  s_subnet : Z;
  s_flags : Z;
  s_dialog_id : Z;
  s_netstate : Z;
  s_counter : Z
}.

(** A byte queue: the buffer from [front] on, and the two cursors as
    offsets from [front]. *)
Record Queue := Build_Queue {
  q_alloc : Z;
  q_length : Z;
  q_front : list Z;
  q_getcursor : Z;
  q_putcursor : Z
}.

Record vlFILE := Build_vlFILE {
  f_length : Z;
  f_data : list Z
}.

(** Calls that leave the library, with their arguments. *)
Inductive ext_call :=
| radio_gag | radio_sleep | rm2_kill
| rm2_rxinit_bf (chan : Z) | rm2_rxinit_ff (chan est_frames : Z)
| rm2_rxtimeout_isr | rm2_reenter_rx (mode : Z)
| rm2_txinit_bf | rm2_txinit_ff (est_frames : Z)
| rm2_txcsma | rm2_prep_resend | rm2_txstop_flood
| platform_flush_gptim | platform_get_gptim | platform_ot_preempt
| platform_set_rtc_alarm (id mask value : Z)
| platform_memcpy_rt
| vl_close (isf_id : Z)
| network_init | m2qp_init | auth_init | ext_init
| sig_panic (err_code : Z)
| sig_rfainit (n : Z)
| sig_rfaterminate (n code : Z)
| sig_prestart (idle_index : nat)
| sub_activate_scheduler (sched : Z).

(** The whole state. *)
Record kernel := Build_kernel {
  sys : sys_struct;
  dll : m2dll_struct;
  session : list m2session;      (* the session stack, top first *)
  txq : Queue;
  rxq : Queue;
  isf : Z -> vlFILE;             (* the ISF files, by id *)
  link_qual : Z;                 (* phymac[0].link_qual *)
  tg : Z;                        (* phymac[0].tg *)
  rssi : Z;                      (* what radio_rssi() reads *)
  prand : list Z;                (* platform_prand_u8/u16 results to come *)
  gptim : list Z;                (* platform_get_gptim results to come *)
  csma : list Z;                 (* rm2_txcsma results to come *)
  trace : list ext_call          (* calls made so far, latest first *)
}.

(** ** Field updates *)

Definition upd_sys (f : sys_struct -> sys_struct) (k : kernel) : kernel :=
  Build_kernel (f (sys k)) (dll k) (session k) (txq k) (rxq k) (isf k)
    (link_qual k) (tg k) (rssi k) (prand k) (gptim k) (csma k) (trace k).
Definition upd_dll (f : m2dll_struct -> m2dll_struct) (k : kernel) : kernel :=
  Build_kernel (sys k) (f (dll k)) (session k) (txq k) (rxq k) (isf k)
    (link_qual k) (tg k) (rssi k) (prand k) (gptim k) (csma k) (trace k).
Definition upd_session (f : list m2session -> list m2session) (k : kernel) : kernel :=
  Build_kernel (sys k) (dll k) (f (session k)) (txq k) (rxq k) (isf k)
    (link_qual k) (tg k) (rssi k) (prand k) (gptim k) (csma k) (trace k).
Definition upd_txq (f : Queue -> Queue) (k : kernel) : kernel :=
  Build_kernel (sys k) (dll k) (session k) (f (txq k)) (rxq k) (isf k)
    (link_qual k) (tg k) (rssi k) (prand k) (gptim k) (csma k) (trace k).
Definition upd_isf (f : (Z -> vlFILE) -> Z -> vlFILE) (k : kernel) : kernel :=
  Build_kernel (sys k) (dll k) (session k) (txq k) (rxq k) (f (isf k))
    (link_qual k) (tg k) (rssi k) (prand k) (gptim k) (csma k) (trace k).
Definition upd_prand (f : list Z -> list Z) (k : kernel) : kernel :=
  Build_kernel (sys k) (dll k) (session k) (txq k) (rxq k) (isf k)
    (link_qual k) (tg k) (rssi k) (f (prand k)) (gptim k) (csma k) (trace k).
Definition upd_gptim (f : list Z -> list Z) (k : kernel) : kernel :=
  Build_kernel (sys k) (dll k) (session k) (txq k) (rxq k) (isf k)
    (link_qual k) (tg k) (rssi k) (prand k) (f (gptim k)) (csma k) (trace k).
Definition upd_csma (f : list Z -> list Z) (k : kernel) : kernel :=
  Build_kernel (sys k) (dll k) (session k) (txq k) (rxq k) (isf k)
    (link_qual k) (tg k) (rssi k) (prand k) (gptim k) (f (csma k)) (trace k).
Definition upd_trace (f : list ext_call -> list ext_call) (k : kernel) : kernel :=
  Build_kernel (sys k) (dll k) (session k) (txq k) (rxq k) (isf k)
    (link_qual k) (tg k) (rssi k) (prand k) (gptim k) (csma k) (f (trace k)).

Definition upd_mutex (f : Z -> Z) (s : sys_struct) : sys_struct :=
  Build_sys_struct (f (mutex s)) (watchdog s) (evt s).
Definition upd_watchdog (f : Z -> Z) (s : sys_struct) : sys_struct :=
  Build_sys_struct (mutex s) (f (watchdog s)) (evt s).
Definition upd_evt (f : sys_evt -> sys_evt) (s : sys_struct) : sys_struct :=
  Build_sys_struct (mutex s) (watchdog s) (f (evt s)).

Definition upd_RFA (f : radio_event -> radio_event) (e : sys_evt) : sys_evt :=
  Build_sys_evt (f (RFA e)) (HSS e) (SSS e) (BTS e) (EXT e) (hold_cycle e) (adv_time e).
Definition upd_HSS (f : idletime_event -> idletime_event) (e : sys_evt) : sys_evt :=
  Build_sys_evt (RFA e) (f (HSS e)) (SSS e) (BTS e) (EXT e) (hold_cycle e) (adv_time e).
Definition upd_SSS (f : idletime_event -> idletime_event) (e : sys_evt) : sys_evt :=
  Build_sys_evt (RFA e) (HSS e) (f (SSS e)) (BTS e) (EXT e) (hold_cycle e) (adv_time e).
Definition upd_BTS (f : idletime_event -> idletime_event) (e : sys_evt) : sys_evt :=
  Build_sys_evt (RFA e) (HSS e) (SSS e) (f (BTS e)) (EXT e) (hold_cycle e) (adv_time e).
Definition upd_EXT (f : idletime_event -> idletime_event) (e : sys_evt) : sys_evt :=
  Build_sys_evt (RFA e) (HSS e) (SSS e) (BTS e) (f (EXT e)) (hold_cycle e) (adv_time e).
Definition upd_hold_cycle (f : Z -> Z) (e : sys_evt) : sys_evt :=
  Build_sys_evt (RFA e) (HSS e) (SSS e) (BTS e) (EXT e) (f (hold_cycle e)) (adv_time e).
Definition upd_adv_time (f : Z -> Z) (e : sys_evt) : sys_evt :=
  Build_sys_evt (RFA e) (HSS e) (SSS e) (BTS e) (EXT e) (hold_cycle e) (f (adv_time e)).

Definition set_event_no (v : Z) (e : idletime_event) : idletime_event :=
  Build_idletime_event v (sched_id e) (cursor e) (nextevent e).
Definition set_sched_id (v : Z) (e : idletime_event) : idletime_event :=
  Build_idletime_event (event_no e) v (cursor e) (nextevent e).
Definition set_cursor (v : Z) (e : idletime_event) : idletime_event :=
  Build_idletime_event (event_no e) (sched_id e) v (nextevent e).
Definition set_nextevent (v : Z) (e : idletime_event) : idletime_event :=
  Build_idletime_event (event_no e) (sched_id e) (cursor e) v.

Definition set_rfa_event_no (v : Z) (e : radio_event) : radio_event :=
  Build_radio_event v (rfa_nextevent e).
Definition set_rfa_nextevent (v : Z) (e : radio_event) : radio_event :=
  Build_radio_event (rfa_event_no e) v.

Definition set_idle_state (v : Z) (d : m2dll_struct) : m2dll_struct :=
  Build_m2dll_struct v (netconf d) (comm d).
Definition upd_netconf (f : netconf_struct -> netconf_struct) (d : m2dll_struct) : m2dll_struct :=
  Build_m2dll_struct (idle_state d) (f (netconf d)) (comm d).
Definition upd_comm (f : m2comm_struct -> m2comm_struct) (d : m2dll_struct) : m2dll_struct :=
  Build_m2dll_struct (idle_state d) (netconf d) (f (comm d)).

Definition set_tc (v : Z) (c : m2comm_struct) : m2comm_struct :=
  Build_m2comm_struct v (tca c) (rx_timeout c) (csmaca_params c) (redundants c)
    (tx_channels c) (rx_channels c) (tx_chanlist c) (rx_chanlist c) (scratch0 c) (scratch1 c).
Definition set_tca (v : Z) (c : m2comm_struct) : m2comm_struct :=
  Build_m2comm_struct (tc c) v (rx_timeout c) (csmaca_params c) (redundants c)
    (tx_channels c) (rx_channels c) (tx_chanlist c) (rx_chanlist c) (scratch0 c) (scratch1 c).
Definition set_rx_timeout (v : Z) (c : m2comm_struct) : m2comm_struct :=
  Build_m2comm_struct (tc c) (tca c) v (csmaca_params c) (redundants c)
    (tx_channels c) (rx_channels c) (tx_chanlist c) (rx_chanlist c) (scratch0 c) (scratch1 c).
Definition set_csmaca_params (v : Z) (c : m2comm_struct) : m2comm_struct :=
  Build_m2comm_struct (tc c) (tca c) (rx_timeout c) v (redundants c)
    (tx_channels c) (rx_channels c) (tx_chanlist c) (rx_chanlist c) (scratch0 c) (scratch1 c).
Definition set_redundants (v : Z) (c : m2comm_struct) : m2comm_struct :=
  Build_m2comm_struct (tc c) (tca c) (rx_timeout c) (csmaca_params c) v
    (tx_channels c) (rx_channels c) (tx_chanlist c) (rx_chanlist c) (scratch0 c) (scratch1 c).
Definition set_tx_channels (v : Z) (c : m2comm_struct) : m2comm_struct :=
  Build_m2comm_struct (tc c) (tca c) (rx_timeout c) (csmaca_params c) (redundants c)
    v (rx_channels c) (tx_chanlist c) (rx_chanlist c) (scratch0 c) (scratch1 c).
Definition set_rx_channels (v : Z) (c : m2comm_struct) : m2comm_struct :=
  Build_m2comm_struct (tc c) (tca c) (rx_timeout c) (csmaca_params c) (redundants c)
    (tx_channels c) v (tx_chanlist c) (rx_chanlist c) (scratch0 c) (scratch1 c).
Definition set_tx_chanlist (v : chanlist) (c : m2comm_struct) : m2comm_struct :=
  Build_m2comm_struct (tc c) (tca c) (rx_timeout c) (csmaca_params c) (redundants c)
    (tx_channels c) (rx_channels c) v (rx_chanlist c) (scratch0 c) (scratch1 c).
Definition set_rx_chanlist (v : chanlist) (c : m2comm_struct) : m2comm_struct :=
  Build_m2comm_struct (tc c) (tca c) (rx_timeout c) (csmaca_params c) (redundants c)
    (tx_channels c) (rx_channels c) (tx_chanlist c) v (scratch0 c) (scratch1 c).
Definition set_scratch0 (v : Z) (c : m2comm_struct) : m2comm_struct :=
  Build_m2comm_struct (tc c) (tca c) (rx_timeout c) (csmaca_params c) (redundants c)
    (tx_channels c) (rx_channels c) (tx_chanlist c) (rx_chanlist c) v (scratch1 c).
Definition set_scratch1 (v : Z) (c : m2comm_struct) : m2comm_struct :=
  Build_m2comm_struct (tc c) (tca c) (rx_timeout c) (csmaca_params c) (redundants c)
    (tx_channels c) (rx_channels c) (tx_chanlist c) (rx_chanlist c) (scratch0 c) v.

Definition set_s_channel (v : Z) (s : m2session) : m2session :=
  Build_m2session v (s_subnet s) (s_flags s) (s_dialog_id s) (s_netstate s) (s_counter s).
Definition set_s_subnet (v : Z) (s : m2session) : m2session :=
  Build_m2session (s_channel s) v (s_flags s) (s_dialog_id s) (s_netstate s) (s_counter s).
Definition set_s_flags (v : Z) (s : m2session) : m2session :=
  Build_m2session (s_channel s) (s_subnet s) v (s_dialog_id s) (s_netstate s) (s_counter s).
Definition set_s_dialog_id (v : Z) (s : m2session) : m2session :=
  Build_m2session (s_channel s) (s_subnet s) (s_flags s) v (s_netstate s) (s_counter s).
Definition set_s_netstate (v : Z) (s : m2session) : m2session :=
  Build_m2session (s_channel s) (s_subnet s) (s_flags s) (s_dialog_id s) v (s_counter s).
Definition set_s_counter (v : Z) (s : m2session) : m2session :=
  Build_m2session (s_channel s) (s_subnet s) (s_flags s) (s_dialog_id s) (s_netstate s) v.

(** The union [sys.evt.idle[i]]. *)
Definition IDLE_EVENTS : nat := 4.

Definition idle (i : nat) (e : sys_evt) : idletime_event :=
  match i with
  | 0%nat => HSS e
  | 1%nat => SSS e
  | 2%nat => BTS e
  | _ => EXT e
  end.

Definition upd_idle (i : nat) (f : idletime_event -> idletime_event) (e : sys_evt) : sys_evt :=
  match i with
  | 0%nat => upd_HSS f e
  | 1%nat => upd_SSS f e
  | 2%nat => upd_BTS f e
  | _ => upd_EXT f e
  end.

(** ** What the other headers provide

    The constants of system_native.h, session.h, radio.h and OT_config.h are
    not defined in system.c; the kernel is embedded over any choice of them.
    Where system.c fixes a value itself (the [>> 5] dispatch of the session
    task, the [^ 0x30] of the listen timeout, the [& 3] of the idle table)
    the literal of the code is used instead. *)

Class Macros := {
  big_endian : bool;                 (* __BIG_ENDIAN__ is defined *)
  SWDP : Z;                          (* OT_FEATURE(WATCHDOG_PERIOD) *)
  SYS_MUTEX_RADIO_LISTEN : Z;
  SYS_MUTEX_RADIO_DATA : Z;
  SYS_MUTEX_PROCESSING : Z;
  M2_NETSTATE_INIT : Z;
  M2_NETSTATE_REQTX : Z;
  M2_NETSTATE_REQRX : Z;
  M2_NETSTATE_RESPTX : Z;
  M2_NETSTATE_RESPRX : Z;
  M2_NETSTATE_RESP : Z;
  M2_NETSTATE_TMASK : Z;
  M2_NETSTATE_CONNECTED : Z;
  M2_NETSTATE_ASSOCIATED : Z;
  M2_NETSTATE_DSDIALOG : Z;
  M2_NETFLAG_FIRSTRX : Z;
  M2_NETFLAG_FLOOD : Z;
  M2_NETFLAG_SCRAP : Z;
  M2_SET_CLASSMASK : Z;
  M2_SET_ENDPOINT : Z;
  M2_SET_SUBCONTROLLER : Z;
  M2_SET_SLEEPSCHED : Z;
  M2_SET_HOLDSCHED : Z;
  M2_SET_BEACONSCHED : Z;
  M2_MACIDLE_OFF : Z;
  M2_MACIDLE_SLEEP : Z;
  M2_MACIDLE_HOLD : Z;
  M2_CSMACA_NA2P : Z;
  M2_CSMACA_A2P : Z;
  M2_CSMACA_MACCA : Z;
  M2_CSMACA_NOCSMA : Z;
  M2FI_LISTEN : Z;
  M2_PARAM_BEACON_TCA : Z;
  RM2_ERR_BADCHANNEL : Z;
  RM2_ERR_CCAFAIL : Z;
  AUTH_GUEST : Z;
  ISF_ID_hold_scan_sequence : Z;
  ISF_ID_sleep_scan_sequence : Z;
  ISF_ID_beacon_transmit_sequence : Z;
  ISF_ID_real_time_scheduler : Z
}.

(** The functions of the sibling modules that system.c calls and whose
    bodies live elsewhere (session.c, queue.c, the network and transport
    layers, the radio's duration tables, the application's load hook).  A
    session routine acts on the session stack, a queue routine on a queue;
    a network or transport routine may touch any part of the state. *)

(** A session pointer names a slot of the stack, counted from the bottom,
    so that it keeps naming the same session when others are pushed above
    it; [None] is the pointer [session_top] returns on an empty stack. *)
Definition sptr := option nat.

Class Modules := {
  session_init_ : list m2session -> list m2session;
  session_new_ : Z -> Z -> Z -> list m2session -> option (list m2session);
  session_flush_ : list m2session -> list m2session;
  session_drop_ : list m2session -> list m2session;
  session_refresh_ : Z -> list m2session -> bool * list m2session;
  q_writebyte_ : Z -> Queue -> Queue;
  rm2_pkt_duration : Z -> Z;
  rm2_default_tgd : Z -> Z;
  otutils_calc_timeout : Z -> Z;
  network_route_ff_ : sptr -> kernel -> Z * kernel;
  network_parse_bf_ : kernel -> kernel;
  m2np_header_ : sptr -> Z -> Z -> kernel -> kernel;
  m2np_footer_ : sptr -> kernel -> kernel;
  m2qp_isf_call_ : Z -> list Z -> Z -> kernel -> Z * kernel;
  m2advp_init_flood_ : sptr -> Z -> kernel -> Z * kernel;
  m2advp_close_ : kernel -> kernel;
  m2dp_mark_dsframe_ : sptr -> kernel -> kernel;
  sys_loadapp_ : kernel -> bool * kernel;
  session_id_ : m2session -> Z       (* the second halfword of the structure *)
}.

(** ** The monad: state, and a fault where C gives no result *)

Inductive fault :=
| DivisionByZero      (* x % 0 *)
| NoSession           (* a session pointer used while it points at no session *)
| OutOfFuel.          (* the bound on the dispatcher's loop was reached *)

Inductive res (A : Type) :=
| Ok (a : A) (k : kernel)
| Halt (f : fault).
Arguments Ok {A} a k.
Arguments Halt {A} f.

Definition M (A : Type) : Type := kernel -> res A.

Definition ret {A} (a : A) : M A := fun k => Ok a k.

Definition bind {A B} (m : M A) (f : A -> M B) : M B :=
  fun k => match m k with
           | Ok a k' => f a k'
           | Halt e => Halt e
           end.

Declare Scope kern_scope.
Delimit Scope kern_scope with kern.
Notation "x <- c1 ;; c2" := (bind c1 (fun x => c2))
  (at level 61, c1 at next level, right associativity) : kern_scope.
Notation "c1 ;; c2" := (bind c1 (fun _ => c2))
  (at level 61, right associativity) : kern_scope.
Local Open Scope kern_scope.

Definition get {A} (f : kernel -> A) : M A := fun k => Ok (f k) k.
Definition modify (f : kernel -> kernel) : M unit := fun k => Ok tt (f k).
Definition fail {A} (e : fault) : M A := fun _ => Halt e.
Definition call (c : ext_call) : M unit := modify (upd_trace (cons c)).
Definition lift {A} (f : kernel -> A * kernel) : M A :=
  fun k => Ok (fst (f k)) (snd (f k)).

(** The state a run ends in, and its value, when it ends. *)
Definition state_of {A} (r : res A) : option kernel :=
  match r with Ok _ k => Some k | Halt _ => None end.

(** Shorthands for the assignments of the C code. *)
Definition upd_sys_evt (f : sys_evt -> sys_evt) : M unit := modify (upd_sys (upd_evt f)).
Definition upd_dll_comm (f : m2comm_struct -> m2comm_struct) : M unit :=
  modify (upd_dll (upd_comm f)).
Definition set_sys_mutex (v : Z) : M unit := modify (upd_sys (upd_mutex (fun _ => v))).
Definition set_dll_idle_state (v : Z) : M unit := modify (upd_dll (set_idle_state v)).

(** ** Task indices *)

Inductive Task_Index :=
| TASK_idle | TASK_processing | TASK_radio | TASK_session
| TASK_hold | TASK_sleep | TASK_beacon | TASK_external
| TASK_terminus.

(** [TASK_hold + i] for an index [i] of the idle-event array. *)
Definition TASK_hold_plus (i : nat) : Task_Index :=
  match i with
  | 0%nat => TASK_hold
  | 1%nat => TASK_sleep
  | 2%nat => TASK_beacon
  | 3%nat => TASK_external
  | _ => TASK_terminus
  end.

Section Kernel.
Context {MC : Macros} {MD : Modules}.

(** ** Sessions (session.h) *)

Definition top_slot (l : list m2session) : sptr :=
  match l with
  | [] => None
  | _ :: below => Some (length below)
  end.

Definition slot_index (l : list m2session) (p : nat) : nat := (length l - 1 - p)%nat.

Definition deref (p : sptr) : M m2session :=
  fun k => match p with
           | Some n =>
               if (n <? length (session k))%nat
               then match nth_error (session k) (slot_index (session k) n) with
                    | Some s => Ok s k
                    | None => Halt NoSession
                    end
               else Halt NoSession
           | None => Halt NoSession
           end.

Fixpoint list_upd {A} (i : nat) (f : A -> A) (l : list A) : list A :=
  match l, i with
  | [], _ => []
  | x :: r, O => f x :: r
  | x :: r, S j => x :: list_upd j f r
  end.

(** [p->field = v]: the session in slot [p] is replaced by [f] of it. *)
Definition store (p : sptr) (f : m2session -> m2session) : M unit :=
  s <- deref p ;;
  match p with
  | Some n => modify (upd_session (fun l => list_upd (slot_index l n) f l))
  | None => fail NoSession
  end.

(** Modelled from the spec: session.c is not among the sources.  "top()
    reads top; pop() discards; count() returns depth-1 (negative on
    empty)"; the stack is kept top first. *)
Definition session_top : M sptr := get (fun k => top_slot (session k)).
Definition session_pop : M unit := modify (upd_session (@tl m2session)).
Definition session_count : M Z := get (fun k => Z.of_nat (length (session k)) - 1).
Definition session_netstate : M Z :=
  get (fun k => match session k with s :: _ => s_netstate s | [] => 0 end).

Definition session_init : M unit := modify (upd_session session_init_).
Definition session_flush : M unit := modify (upd_session session_flush_).
Definition session_drop : M unit := modify (upd_session session_drop_).
Definition session_refresh (elapsed : Z) : M bool :=
  fun k => Ok (fst (session_refresh_ elapsed (session k)))
              (upd_session (fun _ => snd (session_refresh_ elapsed (session k))) k).

(** [session_new] hands back the new session, which is then the top one,
    or NULL, and then the stack is as it was. *)
Definition session_new (wait netstate channel : Z) : M sptr :=
  fun k => match session_new_ wait netstate channel (session k) with
           | Some l => Ok (top_slot l) (upd_session (fun _ => l) k)
           | None => Ok None k
           end.

(** ** ISF files (veelite.h)

    [vl_read] hands back the two bytes at an offset as the host reads a
    halfword there: system.c picks the first byte of the file out of it
    with [scratch.ubyte[0]] on either host, and swaps the halves on a
    little-endian host to get the big-endian number. *)

Definition file_byte (f : vlFILE) (offset : Z) : Z :=
  ot_u8 (nth (Z.to_nat offset) (f_data f) 0).

Definition halfword (first second : Z) : Z :=
  if big_endian then first * 256 + second else second * 256 + first.

Definition ISF_open_su (id : Z) : M Z := ret id.

Definition vl_read (fp offset : Z) : M Z :=
  get (fun k => halfword (file_byte (isf k fp) offset) (file_byte (isf k fp) (offset + 1))).

Definition fp_length (fp : Z) : M Z := get (fun k => f_length (isf k fp)).

Definition poke (i : nat) (v : Z) (l : list Z) : list Z := list_upd i (fun _ => v) l.

(** The union [Twobytes]: the bytes of a halfword in memory order. *)
Definition ubyte (i : nat) (ushort : Z) : Z :=
  match i with
  | O => if big_endian then ushort / 256 else ushort mod 256
  | _ => if big_endian then ushort mod 256 else ushort / 256
  end.

Definition vl_write (fp offset data : Z) : M unit :=
  modify (upd_isf (fun files id =>
    if id =? fp
    then Build_vlFILE (f_length (files id))
           (poke (Z.to_nat (offset + 1)) (ubyte 1 data)
              (poke (Z.to_nat offset) (ubyte 0 data) (f_data (files id))))
    else files id)).

(** [(x << 8) | (x >> 8)] on an ot_u16. *)
Definition swap16 (x : Z) : Z := ot_u16 (Z.lor (Z.shiftl x 8) (Z.shiftr x 8)).

(** ** Inputs from the platform and the radio *)

Definition take (sel : kernel -> list Z) (drop : (list Z -> list Z) -> kernel -> kernel) : M Z :=
  v <- get (fun k => hd 0 (sel k)) ;;
  modify (drop (@tl Z)) ;;
  ret v.

Definition platform_prand_u16 : M Z := v <- take prand upd_prand ;; ret (ot_u16 v).
Definition platform_prand_u8 : M Z := v <- take prand upd_prand ;; ret (ot_u8 v).
Definition platform_get_gptim_ : M Z :=
  call platform_get_gptim ;; v <- take gptim upd_gptim ;; ret (ot_u16 v).
Definition rm2_txcsma_ : M Z :=
  call rm2_txcsma ;; v <- take csma upd_csma ;; ret (ot_int v).
Definition radio_rssi : M Z := get (fun k => ot_int (rssi k)).

Definition front (q : Queue) (i : nat) : Z := ot_u8 (nth i (q_front q) 0).

(** ** Flow and congestion control *)

Definition sub_mac_filter : M bool :=
  b1 <- get (fun k => front (rxq k) 1) ;;
  r <- radio_rssi ;;
  lq <- get link_qual ;;
  let linkloss := ot_int ((ot_int (Z.land (Z.shiftr b1 1) 0x3F) - 40) - r) in
  let qualifier := linkloss <=? ot_int lq in
  fr_subnet <- get (fun k => front (rxq k) 2) ;;
  ds <- get (fun k => subnet (netconf (dll k))) ;;
  let dsm := ot_u8 (Z.land ds 0x0F) in
  let mask := ot_u8 (Z.land fr_subnet dsm) in
  let specifier := ot_u8 (Z.land (Z.lxor fr_subnet ds) 0xF0) in
  let fr_subnet := ot_u8 (Z.land fr_subnet 0xF0) in
  let qualifier :=
    qualifier && (((fr_subnet =? 0xF0) || (specifier =? 0)) && (mask =? dsm)) in
  ret qualifier.

(** [a % b] of C: no result when [b] is zero. *)
Definition c_mod (a b : Z) : M Z :=
  if b =? 0 then fail DivisionByZero else ret (Z.rem a b).

Definition sub_rigd_newslot : M Z :=
  random <- platform_prand_u16 ;;
  upd_dll_comm (fun c => set_tc (Z.shiftr (tc c) 1) c) ;;
  upd_dll_comm (fun c => set_tca (tc c) c) ;;
  t <- get (fun k => tc (comm (dll k))) ;;
  r <- c_mod random t ;;
  ret (ot_uint r).

Definition sub_rigd_nextslot : M Z :=
  c <- get (fun k => comm (dll k)) ;;
  let wait := ot_long (tc c - tca c) in
  ret (if wait <? 0 then 0 else ot_uint wait).

Definition sub_aind_nextslot : M Z :=
  b0 <- get (fun k => front (txq k) 0) ;;
  ret (rm2_pkt_duration b0).

Definition sub_fcinit : M Z :=
  p <- get (fun k => csmaca_params (comm (dll k))) ;;
  match Z.land (Z.shiftr p 3) 0x03 with
  | 0 => sub_rigd_newslot
  | 1 =>
      random <- platform_prand_u16 ;;
      a <- get (fun k => tca (comm (dll k))) ;;
      b0 <- get (fun k => front (txq k) 0) ;;
      r <- c_mod random (a - rm2_pkt_duration b0) ;;
      ret (ot_u16 r)
  | _ => ret 0
  end.

Definition sub_fceval (query_score : Z) : M unit := ret tt.

(** In [sub_rigd_nextslot() + sub_rigd_newslot()] the left operand is taken
    to be evaluated first. *)
Definition sub_fcloop : M Z :=
  p <- get (fun k => csmaca_params (comm (dll k))) ;;
  match Z.land (Z.shiftr p 3) 3 with
  | 0 => a <- sub_rigd_nextslot ;; b <- sub_rigd_newslot ;; ret (ot_uint (a + b))
  | 1 | 2 => sub_aind_nextslot
  | _ => get tg
  end.

(** ** System core functions *)

Definition sys_goto_off : M unit :=
  session_init ;;
  upd_sys_evt (upd_RFA (set_rfa_event_no 0)) ;;
  upd_sys_evt (upd_HSS (set_event_no 0)) ;;
  upd_sys_evt (upd_SSS (set_event_no 0)) ;;
  upd_sys_evt (upd_BTS (set_event_no 0)).

Definition sys_goto_sleep : M unit :=
  id <- get (fun k => sched_id (SSS (evt (sys k)))) ;;
  (if nonzero id then call (sub_activate_scheduler id) else ret tt) ;;
  upd_sys_evt (upd_SSS (set_cursor 0)) ;;
  upd_sys_evt (upd_SSS (set_event_no 1)) ;;
  upd_sys_evt (upd_HSS (set_event_no 0)) ;;
  upd_sys_evt (upd_RFA (set_rfa_event_no 0)).

Definition sys_goto_hold : M unit :=
  id <- get (fun k => sched_id (HSS (evt (sys k)))) ;;
  (if nonzero id then call (sub_activate_scheduler id) else ret tt) ;;
  upd_sys_evt (upd_HSS (set_event_no 1)) ;;
  upd_sys_evt (upd_SSS (set_event_no 0)) ;;
  upd_sys_evt (upd_RFA (set_rfa_event_no 0)).

Definition sys_idle : M unit :=
  call radio_gag ;;
  call radio_sleep ;;
  set_sys_mutex 0 ;;
  st <- get (fun k => idle_state (dll k)) ;;
  match Z.land st 3 with
  | 0 => sys_goto_off
  | 1 => sys_goto_sleep
  | _ => sys_goto_hold
  end.

Definition sys_panic (err_code : Z) : M unit :=
  set_dll_idle_state 0 ;;
  session_flush ;;
  sys_idle ;;
  call platform_flush_gptim ;;
  call (sig_panic err_code).

Definition sys_default_csma (chan_id : Z) : Z :=
  let chan_id := Z.land chan_id 0x30 in
  Z.shiftl (c_bool ((chan_id =? 0x00) || (chan_id =? 0x30))) 2.

Definition sys_quit_rf : M unit := upd_sys_evt (upd_RFA (set_rfa_event_no 0)).

Definition sys_set_mutex (set_mask : Z) : M unit :=
  modify (upd_sys (upd_mutex (fun m => ot_u8 (Z.lor m (ot_u8 set_mask))))).

Definition sys_clear_mutex (clear_mask : Z) : M unit :=
  modify (upd_sys (upd_mutex (fun m => ot_u8 (Z.land m (Z.lnot clear_mask))))).

Definition sys_get_mutex : M Z := get (fun k => mutex (sys k)).

Definition sub_default_idle : M Z :=
  a <- get (fun k => active (netconf (dll k))) ;;
  let active_setting := Z.land a M2_SET_CLASSMASK in
  if active_setting >=? M2_SET_SUBCONTROLLER then ret M2_MACIDLE_HOLD
  else if nonzero (Z.land active_setting M2_SET_ENDPOINT) then ret M2_MACIDLE_SLEEP
  else ret M2_MACIDLE_OFF.

Definition sched_bit (flag : Z) : M Z :=
  a <- get (fun k => active (netconf (dll k))) ;;
  ret (c_bool (nonzero (Z.land flag a))).

Definition sub_sys_flush : M unit :=
  let accum := 0 in
  session_init ;;
  st <- sub_default_idle ;;
  set_dll_idle_state st ;;
  b <- sched_bit M2_SET_SLEEPSCHED ;;
  let accum := ot_u8 (accum + b) in
  upd_sys_evt (upd_SSS (set_sched_id accum)) ;;
  upd_sys_evt (upd_SSS (set_cursor 0)) ;;
  upd_sys_evt (upd_SSS (set_nextevent 0)) ;;
  b <- sched_bit M2_SET_HOLDSCHED ;;
  let accum := ot_u8 (accum + b) in
  upd_sys_evt (upd_HSS (set_sched_id accum)) ;;
  upd_sys_evt (upd_HSS (set_cursor 0)) ;;
  upd_sys_evt (upd_HSS (set_nextevent 0)) ;;
  b <- sched_bit M2_SET_BEACONSCHED ;;
  let accum := ot_u8 (accum + b) in
  upd_sys_evt (upd_BTS (set_sched_id accum)) ;;
  upd_sys_evt (upd_BTS (set_cursor 0)) ;;
  ba <- get (fun k => b_attempts (netconf (dll k))) ;;
  upd_sys_evt (upd_BTS (set_event_no (c_bool (nonzero ba)))) ;;
  upd_sys_evt (upd_BTS (set_nextevent 0)) ;;
  sys_idle.

Definition upd_dll_netconf (f : netconf_struct -> netconf_struct) : M unit :=
  modify (upd_dll (upd_netconf f)).

Definition sys_refresh : M unit :=
  fp <- ISF_open_su 0x00 ;;
  scratch <- vl_read fp 2 ;;
  upd_dll_netconf (fun n => Build_netconf_struct (ubyte 0 scratch) (b_subnet n)
                     (dd_flags n) (b_attempts n) (active n) (hold_limit n)) ;;
  upd_dll_netconf (fun n => Build_netconf_struct (subnet n) (ubyte 1 scratch)
                     (dd_flags n) (b_attempts n) (active n) (hold_limit n)) ;;
  scratch <- vl_read fp 6 ;;
  upd_dll_netconf (fun n => Build_netconf_struct (subnet n) (b_subnet n)
                     (ubyte 0 scratch) (b_attempts n) (active n) (hold_limit n)) ;;
  upd_dll_netconf (fun n => Build_netconf_struct (subnet n) (b_subnet n)
                     (dd_flags n) (ubyte 1 scratch) (active n) (hold_limit n)) ;;
  a <- vl_read fp 4 ;;
  upd_dll_netconf (fun n => Build_netconf_struct (subnet n) (b_subnet n)
                     (dd_flags n) (b_attempts n) a (hold_limit n)) ;;
  h <- vl_read fp 8 ;;
  upd_dll_netconf (fun n => Build_netconf_struct (subnet n) (b_subnet n)
                     (dd_flags n) (b_attempts n) (active n) h) ;;
  call (vl_close fp) ;;
  sub_sys_flush.

Definition sys_init : M unit :=
  upd_sys_evt (upd_EXT (set_event_no 0)) ;;
  call network_init ;;
  call m2qp_init ;;
  call auth_init ;;
  call ext_init ;;
  sys_refresh.

Definition sys_change_settings (new_mask new_settings : Z) : M unit :=
  fp_active <- ISF_open_su 0x00 ;;
  fp_supported <- ISF_open_su 0x01 ;;
  s <- vl_read fp_supported 8 ;;
  let new_mask := ot_u16 (Z.land new_mask s) in
  a <- vl_read fp_active 4 ;;
  let new_settings := ot_u16 (Z.land new_settings new_mask) in
  let a := ot_u16 (Z.land a (Z.lnot new_mask)) in
  let a := ot_u16 (Z.lor a new_settings) in
  upd_dll_netconf (fun n => Build_netconf_struct (subnet n) (b_subnet n)
                     (dd_flags n) (b_attempts n) a (hold_limit n)) ;;
  vl_write fp_active 4 a ;;
  call (vl_close fp_active) ;;
  call (vl_close fp_supported) ;;
  sub_sys_flush.

(** ** Idle-time events *)

Definition idle_field {A} (i : nat) (f : idletime_event -> A) : M A :=
  get (fun k => f (idle i (evt (sys k)))).
Definition upd_idle_evt (i : nat) (f : idletime_event -> idletime_event) : M unit :=
  upd_sys_evt (upd_idle i f).

(** [idlevt->cursor += 2], handing back the new cursor. *)
Definition cursor_advance (i : nat) : M Z :=
  upd_idle_evt i (fun e => set_cursor (ot_int (cursor e + 2)) e) ;;
  idle_field i cursor.

(** The two-byte Next Scan field, stored big endian. *)
Definition read_nextevent (fp : Z) (i : nat) : M unit :=
  c <- cursor_advance i ;;
  v <- vl_read fp c ;;
  upd_idle_evt i (set_nextevent (ot_long (if big_endian then v else swap16 v))).

Definition cursor_wrap (fp : Z) (i : nat) : M unit :=
  upd_idle_evt i (fun e => set_cursor (ot_int (cursor e + 2)) e) ;;
  c <- idle_field i cursor ;;
  len <- fp_length fp ;;
  (if c >=? len then upd_idle_evt i (set_cursor 0) else ret tt).

Definition sub_scan_channel (i : nat) (SS_ISF : Z) : M unit :=
  call (sig_prestart i) ;;
  fp <- ISF_open_su SS_ISF ;;
  c <- idle_field i cursor ;;
  scratch <- vl_read fp c ;;
  let s_channel := ubyte 0 scratch in
  let s_flags := ubyte 1 scratch in
  read_nextevent fp i ;;
  cursor_wrap fp i ;;
  call (vl_close fp) ;;
  upd_dll_comm (set_rx_timeout (otutils_calc_timeout s_flags)) ;;
  upd_dll_comm (set_redundants 0) ;;
  upd_dll_comm (set_rx_channels 1) ;;
  upd_dll_comm (set_rx_chanlist (Scratch 1)) ;;
  upd_dll_comm (set_scratch1 s_channel) ;;
  let s_flags :=
    if nonzero (Z.land s_flags 0x80)
    then Z.lor (Z.lor M2_NETSTATE_REQRX M2_NETSTATE_INIT) M2_NETFLAG_FLOOD
    else Z.lor M2_NETSTATE_REQRX M2_NETSTATE_INIT in
  session_new 0 (ot_u8 s_flags) s_channel ;;
  ret tt.

Definition sysevt_holdscan : M unit := sub_scan_channel 0 ISF_ID_hold_scan_sequence.
Definition sysevt_sleepscan : M unit := sub_scan_channel 1 ISF_ID_sleep_scan_sequence.

Definition upd_txq_ (f : Queue -> Queue) : M unit := modify (upd_txq f).
Definition q_writebyte_txq (byte_in : Z) : M unit := upd_txq_ (q_writebyte_ (ot_u8 byte_in)).

Definition sysevt_beacon : M unit :=
  fp <- ISF_open_su ISF_ID_beacon_transmit_sequence ;;
  ba <- get (fun k => b_attempts (netconf (dll k))) ;;
  len <- fp_length fp ;;
  if (ba =? 0) || (len =? 0) then
    call (vl_close fp) ;;
    upd_idle_evt 2 (set_nextevent 65535)
  else
    c <- idle_field 2 cursor ;;
    scratch <- vl_read fp c ;;
    session <- session_new 0 (Z.lor M2_NETSTATE_INIT M2_NETFLAG_FIRSTRX) (ubyte 0 scratch) ;;
    bs <- get (fun k => b_subnet (netconf (dll k))) ;;
    store session (set_s_subnet bs) ;;
    let beacon_params := ubyte 1 scratch in
    ddf <- get (fun k => dd_flags (netconf (dll k))) ;;
    store session (set_s_flags (ot_u8 (Z.land ddf (Z.lnot 0x30)))) ;;
    store session (fun s => set_s_flags (Z.lor (s_flags s) (Z.land beacon_params 0x30)) s) ;;
    c <- cursor_advance 2 ;;
    u0 <- vl_read fp c ;;
    c <- cursor_advance 2 ;;
    u1 <- vl_read fp c ;;
    let beacon_queue := [ubyte 0 u0; ubyte 1 u0; ubyte 0 u1; ubyte 1 u1] in
    read_nextevent fp 2 ;;
    cursor_wrap fp 2 ;;
    call (vl_close fp) ;;
    modify (m2np_header_ session 0x40 0) ;;
    q_writebyte_txq (0x20 + Z.land beacon_params 1) ;;
    upd_txq_ (fun q => Build_Queue (q_alloc q) (q_length q)
                (poke (Z.to_nat (q_putcursor q)) (Z.land beacon_params 0x04) (q_front q))
                (q_getcursor q) (q_putcursor q)) ;;
    let increment := c_bool (nonzero (Z.land beacon_params 0x04)) in
    upd_txq_ (fun q => Build_Queue (q_alloc q) (q_length q) (q_front q)
                (q_getcursor q) (q_putcursor q + increment)) ;;
    upd_txq_ (fun q => Build_Queue (q_alloc q) (ot_u16 (q_length q + increment)) (q_front q)
                (q_getcursor q) (q_putcursor q)) ;;
    upd_dll_comm (set_tc M2_PARAM_BEACON_TCA) ;;
    s <- deref session ;;
    upd_dll_comm (set_rx_timeout
      (if nonzero (Z.land beacon_params 0x02) then 0 else rm2_default_tgd (s_channel s))) ;;
    rt <- get (fun k => rx_timeout (comm (dll k))) ;;
    q_writebyte_txq rt ;;
    s <- deref session ;;
    upd_dll_comm (set_csmaca_params (sys_default_csma (s_channel s))) ;;
    upd_dll_comm (fun c => set_csmaca_params
      (Z.lor (csmaca_params c) (Z.land beacon_params 0x04)) c) ;;
    upd_dll_comm (fun c => set_csmaca_params
      (ot_u8 (Z.lor (csmaca_params c) (Z.lor M2_CSMACA_NA2P M2_CSMACA_MACCA))) c) ;;
    ba <- get (fun k => b_attempts (netconf (dll k))) ;;
    upd_dll_comm (set_redundants ba) ;;
    upd_dll_comm (set_tx_channels 1) ;;
    upd_dll_comm (set_rx_channels 1) ;;
    upd_dll_comm (set_tx_chanlist (Scratch 0)) ;;
    upd_dll_comm (set_rx_chanlist (Scratch 1)) ;;
    s <- deref session ;;
    upd_dll_comm (set_scratch0 (s_channel s)) ;;
    s <- deref session ;;
    upd_dll_comm (set_scratch1 (s_channel s)) ;;
    r <- lift (m2qp_isf_call_ (Z.land beacon_params 1) beacon_queue AUTH_GUEST) ;;
    if r >=? 0 then
      modify (m2np_footer_ session) ;;
      call (sig_prestart 2)
    else
      session_pop.

(** ** Radio I/O events *)

Definition chan0 (l : chanlist) (c : m2comm_struct) : Z :=
  match l with
  | Scratch 0 => scratch0 c
  | Scratch _ => scratch1 c
  | Foreign l => hd 0 l
  end.

Definition rx_chanlist0 : M Z := get (fun k => chan0 (rx_chanlist (comm (dll k))) (comm (dll k))).

Definition upd_RFA_ (f : radio_event -> radio_event) : M unit := upd_sys_evt (upd_RFA f).
Definition RFA_event_no : M Z := get (fun k => rfa_event_no (RFA (evt (sys k)))).
Definition comm_field {A} (f : m2comm_struct -> A) : M A := get (fun k => f (comm (dll k))).

Definition sysevt_receive : M unit :=
  m <- sys_get_mutex ;;
  p <- comm_field csmaca_params ;;
  if (Z.land m SYS_MUTEX_RADIO_DATA =? 0) || nonzero (Z.land p M2_CSMACA_A2P)
  then call rm2_rxtimeout_isr
  else ret tt.

Definition sysevt_bscan : M unit :=
  call (sig_rfainit 1) ;;
  upd_RFA_ (set_rfa_event_no 1) ;;
  rt <- comm_field rx_timeout ;;
  upd_RFA_ (set_rfa_nextevent (ot_long rt)) ;;
  set_sys_mutex SYS_MUTEX_RADIO_LISTEN ;;
  ch <- rx_chanlist0 ;;
  call (rm2_rxinit_bf ch).

Definition rfevt_bscan (scode fcode : Z) : M unit :=
  red <- comm_field redundants ;;
  if (scode =? -1) && nonzero red then
    ch <- rx_chanlist0 ;;
    call (rm2_rxinit_bf ch)
  else
    call radio_sleep ;;
    session_pop ;;
    pass <- (if scode >=? 0 then sub_mac_filter else ret false) ;;
    (if pass then
       set_sys_mutex SYS_MUTEX_PROCESSING ;;
       modify network_parse_bf_
     else ret tt) ;;
    call (sig_rfaterminate 1 scode) ;;
    set_sys_mutex 0 ;;
    upd_RFA_ (set_rfa_event_no 0).

Definition sysevt_fscan : M unit :=
  call (sig_rfainit 2) ;;
  set_sys_mutex SYS_MUTEX_RADIO_LISTEN ;;
  rt <- comm_field rx_timeout ;;
  upd_RFA_ (set_rfa_nextevent (ot_long rt)) ;;
  upd_RFA_ (set_rfa_event_no 2) ;;
  session <- session_top ;;
  s <- deref session ;;
  call (rm2_rxinit_ff (s_channel s) 0).

(** [frx_code] is a local that the timeout branch never assigns: its value
    there is whatever the stack held, [frx_code0]. *)
Definition rfevt_frx (frx_code0 : Z) (pcode fcode : Z) : M unit :=
  session <- session_top ;;
  r <- (if pcode <? 0 then
          upd_RFA_ (set_rfa_event_no 0) ;;
          red <- comm_field redundants ;;
          p <- comm_field csmaca_params ;;
          (if nonzero red then
             store session (set_s_netstate
               (Z.lor (Z.lor M2_NETSTATE_REQTX M2_NETSTATE_INIT) M2_NETFLAG_FIRSTRX))
           else if nonzero (Z.land p M2_CSMACA_A2P) then
             store session (fun s => set_s_netstate (ot_u8 (Z.lxor (s_netstate s) 0x30)) s)
           else
             store session (set_s_netstate M2_NETFLAG_SCRAP)) ;;
          ret (pcode, frx_code0)
        else
          frx_code <-
            (if nonzero fcode then
               s <- deref session ;;
               (if nonzero (Z.land (s_netstate s) M2_NETSTATE_DSDIALOG)
                then modify (m2dp_mark_dsframe_ session) else ret tt) ;;
               ret (-1)
             else
               pass <- sub_mac_filter ;;
               ret (if pass then 0 else -4)) ;;
          (if pcode =? 0 then
             s <- deref session ;;
             let fcode := Z.land (s_netstate s) M2_NETSTATE_RESP in
             (if frx_code =? 0 then sys_set_mutex SYS_MUTEX_PROCESSING else ret tt) ;;
             (if nonzero (Z.lor frx_code fcode) then
                call (rm2_reenter_rx 0) ;;
                ret (frx_code, frx_code)
              else if fcode =? 0 then
                upd_RFA_ (set_rfa_event_no 0) ;;
                call radio_sleep ;;
                ret (pcode, frx_code)
              else ret (pcode, frx_code))
           else ret (pcode, frx_code))) ;;
  let pcode := fst r in
  let frx_code := snd r in
  ev <- RFA_event_no ;;
  (if ev =? 0 then call (sig_rfaterminate 2 frx_code) else ret tt) ;;
  (if pcode =? 0 then call platform_ot_preempt else ret tt).

Definition sysevt_initbtx : M unit :=
  upd_RFA_ (set_rfa_event_no 3) ;;
  call (sig_rfainit 3) ;;
  call rm2_txinit_bf ;;
  set_sys_mutex SYS_MUTEX_RADIO_LISTEN ;;
  upd_RFA_ (set_rfa_nextevent 0) ;;
  upd_dll_comm (fun c => set_tca (tc c) c).

Definition sysevt_initftx : M unit :=
  upd_RFA_ (set_rfa_event_no 4) ;;
  call (sig_rfainit 4) ;;
  call (rm2_txinit_ff 0) ;;
  set_sys_mutex SYS_MUTEX_RADIO_LISTEN ;;
  n <- sub_fcinit ;;
  upd_RFA_ (set_rfa_nextevent (ot_long n)) ;;
  upd_dll_comm (fun c => set_tca (tc c) c).

Definition sysevt_txcsma_fail (csma_code : Z) : M unit :=
  call (sig_rfaterminate 3 csma_code) ;;
  session_pop ;;
  sys_idle.

Definition sysevt_txcsma : M unit :=
  let csma_code := -1 in
  a <- comm_field tca ;;
  if a >=? 0 then
    csma_code <- rm2_txcsma_ ;;
    if csma_code =? RM2_ERR_BADCHANNEL then sysevt_txcsma_fail csma_code
    else if csma_code =? RM2_ERR_CCAFAIL then
      n <- sub_fcloop ;;
      upd_RFA_ (set_rfa_nextevent (ot_long n))
    else if csma_code =? -1 then
      set_sys_mutex SYS_MUTEX_RADIO_DATA ;;
      upd_RFA_ (fun e => set_rfa_event_no (ot_u8 (rfa_event_no e + 2)) e) ;;
      ev <- RFA_event_no ;;
      adv <- get (fun k => adv_time (evt (sys k))) ;;
      len <- get (fun k => q_length (txq k)) ;;
      upd_RFA_ (set_rfa_nextevent (ot_long (if ev =? 5 then adv else rm2_pkt_duration len)))
    else
      upd_RFA_ (set_rfa_nextevent (ot_long csma_code))
  else sysevt_txcsma_fail csma_code.

Definition rfevt_ftx (pcode scratch : Z) : M unit :=
  if pcode =? 1 then ret tt
  else
    set_sys_mutex 0 ;;
    upd_RFA_ (set_rfa_event_no 0) ;;
    session <- session_top ;;
    rt <- comm_field rx_timeout ;;
    let scrap_bit := c_bool (rt =? 0) in
    s <- deref session ;;
    let scrap_bit :=
      Z.lor scrap_bit (c_bool (nonzero (Z.land (s_netstate s) M2_NETSTATE_RESPTX))) in
    upd_dll_comm (fun c => set_redundants (ot_u8 (redundants c - 1)) c) ;;
    red <- comm_field redundants ;;
    (if nonzero scrap_bit && nonzero red then
       upd_dll_comm (set_csmaca_params (Z.lor M2_CSMACA_NOCSMA M2_CSMACA_MACCA)) ;;
       call rm2_prep_resend
     else
       let scrap_bit := Z.lor scrap_bit (c_bool (nonzero pcode)) in
       store session (fun s => set_s_netstate
         (ot_u8 (Z.lor (s_netstate s) (Z.shiftl scrap_bit 7))) s) ;;
       store session (fun s => set_s_netstate
         (ot_u8 (Z.land (s_netstate s) (Z.lnot M2_NETSTATE_TMASK))) s) ;;
       store session (fun s => set_s_netstate
         (ot_u8 (Z.lor (s_netstate s) M2_NETSTATE_RESPRX)) s)) ;;
    call (sig_rfaterminate 5 pcode) ;;
    call platform_ot_preempt.

Definition rfevt_btx (flcode scratch : Z) : M unit :=
  match flcode with
  | 0 =>
      call (sig_rfaterminate 4 0) ;;
      modify m2advp_close_ ;;
      session <- session_top ;;
      store session (set_s_counter 0) ;;
      upd_sys_evt (upd_adv_time (fun _ => 0)) ;;
      upd_RFA_ (set_rfa_event_no 0) ;;
      set_sys_mutex 0 ;;
      upd_dll_comm (set_tc 2) ;;
      upd_dll_comm (set_csmaca_params (Z.lor M2_CSMACA_NOCSMA M2_CSMACA_MACCA)) ;;
      upd_dll_comm (set_redundants 1) ;;
      call platform_ot_preempt
  | 2 =>
      adv <- get (fun k => adv_time (evt (sys k))) ;;
      now <- platform_get_gptim_ ;;
      let scratch := ot_int (adv - now) in
      if scratch <? rm2_pkt_duration 7 then call rm2_txstop_flood
      else
        upd_txq_ (fun q => Build_Queue (q_alloc q) (q_length q)
          (poke 3 (ot_u8 (Z.shiftr (ot_u16 scratch) 8)) (q_front q))
          (q_getcursor q) (q_putcursor q)) ;;
        upd_txq_ (fun q => Build_Queue (q_alloc q) (q_length q)
          (poke 4 (ot_u8 scratch) (q_front q)) (q_getcursor q) (q_putcursor q)) ;;
        upd_txq_ (fun q => Build_Queue (q_alloc q) (q_length q) (q_front q)
          (q_getcursor q) 5)
  | _ =>
      call (sig_rfaterminate 4 flcode) ;;
      sys_idle ;;
      call platform_ot_preempt
  end.

(** ** The event manager *)

Definition SYS_WATCHDOG_RUN : M unit :=
  modify (upd_sys (upd_watchdog (fun w => ot_int (w - 1)))).
Definition SYS_WATCHDOG_RESET : M unit :=
  modify (upd_sys (upd_watchdog (fun _ => SWDP))).
Definition SYS_WATCHDOG_CHECK : M unit :=
  w <- get (fun k => watchdog (sys k)) ;;
  if w <=? 0 then call rm2_kill else ret tt.

(** A halfword of an ISF file read as the big-endian number it stores. *)
Definition ISF_read_be (fp offset : Z) : M Z :=
  get (fun k => file_byte (isf k fp) offset * 256 + file_byte (isf k fp) (offset + 1)).

Definition sub_idlevt_ctrl (i : nat) (eta : Z) (sequence_id : Z) : M Z :=
  id <- idle_field i sched_id ;;
  (if nonzero id then
     fp <- ISF_open_su ISF_ID_real_time_scheduler ;;
     let offset := ot_int (Z.shiftl (sequence_id - 4) 2) in
     ssmask <- ISF_read_be fp offset ;;
     let offset := ot_int (offset + 2) in
     ssvalue <- ISF_read_be fp offset ;;
     call (vl_close fp) ;;
     call (platform_set_rtc_alarm id ssmask ssvalue) ;;
     upd_idle_evt i (set_cursor 0) ;;
     upd_idle_evt i (set_nextevent 0)
   else ret tt) ;;
  n <- idle_field i nextevent ;;
  ret (if n <? eta then n else eta).

Definition isf_lut (i : nat) : Z :=
  match i with
  | 0%nat => ISF_ID_hold_scan_sequence
  | 1%nat => ISF_ID_sleep_scan_sequence
  | 2%nat => ISF_ID_beacon_transmit_sequence
  | _ => 0xFF
  end.

(** [for (i = n-1; i >= 0; i--)] of [sub_next_event]. *)
Fixpoint sub_next_event_loop (n : nat) (event_eta : Z) : M Z :=
  match n with
  | O => ret event_eta
  | S i =>
      e <- idle_field i event_no ;;
      event_eta <- (if nonzero e then sub_idlevt_ctrl i event_eta (isf_lut i)
                    else ret event_eta) ;;
      sub_next_event_loop i event_eta
  end.

Definition sub_next_event : M Z := sub_next_event_loop IDLE_EVENTS 65535.

(** [for (i = n-1; i >= 0; i--)] of [sub_clock_tasks]. *)
Fixpoint sub_clock_tasks_loop (n : nat) (elapsed : Z) (output : Task_Index) : M Task_Index :=
  match n with
  | O => ret output
  | S i =>
      upd_idle_evt i (fun e => set_nextevent (ot_long (nextevent e - ot_long elapsed)) e) ;;
      e <- idle_field i (fun e => e) ;;
      let output :=
        if nonzero (event_no e) && (nextevent e <=? 0) then TASK_hold_plus i else output in
      sub_clock_tasks_loop i elapsed output
  end.

Definition sub_clock_tasks (elapsed : Z) : M Task_Index :=
  let output := TASK_idle in
  upd_dll_comm (fun c => set_tca (ot_long (tca c - elapsed)) c) ;;
  output <- sub_clock_tasks_loop IDLE_EVENTS elapsed output ;;
  r <- session_refresh elapsed ;;
  let output := if r then TASK_session else output in
  ev <- RFA_event_no ;;
  output <- (if nonzero ev then
               upd_RFA_ (fun e => set_rfa_nextevent (ot_long (rfa_nextevent e - elapsed)) e) ;;
               ret TASK_radio
             else ret output) ;;
  m <- sys_get_mutex ;;
  let output := if nonzero (Z.land m SYS_MUTEX_PROCESSING) then TASK_processing else output in
  ret output.

(** The bodies of the dispatcher's [switch]: [Some v] is [return v], [None]
    is [break]. *)

Definition task_idle : M (option Z) :=
  n <- session_count ;;
  early <- (if n >=? 0 then
              session <- session_top ;;
              s <- deref session ;;
              ret (if nonzero (Z.land (s_netstate s) M2_NETSTATE_CONNECTED)
                   then Some (ot_uint (s_counter s)) else None)
            else ret None) ;;
  match early with
  | Some v => ret (Some v)
  | None =>
      go <- lift sys_loadapp_ ;;
      if go then ret None
      else
        event_eta <- sub_next_event ;;
        if event_eta <=? 0 then ret None else ret (Some (ot_uint event_eta))
  end.

Definition task_processing : M (option Z) :=
  session <- session_top ;;
  store session (set_s_counter 0) ;;
  proc_score <- lift (network_route_ff_ session) ;;
  (if proc_score >=? 0 then
     sub_fceval proc_score ;;
     upd_sys_evt (upd_hold_cycle (fun _ => 0)) ;;
     set_dll_idle_state M2_MACIDLE_HOLD ;;
     s <- deref session ;;
     (if nonzero (Z.land (s_flags s) M2FI_LISTEN) then
        t <- comm_field tc ;;
        session_refresh (ot_uint t) ;;
        session_drop ;;
        t <- comm_field tc ;;
        ch <- rx_chanlist0 ;;
        s_clone <- session_new (ot_uint t)
                     (Z.lor M2_NETSTATE_REQRX M2_NETSTATE_ASSOCIATED) ch ;;
        s <- deref session ;;
        store s_clone (set_s_dialog_id (s_dialog_id s)) ;;
        s <- deref session ;;
        store s_clone (set_s_subnet (s_subnet s)) ;;
        s <- deref session ;;
        store s_clone (set_s_channel (s_channel s)) ;;
        upd_dll_comm (set_redundants 0) ;;
        upd_dll_comm (set_rx_chanlist (Scratch 1)) ;;
        s <- deref session ;;
        upd_dll_comm (set_scratch1 (s_channel s)) ;;
        upd_dll_comm (set_rx_timeout 10) ;;
        len <- get (fun k => q_length (txq k)) ;;
        upd_dll_comm (fun c => set_tc (ot_long (tc c - rm2_pkt_duration len)) c)
      else ret tt)
   else ret tt) ;;
  modify (upd_sys (upd_mutex (fun m => ot_u8 (Z.land m (Z.lnot SYS_MUTEX_PROCESSING))))) ;;
  ret None.

Definition task_radio : M (option Z) :=
  n <- get (fun k => rfa_nextevent (RFA (evt (sys k)))) ;;
  if n <=? 0 then
    ev <- RFA_event_no ;;
    if ev <? 3 then sysevt_receive ;; ret None
    else if ev <? 5 then sysevt_txcsma ;; ret None
    else SYS_WATCHDOG_RUN ;; ret (Some 1)
  else ret (Some (ot_uint n)).

Definition task_session : M (option Z) :=
  session_drop ;;
  st <- sub_default_idle ;;
  set_dll_idle_state st ;;
  ns <- session_netstate ;;
  let call_code := ot_u8 (Z.shiftr ns 5) in
  (if nonzero (Z.land call_code 4) then
     session_pop ;;
     sys_idle
   else
     match call_code with
     | 0 => sysevt_initftx
     | 1 => sysevt_fscan
     | 2 => sysevt_initbtx
     | _ => sysevt_bscan
     end) ;;
  ret None.

Definition task_hold : M (option Z) :=
  c <- idle_field 0 cursor ;;
  upd_sys_evt (upd_hold_cycle (fun h => ot_uint (h + ot_uint (c_bool (c =? 0))))) ;;
  a <- get (fun k => active (netconf (dll k))) ;;
  h <- get (fun k => hold_cycle (evt (sys k))) ;;
  lim <- get (fun k => hold_limit (netconf (dll k))) ;;
  (if (Z.land a M2_SET_CLASSMASK =? M2_SET_ENDPOINT) && (h =? lim) then
     sys_goto_sleep ;;
     sysevt_sleepscan
   else
     sysevt_holdscan) ;;
  ret None.

Definition task_sleep : M (option Z) := sysevt_sleepscan ;; ret None.
Definition task_beacon : M (option Z) := sysevt_beacon ;; ret None.
Definition task_external : M (option Z) := call (sig_prestart 3) ;; ret None.
Definition task_default : M (option Z) := sys_panic 64 ;; ret None.

Definition run_task (t : Task_Index) : M (option Z) :=
  match t with
  | TASK_idle => task_idle
  | TASK_processing => task_processing
  | TASK_radio => task_radio
  | TASK_session => task_session
  | TASK_hold => task_hold
  | TASK_sleep => task_sleep
  | TASK_beacon => task_beacon
  | TASK_external => task_external
  | TASK_terminus => task_default
  end.

(** One pass through the body of the dispatcher's [do ... while (1)]. *)
Definition dispatch (elapsed : Z) : M (option Z) :=
  call platform_flush_gptim ;;
  SYS_WATCHDOG_CHECK ;;
  t <- sub_clock_tasks elapsed ;;
  run_task t.

Fixpoint sys_event_manager (fuel : nat) (elapsed : Z) : M Z :=
  match fuel with
  | O => fail OutOfFuel
  | S fuel =>
      r <- dispatch elapsed ;;
      match r with
      | Some v => ret v
      | None =>
          SYS_WATCHDOG_RESET ;;
          elapsed <- platform_get_gptim_ ;;
          sys_event_manager fuel elapsed
      end
  end.

(** ** OTAPI server functions *)

Record session_tmpl := Build_session_tmpl {
  t_channel : Z;
  t_subnetmask : Z;
  t_subnet : Z;
  t_flagmask : Z;
  t_flags : Z;
  t_timeout : Z
}.

Definition otapi_new_session (s_tmpl : session_tmpl) : M Z :=
  session_flush ;;
  session <- session_new 0 (Z.lor M2_NETSTATE_INIT M2_NETSTATE_REQTX) (t_channel s_tmpl) ;;
  match session with
  | None => ret 0
  | Some _ =>
      ds <- get (fun k => subnet (netconf (dll k))) ;;
      store session (set_s_subnet (ot_u8
        (Z.lor (Z.land ds (Z.lnot (t_subnetmask s_tmpl)))
               (Z.land (t_subnet s_tmpl) (t_subnetmask s_tmpl))))) ;;
      ddf <- get (fun k => dd_flags (netconf (dll k))) ;;
      store session (set_s_flags (ot_u8
        (Z.lor (Z.land ddf (Z.lnot (t_flagmask s_tmpl)))
               (Z.land (t_flags s_tmpl) (t_flagmask s_tmpl))))) ;;
      upd_dll_comm (set_tc (t_timeout s_tmpl)) ;;
      upd_dll_comm (set_redundants 1) ;;
      upd_dll_comm (set_tx_channels 1) ;;
      upd_dll_comm (set_rx_channels 1) ;;
      s <- deref session ;;
      upd_dll_comm (set_scratch0 (s_channel s)) ;;
      upd_dll_comm (set_tx_chanlist (Scratch 0)) ;;
      upd_dll_comm (set_rx_chanlist (Scratch 0)) ;;
      upd_dll_comm (set_csmaca_params (Z.lor M2_CSMACA_NA2P M2_CSMACA_MACCA)) ;;
      s <- deref session ;;
      ret (ot_u16 (session_id_ s))
  end.

Definition otapi_open_request (addr : Z) : M Z :=
  n <- session_count ;;
  if n >=? 0 then
    session <- session_top ;;
    (if Z.land addr 0x40 =? 0 then call platform_memcpy_rt else ret tt) ;;
    modify (m2np_header_ session (ot_u8 addr) 0) ;;
    ret 1
  else ret 0.

Definition otapi_close_request : M Z :=
  n <- session_count ;;
  if n >=? 0 then
    session <- session_top ;;
    modify (m2np_footer_ session) ;;
    ret 1
  else ret 0.

Definition otapi_start_dialog : M Z :=
  m <- sys_get_mutex ;;
  (if nonzero m then
     set_sys_mutex 0 ;;
     call rm2_kill
   else ret tt) ;;
  call platform_ot_preempt ;;
  ret 1.

Definition otapi_start_flood (fuel : nat) (flood_duration : Z) : M Z :=
  session <- session_top ;;
  if flood_duration =? 0 then otapi_start_dialog
  else
    r <- lift (m2advp_init_flood_ session flood_duration) ;;
    if r <? 0 then
      session_pop ;;
      ret 0
    else
      sysevt_initbtx ;;
      sys_event_manager fuel 0.

Definition otapi_sysinit : M Z := sys_refresh ;; ret 1.

End Kernel.

(** * OT_utils.h *)

Definition ot_u32 (z : Z) : Z := z mod 2 ^ 32.

Section Utilities.
Context {MC : Macros}.

(** ** Big Endian converters

    The two branches of [#ifdef __BIG_ENDIAN__]. *)

Definition PUT_BE_U16 (DAT : Z) : Z :=
  if big_endian then ot_u16 DAT
  else ot_u16 (Z.lor (Z.shiftr (ot_u16 DAT) 8) (Z.shiftl (ot_u16 DAT) 8)).

Definition PUT_BE_U32 (DAT : Z) : Z :=
  if big_endian then ot_u32 DAT
  else Z.lor (Z.lor (Z.lor (Z.shiftr (ot_u32 DAT) 24)
                           (Z.land (ot_u32 (Z.shiftl (ot_u32 DAT) 8)) 0x00FF0000))
                    (Z.land (Z.shiftr (ot_u32 DAT) 8) 0x0000FF00))
             (ot_u32 (Z.shiftl (ot_u32 DAT) 24)).

Definition GET_BE_U16 (DAT : Z) : Z := PUT_BE_U16 DAT.
Definition GET_BE_U32 (DAT : Z) : Z := PUT_BE_U32 DAT.

Definition FLIP_BE_U32 (DAT : Z) : Z :=
  if big_endian then ot_u32 DAT
  else ot_u32 (Z.lor (Z.shiftr (ot_u32 DAT) 16) (ot_u32 (Z.shiftl (ot_u32 DAT) 16))).

(** [((ot_u8* )&(DAT))[0]] and [[1]] of a halfword in memory. *)
Definition GET_B0_U16 (DAT : Z) : Z := ubyte 0 DAT.
Definition GET_B1_U16 (DAT : Z) : Z := ubyte 1 DAT.

End Utilities.

(** ** Duff's device

    [aAction] is a statement: here a change of some state [S].  The
    [switch] enters the unrolled body at [case count_ & 0xF], so the first
    pass through the body runs that many actions, or all 16 from [case 0];
    [duff_while] is the rest of the [do ... while (--times_ > 0)], entered
    at its test with a pass just finished.  [times_] passes at most remain
    there, which is the fuel given to it.  [count_ + 15] is taken not to
    overflow the [int] it is computed in, and [>>] of a negative [int] to
    be the arithmetic shift. *)

Fixpoint duff_while {S : Type} (unroll : nat) (aAction : S -> S) (fuel : nat)
    (times_ : Z) (s : S) : S :=
  match fuel with
  | O => s
  | Datatypes.S fuel =>
      let times_ := ot_int (times_ - 1) in
      if times_ >? 0
      then duff_while unroll aAction fuel times_ (Nat.iter unroll aAction s)
      else s
  end.

Definition DUFFLOOP_16 {S : Type} (aCount : Z) (aAction : S -> S) (s : S) : S :=
  let count_ := ot_int aCount in
  let times_ := ot_int (Z.shiftr (count_ + 15) 4) in
  let s :=
    match Z.land count_ 0xF with
    | 0 => Nat.iter 16 aAction s
    | entry => Nat.iter (Z.to_nat entry) aAction s
    end in
  duff_while 16 aAction (Z.to_nat times_) times_ s.

Definition DUFFLOOP_8 {S : Type} (aCount : Z) (aAction : S -> S) (s : S) : S :=
  let count_ := ot_int aCount in
  let times_ := ot_int (Z.shiftr (count_ + 7) 3) in
  let s :=
    match Z.land count_ 0x7 with
    | 0 => Nat.iter 8 aAction s
    | entry => Nat.iter (Z.to_nat entry) aAction s
    end in
  duff_while 8 aAction (Z.to_nat times_) times_ s.

(** * auth.c *)

(** An id: its length in bytes and the bytes [value] points at; an entry
    of the authentication table, as far as [sub_idcmp] looks into it. *)
Record id_tmpl := Build_id_tmpl {
  id_length : Z;
  id_value : list Z
}.

Record auth_entry := Build_auth_entry {
  a_id : id_tmpl;
  a_mod : Z
}.

Section Authentication.
Context {MC : Macros}.

(** [((ot_u16* )id->value)[i]]: the halfword the host reads there. *)
Definition value_u16 (id : id_tmpl) (i : nat) : Z :=
  halfword (ot_u8 (nth (2 * i) (id_value id) 0)) (ot_u8 (nth (2 * i + 1) (id_value id) 0)).

Definition sub_idcmp (user_id : id_tmpl) (auth_id : auth_entry) : bool :=
  let id_check := true in
  if negb (id_length user_id =? id_length (a_id auth_id)) then false
  else
    let id_check :=
      if id_length user_id =? 8 then
        let id_check := id_check && (value_u16 user_id 3 =? value_u16 (a_id auth_id) 3) in
        let id_check := id_check && (value_u16 user_id 2 =? value_u16 (a_id auth_id) 2) in
        let id_check := id_check && (value_u16 user_id 1 =? value_u16 (a_id auth_id) 1) in
        id_check
      else id_check in
    let id_check := id_check && (value_u16 user_id 0 =? value_u16 (a_id auth_id) 0) in
    id_check.

End Authentication.

(** ** A configuration to run the kernel on

    Values for the constants that agree with what system.c shows of them
    (the order of the idle table, the [>> 5] dispatch of the session task,
    the [^ 0x30] toggle, the scrap bit 7, ISF 04, 05 and 06), for a host of
    either byte order; and plain stand-ins for the sibling modules: an
    unbounded session stack, a queue that appends, and network routines
    that do nothing.  The theorems below hold for every configuration;
    this one only serves to evaluate the functions. *)

Definition sample_macros (be : bool) : Macros := {|
  big_endian := be;
  SWDP := 128;
  SYS_MUTEX_RADIO_LISTEN := 0x01;
  SYS_MUTEX_RADIO_DATA := 0x02;
  SYS_MUTEX_PROCESSING := 0x04;
  M2_NETSTATE_INIT := 0x08;
  M2_NETSTATE_REQTX := 0x00;
  M2_NETSTATE_REQRX := 0x20;
  M2_NETSTATE_RESPTX := 0x10;
  M2_NETSTATE_RESPRX := 0x30;
  M2_NETSTATE_RESP := 0x10;
  M2_NETSTATE_TMASK := 0x70;
  M2_NETSTATE_CONNECTED := 0x02;
  M2_NETSTATE_ASSOCIATED := 0x03;
  M2_NETSTATE_DSDIALOG := 0x04;
  M2_NETFLAG_FIRSTRX := 0x04;
  M2_NETFLAG_FLOOD := 0x40;
  M2_NETFLAG_SCRAP := 0x80;
  M2_SET_CLASSMASK := 0x0700;
  M2_SET_ENDPOINT := 0x0100;
  M2_SET_SUBCONTROLLER := 0x0200;
  M2_SET_SLEEPSCHED := 0x8000;
  M2_SET_HOLDSCHED := 0x4000;
  M2_SET_BEACONSCHED := 0x2000;
  M2_MACIDLE_OFF := 0;
  M2_MACIDLE_SLEEP := 1;
  M2_MACIDLE_HOLD := 2;
  M2_CSMACA_NA2P := 0x00;
  M2_CSMACA_A2P := 0x40;
  M2_CSMACA_MACCA := 0x18;
  M2_CSMACA_NOCSMA := 0x04;
  M2FI_LISTEN := 0x80;
  M2_PARAM_BEACON_TCA := 12;
  RM2_ERR_BADCHANNEL := -3;
  RM2_ERR_CCAFAIL := -4;
  AUTH_GUEST := 0;
  ISF_ID_hold_scan_sequence := 5;
  ISF_ID_sleep_scan_sequence := 4;
  ISF_ID_beacon_transmit_sequence := 6;
  ISF_ID_real_time_scheduler := 3
|}.

Definition sample_refresh (elapsed : Z) (l : list m2session) : bool * list m2session :=
  match l with
  | [] => (false, [])
  | s :: below =>
      let s' := set_s_counter (s_counter s - elapsed) s in
      (s_counter s' <=? 0, s' :: below)
  end.

Definition sample_writebyte (b : Z) (q : Queue) : Queue :=
  Build_Queue (q_alloc q) (q_length q + 1)
    (list_upd (Z.to_nat (q_putcursor q)) (fun _ => b) (q_front q))
    (q_getcursor q) (q_putcursor q + 1).

Definition sample_modules : Modules := {|
  session_init_ := fun _ => [];
  session_new_ := fun wait netstate channel l =>
    Some (Build_m2session channel 0 0 0 netstate wait :: l);
  session_flush_ := filter (fun s => 0 <? s_counter s);
  session_drop_ := fun l => l;
  session_refresh_ := sample_refresh;
  q_writebyte_ := sample_writebyte;
  rm2_pkt_duration := fun n => n;
  rm2_default_tgd := fun _ => 5;
  otutils_calc_timeout := fun code => Z.shiftl (Z.land code 0x0F) (2 * Z.shiftr (Z.land code 0x70) 4);
  network_route_ff_ := fun _ k => (0, k);
  network_parse_bf_ := fun k => k;
  m2np_header_ := fun _ _ _ k => k;
  m2np_footer_ := fun _ k => k;
  m2qp_isf_call_ := fun _ _ _ k => (0, k);
  m2advp_init_flood_ := fun _ _ k => (0, k);
  m2advp_close_ := fun k => k;
  m2dp_mark_dsframe_ := fun _ k => k;
  sys_loadapp_ := fun k => (false, k);
  session_id_ := fun s => s_channel s * 256 + s_subnet s
|}.

Definition idle_off : idletime_event := Build_idletime_event 0 0 0 0.
Definition idle_due : idletime_event := Build_idletime_event 1 0 0 0.

Definition sample_comm : m2comm_struct :=
  Build_m2comm_struct 1000 1000 50 0 2 1 1 (Scratch 0) (Scratch 1) 7 7.

Definition sample_queue (bytes : list Z) : Queue :=
  Build_Queue 256 (Z.of_nat (length bytes)) bytes 0 (Z.of_nat (length bytes)).

(** ISF 0 with [hold_limit] = 0x0102 stored big endian at offset 8; a sleep
    scan sequence of two entries; the other files empty. *)
Definition sample_isf (id : Z) : vlFILE :=
  match id with
  | 0 => Build_vlFILE 10 [0x5A; 0x5A; 0; 0; 0x01; 0x00; 0x30; 3; 0x01; 0x02]
  | 4 => Build_vlFILE 8 [0x10; 0x05; 0x00; 0x64; 0x12; 0x85; 0x01; 0x00]
  | 5 => Build_vlFILE 4 [0x10; 0x05; 0x00; 0x20]
  | _ => Build_vlFILE 0 []
  end.

(** An endpoint in hold, the radio idle, one foreground session on the
    stack, with the given idle events. *)
Definition sample_kernel (hss sss bts : idletime_event) : kernel :=
  Build_kernel
    (Build_sys_struct 0 128
       (Build_sys_evt (Build_radio_event 0 0) hss sss bts idle_off 2 0))
    (Build_m2dll_struct 2 (Build_netconf_struct 0x5A 0x5A 0x30 3 0x0100 3) sample_comm)
    [Build_m2session 0x10 0x5A 0 1 0x30 100]
    (sample_queue [9; 0; 0; 0; 0; 0; 0; 0; 0])
    (sample_queue [9; 0x50; 0xF3; 0; 0; 0; 0; 0; 0])
    sample_isf 80 2 (-60) [12345; 7] [3; 4] [-1] [].

(** ** The statements' vocabulary *)

(** The link loss as [sub_mac_filter] computes it, in [ot_int]. *)
Definition linkloss (k : kernel) : Z :=
  ot_int (ot_int (Z.land (Z.shiftr (front (rxq k) 1) 1) 0x3F) - 40 - ot_int (rssi k)).

Section Dispatcher_terms.
Context {MC : Macros} {MD : Modules}.

(** An idle event after [elapsed] ticks have been taken off its countdown,
    and whether it is then due. *)
Definition clocked (elapsed : Z) (e : idletime_event) : idletime_event :=
  set_nextevent (ot_long (nextevent e - ot_long elapsed)) e.

Definition due (e : idletime_event) : bool :=
  nonzero (event_no e) && (nextevent e <=? 0).

Definition ready_idle (elapsed : Z) (k : kernel) (i : nat) : bool :=
  due (clocked elapsed (idle i (evt (sys k)))).

Definition processing_pending (k : kernel) : bool :=
  nonzero (Z.land (mutex (sys k)) SYS_MUTEX_PROCESSING).

Definition radio_active (k : kernel) : bool :=
  nonzero (rfa_event_no (RFA (evt (sys k)))).

Definition session_ready (elapsed : Z) (k : kernel) : bool :=
  fst (session_refresh_ elapsed (session k)).

Definition lowest_ready (elapsed : Z) (k : kernel) : option nat :=
  find (ready_idle elapsed k) (seq 0 IDLE_EVENTS).


(** The task [sub_clock_tasks] hands back, as a function of the state. *)
Definition task_choice (elapsed : Z) (k : kernel) : Task_Index :=
  if processing_pending k then TASK_processing
  else if radio_active k then TASK_radio
  else if session_ready elapsed k then TASK_session
  else match lowest_ready elapsed k with
       | Some i => TASK_hold_plus i
       | None => TASK_idle
       end.

End Dispatcher_terms.



Definition sample_hold_beacon : kernel := sample_kernel idle_due idle_off idle_due.

Section Hold_terms.
Context {MC : Macros}.

(** The active device class is ENDPOINT. *)
Definition endpoint_class (k : kernel) : Prop :=
  Z.land (active (netconf (dll k))) M2_SET_CLASSMASK = M2_SET_ENDPOINT.

(** [sys.evt.hold_cycle] once a hold-scan dispatch has counted the cycle. *)
Definition hold_cycle_counted (k : kernel) : Z :=
  ot_uint (hold_cycle (evt (sys k)) + c_bool (cursor (HSS (evt (sys k))) =? 0)).

Definition count_hold_cycle (k : kernel) : kernel :=
  upd_sys (upd_evt (upd_hold_cycle (fun _ => hold_cycle_counted k))) k.

End Hold_terms.

(** The calls of a trace that go to the radio driver. *)
Definition is_radio_call (c : ext_call) : bool :=
  match c with
  | radio_gag | radio_sleep | rm2_kill
  | rm2_rxinit_bf _ | rm2_rxinit_ff _ _
  | rm2_rxtimeout_isr | rm2_reenter_rx _
  | rm2_txinit_bf | rm2_txinit_ff _
  | rm2_txcsma | rm2_prep_resend | rm2_txstop_flood => true
  | _ => false
  end.

Definition radio_calls (k : kernel) : list ext_call := filter is_radio_call (trace k).

(** The sixteen bits that the bytes [hi] and [lo], in this order, store
    big endian. *)
Definition big_endian_u16 (hi lo : Z) : Z := hi * 256 + lo.

Definition hold_limit_bytes (k : kernel) : Z * Z :=
  (file_byte (isf k 0) 8, file_byte (isf k 0) 9).

Definition le_host : Macros := sample_macros false.
Definition be_host : Macros := sample_macros true.

(** The sample kernel with only the hold scan due, and its cursor at 0. *)
Definition sample_hold : kernel := sample_kernel idle_due idle_off idle_off.

(** The sample kernel with beacons switched off in the network settings. *)
Definition sample_no_beacon : kernel :=
  upd_dll (upd_netconf (fun n => Build_netconf_struct (subnet n) (b_subnet n)
     (dd_flags n) 0 (active n) (hold_limit n))) sample_hold_beacon.

(** Variations of the sample kernel: other communication parameters,
    active settings, radio event, session stack and flood time. *)
Definition with_comm (f : m2comm_struct -> m2comm_struct) (k : kernel) : kernel :=
  upd_dll (upd_comm f) k.

Definition with_active (a : Z) (k : kernel) : kernel :=
  upd_dll (upd_netconf (fun n =>
    Build_netconf_struct (subnet n) (b_subnet n) (dd_flags n) (b_attempts n) a
      (hold_limit n))) k.

Definition with_RFA (e : radio_event) (k : kernel) : kernel :=
  upd_sys (upd_evt (upd_RFA (fun _ => e))) k.

Definition with_session (l : list m2session) (k : kernel) : kernel :=
  upd_session (fun _ => l) k.

Definition with_adv_time (t : Z) (k : kernel) : kernel :=
  upd_sys (upd_evt (upd_adv_time (fun _ => t))) k.

Definition with_rxq (q : Queue) (k : kernel) : kernel :=
  Build_kernel (sys k) (dll k) (session k) (txq k) q (isf k) (link_qual k) (tg k)
    (rssi k) (prand k) (gptim k) (csma k) (trace k).

(** A subcontroller; a kernel with the radio busy for another 100 ticks;
    one whose top session is marked as scrap; one with a frame of the
    device's own subnet in the RX queue. *)
Definition sample_controller : kernel := with_active 0x0200 sample_hold.
Definition sample_radio_busy : kernel := with_RFA (Build_radio_event 2 100) sample_hold.
Definition sample_session : m2session := Build_m2session 0x10 0x5A 0 1 0x30 100.
Definition sample_scrap : kernel :=
  with_session [Build_m2session 0x10 0x5A 0 1 0x90 0] sample_hold.
Definition sample_own_subnet : kernel :=
  with_rxq (sample_queue [9; 0x50; 0x5A; 0; 0; 0; 0; 0; 0]) sample_hold.

Definition sample_tmpl : session_tmpl := Build_session_tmpl 0x12 0xF0 0x30 0x0F 0x05 512.

(** Two ids of length 4 that differ in their third byte only. *)
Definition sample_user : id_tmpl := Build_id_tmpl 4 [1; 2; 3; 4].
Definition sample_entry : auth_entry := Build_auth_entry (Build_id_tmpl 4 [1; 2; 9; 4]) 7.

(** * Properties *)

(** ** Arithmetic of the casts and masks *)

Lemma land_mask_split (a b : Z) :
  b = Z.land a b + Z.land (Z.lnot a) b.
Proof.
  rewrite Z.add_nocarry_lxor.
  - apply Z.bits_inj'; intros n Hn.
    rewrite Z.lxor_spec, !Z.land_spec, Z.lnot_spec by exact Hn.
    destruct (Z.testbit a n), (Z.testbit b n); reflexivity.
  - apply Z.bits_inj'; intros n Hn.
    rewrite !Z.land_spec, Z.lnot_spec, Z.bits_0 by exact Hn.
    destruct (Z.testbit a n), (Z.testbit b n); reflexivity.
Qed.

Lemma land_mask_range (a m : Z) : 0 <= m -> 0 <= Z.land a m <= m.
Proof.
  intros Hm.
  assert (0 <= Z.land a m) by (apply Z.land_nonneg; right; exact Hm).
  assert (0 <= Z.land (Z.lnot a) m) by (apply Z.land_nonneg; right; exact Hm).
  pose proof (land_mask_split a m). lia.
Qed.

Lemma ot_u8_small (z : Z) : 0 <= z < 256 -> ot_u8 z = z.
Proof. intros Hz. unfold ot_u8. apply Z.mod_small. exact Hz. Qed.

Lemma ot_u8_land (a m : Z) : 0 <= m < 256 -> ot_u8 (Z.land a m) = Z.land a m.
Proof.
  intros Hm. apply ot_u8_small.
  pose proof (land_mask_range a m). lia.
Qed.

Lemma ot_int_small (z : Z) : - 2 ^ 15 <= z < 2 ^ 15 -> ot_int z = z.
Proof.
  intros Hz. unfold ot_int.
  rewrite Z.mod_small; lia.
Qed.

Lemma land_lxor_zero (a b m : Z) :
  Z.land (Z.lxor a b) m = 0 <-> Z.land a m = Z.land b m.
Proof.
  assert (E : Z.land (Z.lxor a b) m = Z.lxor (Z.land a m) (Z.land b m)).
  { apply Z.bits_inj'; intros n Hn.
    rewrite Z.lxor_spec, !Z.land_spec, Z.lxor_spec.
    destruct (Z.testbit a n), (Z.testbit b n), (Z.testbit m n); reflexivity. }
  rewrite E. apply Z.lxor_eq_0_iff.
Qed.

(** ** The MAC filter *)

(** C5.  For every received frame the MAC filter passes exactly when the
    link loss, ((rxq.front[1] >> 1) & 0x3F) - 40 - rssi, is at most
    phymac[0].link_qual, and the upper nibble of rxq.front[2] is 0xF0 or
    that of the device subnet, and the lower nibble of the device subnet
    masks rxq.front[2] onto itself.  The link loss and the limit are the
    [ot_int] values the code compares; they are the plain difference and
    the plain link_qual for every rssi from -32744 to 32728 and every
    link_qual below 2^15.  With subnet 0x5A and rxq.front[2] = 0xF3 the
    filter fails. *)
Theorem sub_mac_filter_iff (k : kernel) :
  let fr := front (rxq k) 2 in
  let ds := subnet (netconf (dll k)) in
  exists b : bool,
    sub_mac_filter k = Ok b k /\
    (b = true <->
       linkloss k <= ot_int (link_qual k) /\
       (Z.land fr 0xF0 = 0xF0 \/ Z.land fr 0xF0 = Z.land ds 0xF0) /\
       Z.land fr (Z.land ds 0x0F) = Z.land ds 0x0F) /\
    (-32744 <= rssi k <= 32728 ->
     0 <= link_qual k < 2 ^ 15 ->
       linkloss k = Z.land (Z.shiftr (front (rxq k) 1) 1) 0x3F - 40 - rssi k /\
       ot_int (link_qual k) = link_qual k) /\
    (ds = 0x5A -> fr = 0xF3 -> b = false).
Proof.
  intros fr ds.
  unfold sub_mac_filter, radio_rssi, bind, get, ret. cbv beta.
  fold fr ds. eexists. split; [reflexivity|].
  rewrite (ot_u8_land ds 0x0F) by lia.
  rewrite (ot_u8_land fr (Z.land ds 0x0F))
    by (pose proof (land_mask_range ds 0x0F); lia).
  rewrite (ot_u8_land (Z.lxor fr ds) 0xF0) by lia.
  rewrite (ot_u8_land fr 0xF0) by lia.
  fold (linkloss k).
  split; [|split].
  - rewrite !andb_true_iff, orb_true_iff, Z.leb_le, !Z.eqb_eq, land_lxor_zero.
    tauto.
  - intros Hr Hq. split; [|apply ot_int_small; lia]. unfold linkloss.
    pose proof (land_mask_range (Z.shiftr (front (rxq k) 1) 1) 0x3F).
    rewrite (ot_int_small (Z.land _ _)) by lia.
    rewrite (ot_int_small (rssi k)) by lia.
    apply ot_int_small. lia.
  - intros Hds Hfr. rewrite Hds, Hfr. 
    apply andb_false_intro2. reflexivity.
Qed.

Section Dispatcher.
Context {MC : Macros} {MD : Modules}.

Lemma sub_clock_tasks_choice (elapsed : Z) (k : kernel) :
  exists k', sub_clock_tasks elapsed k = Ok (task_choice elapsed k) k'.
Proof.
  unfold task_choice, lowest_ready, processing_pending, radio_active, session_ready.
  unfold sub_clock_tasks, sub_clock_tasks_loop, session_refresh, RFA_event_no,
    sys_get_mutex, upd_RFA_, upd_idle_evt, idle_field, upd_dll_comm, upd_sys_evt,
    bind, ret, get, modify, IDLE_EVENTS.
  unfold ready_idle, due, clocked. cbn.
  destruct (nonzero (rfa_event_no (RFA (evt (sys k))))); cbn;
    eexists; f_equal;
    destruct (nonzero (Z.land (mutex (sys k)) SYS_MUTEX_PROCESSING)); try reflexivity;
    destruct (fst (session_refresh_ elapsed (session k))); try reflexivity;
    repeat match goal with
           | |- context [if ?b && ?c then _ else _] => destruct (b && c); cbn
           end; reflexivity.
Qed.






End Dispatcher.

(** ** RIGD slots *)



(** ** Sessions through pointers *)

Lemma deref_top (k : kernel) (s : m2session) (below : list m2session) :
  session k = s :: below ->
  deref (Some (length below)) k = Ok s k.
Proof.
  intros Hs. unfold deref, slot_index. rewrite Hs. cbn [length].
  destruct (Nat.ltb_spec (length below) (S (length below))) as [_|Hge]; [|lia].
  replace (S (length below) - 1 - length below)%nat with 0%nat by lia.
  reflexivity.
Qed.

Lemma store_top (k : kernel) (s : m2session) (below : list m2session)
    (f : m2session -> m2session) :
  session k = s :: below ->
  store (Some (length below)) f k = Ok tt (upd_session (fun _ => f s :: below) k).
Proof.
  intros Hs. unfold store, bind. rewrite (deref_top k s below Hs).
  unfold modify, upd_session, slot_index. rewrite Hs. cbn [length].
  replace (S (length below) - 1 - length below)%nat with 0%nat by lia.
  reflexivity.
Qed.

Lemma lxor_byte (a b : Z) : 0 <= a < 256 -> 0 <= b < 256 -> 0 <= Z.lxor a b < 256.
Proof.
  intros Ha Hb.
  assert (Hn : 0 <= Z.lxor a b) by (apply Z.lxor_nonneg; lia).
  split; [exact Hn|].
  destruct (Z.eq_dec (Z.lxor a b) 0) as [E|E]; [lia|].
  change 256 with (2 ^ 8). apply Z.log2_lt_pow2; [lia|].
  pose proof (Z.log2_lxor a b ltac:(lia) ltac:(lia)) as Hl.
  assert (Z.log2 a < 8).
  { destruct (Z.eq_dec a 0) as [->|]; [cbn; lia|]. apply Z.log2_lt_pow2; lia. }
  assert (Z.log2 b < 8).
  { destruct (Z.eq_dec b 0) as [->|]; [cbn; lia|]. apply Z.log2_lt_pow2; lia. }
  lia.
Qed.

Section Radio_callbacks.
Context {MC : Macros} {MD : Modules}.

(** C4.  On a listen timeout (pcode < 0) the foreground-RX callback
    clears RFA.event_no and leaves dll.comm.redundants as it was; the top
    session's netstate becomes REQTX|INIT|FIRSTRX when redundants is not 0,
    else is XORed with 0x30 when csmaca_params has the A2P bit, else
    becomes SCRAP; nothing else of the session stack changes.  It is the
    TX-completion callback rfevt_ftx that takes one off redundants; the
    end of a background scan without a frame leaves it alone too. *)
Theorem rfevt_frx_timeout :
  (forall (frx_code0 pcode fcode : Z) (k : kernel) (s : m2session) (below : list m2session),
     pcode < 0 ->
     session k = s :: below ->
     exists (k' : kernel) (s' : m2session),
       rfevt_frx frx_code0 pcode fcode k = Ok tt k' /\
       rfa_event_no (RFA (evt (sys k'))) = 0 /\
       redundants (comm (dll k')) = redundants (comm (dll k)) /\
       session k' = s' :: below /\
       s' = set_s_netstate (s_netstate s') s /\
       (redundants (comm (dll k)) <> 0 ->
          s_netstate s' = Z.lor (Z.lor M2_NETSTATE_REQTX M2_NETSTATE_INIT) M2_NETFLAG_FIRSTRX) /\
       (redundants (comm (dll k)) = 0 ->
          Z.land (csmaca_params (comm (dll k))) M2_CSMACA_A2P <> 0 ->
          s_netstate s' = ot_u8 (Z.lxor (s_netstate s) 0x30) /\
          (0 <= s_netstate s < 256 -> s_netstate s' = Z.lxor (s_netstate s) 0x30)) /\
       (redundants (comm (dll k)) = 0 ->
          Z.land (csmaca_params (comm (dll k))) M2_CSMACA_A2P = 0 ->
          s_netstate s' = M2_NETFLAG_SCRAP)) /\
  (forall (pcode scratch : Z) (k : kernel) (s : m2session) (below : list m2session),
     pcode <> 1 ->
     session k = s :: below ->
     exists k' : kernel,
       rfevt_ftx pcode scratch k = Ok tt k' /\
       redundants (comm (dll k')) = ot_u8 (redundants (comm (dll k)) - 1)) /\
  (forall (scode fcode : Z) (k : kernel),
     scode < 0 ->
     exists k' : kernel,
       rfevt_bscan scode fcode k = Ok tt k' /\
       redundants (comm (dll k')) = redundants (comm (dll k))).
Proof.
  split; [|split].
  - intros frx_code0 pcode fcode k s below Hp Hs.
    unfold rfevt_frx, session_top, upd_RFA_, upd_sys_evt, comm_field, RFA_event_no.
    unfold bind at 1. unfold get at 1. rewrite Hs. cbn [top_slot].
    destruct (Z.ltb_spec pcode 0) as [_|]; [|lia].
    assert (Hp0 : (pcode =? 0) = false) by (apply Z.eqb_neq; lia).
    set (k0 := upd_sys (upd_evt (upd_RFA (set_rfa_event_no 0))) k).
    assert (Hs0 : session k0 = s :: below) by exact Hs.
    unfold bind, modify, get, ret, call. fold k0.
    unfold nonzero.
    destruct (Z.eqb_spec (redundants (comm (dll k0))) 0) as [Hr|Hr];
      [destruct (Z.eqb_spec (Z.land (csmaca_params (comm (dll k0))) M2_CSMACA_A2P) 0)
         as [Ha|Ha]|];
      cbn [negb]; rewrite (store_top k0 s below _ Hs0); cbn; rewrite Hp0;
      (do 2 eexists; split; [reflexivity|]);
      (split; [reflexivity|]); (split; [reflexivity|]);
      (split; [reflexivity|]); (split; [reflexivity|]); cbn;
      change (redundants (comm (dll k0))) with (redundants (comm (dll k))) in Hr;
      try change (csmaca_params (comm (dll k0)))
        with (csmaca_params (comm (dll k))) in Ha.
    + split; [tauto|]. split; [tauto|]. reflexivity.
    + split; [tauto|]. split; [|tauto]. intros _ _.
      split; [reflexivity|]. intros Hb.
      apply ot_u8_small. apply lxor_byte; lia.
    + split; [reflexivity|]. split; tauto.
  - intros pcode scratch k s below Hp Hs.
    unfold rfevt_ftx.
    destruct (Z.eqb_spec pcode 1) as [|_]; [contradiction|].
    unfold session_top, upd_RFA_, upd_sys_evt, comm_field, set_sys_mutex, upd_dll_comm.
    unfold bind, modify, get, ret, call. cbn [session upd_sys]. rewrite Hs. cbn [top_slot].
    set (k1 := upd_sys _ (upd_sys _ k)).
    assert (Hs1 : session k1 = s :: below) by exact Hs.
    rewrite (deref_top k1 s below Hs1).
    set (k2 := upd_dll _ k1).
    assert (Hs2 : session k2 = s :: below) by exact Hs.
    assert (Hred : redundants (comm (dll k2)) = ot_u8 (redundants (comm (dll k)) - 1))
      by reflexivity.
    destruct (nonzero _ && nonzero _).
    + eexists. split; [reflexivity|]. exact Hred.
    + rewrite (store_top k2 s below _ Hs2).
      set (k3 := upd_session _ k2).
      assert (Hs3 : session k3 = set_s_netstate
        (ot_u8 (Z.lor (s_netstate s)
          (Z.shiftl (Z.lor (Z.lor (c_bool (rx_timeout (comm (dll k1)) =? 0))
             (c_bool (nonzero (Z.land (s_netstate s) M2_NETSTATE_RESPTX))))
             (c_bool (nonzero pcode))) 7))) s :: below) by reflexivity.
      rewrite (store_top k3 _ below _ Hs3).
      set (k4 := upd_session _ k3).
      rewrite (store_top k4 _ below _ eq_refl).
      eexists. split; [reflexivity|]. exact Hred.
  - intros scode fcode k Hneg.
    unfold rfevt_bscan, comm_field, rx_chanlist0, session_pop, set_sys_mutex,
      upd_RFA_, upd_sys_evt, call, bind, get, modify, ret.
    destruct (Z.geb_spec scode 0) as [|_]; [lia|].
    destruct ((scode =? -1) && nonzero (redundants (comm (dll k))));
      (eexists; split; [reflexivity|]); reflexivity.
Qed.

End Radio_callbacks.

Section Hold_scan.
Context {MC : Macros} {MD : Modules}.

Lemma sub_scan_channel_run (i : nat) (SS_ISF : Z) (k : kernel) :
  exists k',
    sub_scan_channel i SS_ISF k = Ok tt k' /\
    hold_cycle (evt (sys k')) = hold_cycle (evt (sys k)) /\
    event_no (HSS (evt (sys k'))) = event_no (HSS (evt (sys k))) /\
    event_no (SSS (evt (sys k'))) = event_no (SSS (evt (sys k))) /\
    trace k' = vl_close SS_ISF :: sig_prestart i :: trace k.
Proof.
  unfold sub_scan_channel, read_nextevent, cursor_wrap, cursor_advance, session_new,
    vl_read, fp_length, ISF_open_su, idle_field, upd_idle_evt, upd_dll_comm,
    upd_sys_evt, call, bind, ret, get, modify.
  cbv beta.
  match goal with
  | |- context [if ?c >=? ?l then _ else _] => destruct (c >=? l)
  end;
  match goal with
  | |- context [session_new_ ?a ?b ?c ?d] => destruct (session_new_ a b c d)
  end;
  (eexists; split; [reflexivity|]);
  destruct i as [|[|[|i]]]; cbn; auto.
Qed.

End Hold_scan.

Section Lifecycle.
Context {MC : Macros} {MD : Modules}.

(** C8, as the code has it.  For every error code, sys_panic(code)
    flushes the session stack, forces the system to idle in the off state
    (which resets the session stack, clears the mutex and disables the
    radio, hold, sleep and beacon events) and invokes the panic hook; on
    the way sys_idle gags the radio and puts it to sleep, and these are
    the only two calls to the radio the function makes. *)
Theorem sys_panic_effect (err_code : Z) (k : kernel) :
  exists k',
    sys_panic err_code k = Ok tt k' /\
    session k' = session_init_ (session_flush_ (session k)) /\
    idle_state (dll k') = 0 /\
    mutex (sys k') = 0 /\
    rfa_event_no (RFA (evt (sys k'))) = 0 /\
    event_no (HSS (evt (sys k'))) = 0 /\
    event_no (SSS (evt (sys k'))) = 0 /\
    event_no (BTS (evt (sys k'))) = 0 /\
    trace k' = sig_panic err_code :: platform_flush_gptim
                 :: radio_sleep :: radio_gag :: trace k /\
    radio_calls k' = radio_sleep :: radio_gag :: radio_calls k.
Proof.
  unfold sys_panic, sys_idle, sys_goto_off, session_flush, session_init,
    set_dll_idle_state, set_sys_mutex, upd_sys_evt, call, bind, ret, get, modify.
  cbn. eexists. split; [reflexivity|].
  unfold radio_calls. cbn. auto 12.
Qed.

(** C9.  otapi_start_flood with a flood duration of 0 is
    otapi_start_dialog: the same result and the same state.  That call
    clears the mutex and kills the radio when the mutex was not 0,
    preempts, hands back 1, and leaves the session stack and the DLL comm
    block as they were. *)
Theorem otapi_start_flood_zero (fuel : nat) (k : kernel) :
  otapi_start_flood fuel 0 k = otapi_start_dialog k /\
  exists k',
    otapi_start_dialog k = Ok 1 k' /\
    mutex (sys k') = 0 /\
    session k' = session k /\
    comm (dll k') = comm (dll k) /\
    trace k' = platform_ot_preempt
                 :: (if nonzero (mutex (sys k)) then [rm2_kill] else []) ++ trace k.
Proof.
  split.
  - unfold otapi_start_flood, session_top, bind, get. reflexivity.
  - unfold otapi_start_dialog, sys_get_mutex, set_sys_mutex, call, bind, ret, get, modify.
    unfold nonzero.
    destruct (Z.eqb_spec (mutex (sys k)) 0) as [Hm|Hm]; cbn;
      (eexists; split; [reflexivity|]); cbn; auto.
Qed.

(** C10.  When dll.netconf.b_attempts is 0 or the
    beacon_transmit_sequence file has length 0, sysevt_beacon sets
    BTS.nextevent to 65535 and returns at once: it closes the file and
    does nothing else, so no session is pushed, the TX queue is not written
    and BTS.cursor keeps its value. *)
Theorem sysevt_beacon_disabled (k : kernel) :
  b_attempts (netconf (dll k)) = 0 \/
  f_length (isf k ISF_ID_beacon_transmit_sequence) = 0 ->
  exists k',
    sysevt_beacon k = Ok tt k' /\
    nextevent (BTS (evt (sys k'))) = 65535 /\
    session k' = session k /\
    txq k' = txq k /\
    cursor (BTS (evt (sys k'))) = cursor (BTS (evt (sys k))) /\
    dll k' = dll k /\
    trace k' = vl_close ISF_ID_beacon_transmit_sequence :: trace k.
Proof.
  intros Hoff.
  assert (Hc : (b_attempts (netconf (dll k)) =? 0)
               || (f_length (isf k ISF_ID_beacon_transmit_sequence) =? 0) = true).
  { apply orb_true_iff. rewrite !Z.eqb_eq. exact Hoff. }
  unfold sysevt_beacon, ISF_open_su, fp_length.
  unfold bind at 1. unfold ret at 1.
  unfold bind at 1. unfold get at 1.
  unfold bind at 1. unfold get at 1.
  rewrite Hc.
  unfold upd_idle_evt, upd_sys_evt, call, bind, modify.
  eexists. split; [reflexivity|]. cbn. auto 10.
Qed.

(** ** Reading the network settings *)

Lemma sys_idle_frame (k : kernel) :
  exists k', sys_idle k = Ok tt k' /\ dll k' = dll k.
Proof.
  unfold sys_idle, sys_goto_off, sys_goto_sleep, sys_goto_hold, session_init,
    set_sys_mutex, upd_sys_evt, call, bind, ret, get, modify.
  cbn [dll upd_trace upd_sys].
  destruct (Z.land (idle_state (dll k)) 3) as [|[p|p|]|p];
    cbn [dll sys evt upd_trace upd_sys upd_session SSS HSS sched_id ];
    repeat match goal with
           | |- context [if nonzero ?z then _ else _] => destruct (nonzero z)
           end;
    (eexists; split; [reflexivity|]); reflexivity.
Qed.

Lemma sub_sys_flush_frame (k : kernel) :
  exists k', sub_sys_flush k = Ok tt k' /\ netconf (dll k') = netconf (dll k).
Proof.
  unfold sub_sys_flush, sub_default_idle, sched_bit, session_init, set_dll_idle_state,
    upd_sys_evt.
  unfold bind, ret, get, modify.
  cbn [dll upd_session netconf].
  destruct (Z.land (active (netconf (dll k))) M2_SET_CLASSMASK >=? M2_SET_SUBCONTROLLER);
    [|destruct (nonzero (Z.land (Z.land (active (netconf (dll k))) M2_SET_CLASSMASK)
                           M2_SET_ENDPOINT))];
    match goal with
    | |- exists k', sys_idle ?k0 = _ /\ _ =>
        destruct (sys_idle_frame k0) as (k' & Hrun & Hdll);
        exists k'; split; [exact Hrun|]; rewrite Hdll; reflexivity
    end.
Qed.

(** [sys_refresh] leaves in [hold_limit] the halfword the host reads at
    offset 8 of ISF 0: the first byte is the high one on a big-endian
    host and the low one on a little-endian host. *)
Lemma sys_refresh_hold_limit_host_order (k : kernel) :
  exists k',
    sys_refresh k = Ok tt k' /\
    hold_limit (netconf (dll k')) =
      if big_endian
      then big_endian_u16 (fst (hold_limit_bytes k)) (snd (hold_limit_bytes k))
      else big_endian_u16 (snd (hold_limit_bytes k)) (fst (hold_limit_bytes k)).
Proof.
  unfold sys_refresh, ISF_open_su, vl_read, upd_dll_netconf, call.
  unfold bind, ret, get, modify.
  match goal with
  | |- exists k', sub_sys_flush ?k0 = _ /\ _ =>
      destruct (sub_sys_flush_frame k0) as (k' & Hrun & Hnet);
      exists k'; split; [exact Hrun|]; rewrite Hnet
  end.
  cbn. unfold halfword, big_endian_u16. destruct big_endian; reflexivity.
Qed.

End Lifecycle.

(** * Runs of the sample configuration *)





Lemma rfevt_frx_timeout_witness :
  redundants (comm (dll sample_hold_beacon)) = 2 /\
  exists (k' : kernel) (s' : m2session),
    rfevt_frx (MC := le_host) (MD := sample_modules) 0 (-1) 0 sample_hold_beacon = Ok tt k' /\
    rfa_event_no (RFA (evt (sys k'))) = 0 /\
    redundants (comm (dll k')) = 2 /\
    session k' = [s'].
Proof.
  split; [reflexivity|].
  destruct (proj1 (rfevt_frx_timeout (MC := le_host) (MD := sample_modules))
              0 (-1) 0 sample_hold_beacon
              (Build_m2session 0x10 0x5A 0 1 0x30 100) [])
    as (k' & s' & Hrun & Hev & Hred & Hs & _).
  - lia.
  - reflexivity.
  - exists k', s'. auto.
Defined.

Lemma sub_mac_filter_iff_witness :
  subnet (netconf (dll sample_hold_beacon)) = 0x5A /\
  front (rxq sample_hold_beacon) 2 = 0xF3 /\
  sub_mac_filter sample_hold_beacon = Ok false sample_hold_beacon.
Proof.
  split; [reflexivity|]. split; [reflexivity|].
  destruct (sub_mac_filter_iff sample_hold_beacon) as (b & Hrun & _ & _ & Hcase).
  rewrite Hrun. rewrite (Hcase eq_refl eq_refl). reflexivity.
Defined.

(** C7 at a failing input: ISF 0 stores 0x0102 big endian at offset 8, and
    sys_refresh leaves 0x0201 in hold_limit on a little-endian host (and
    0x0102 on a big-endian one). *)
Theorem sys_refresh_hold_limit_little_endian :
  hold_limit_bytes sample_hold = (0x01, 0x02) /\
  big_endian_u16 0x01 0x02 = 0x0102 /\
  option_map (fun k => hold_limit (netconf (dll k)))
    (state_of (sys_refresh (MC := le_host) (MD := sample_modules) sample_hold))
    = Some 0x0201 /\
  option_map (fun k => hold_limit (netconf (dll k)))
    (state_of (sys_refresh (MC := be_host) (MD := sample_modules) sample_hold))
    = Some 0x0102.
Proof.
  repeat split.
Qed.

(** C8, as the spec words it, fails: the radio is gagged and put to sleep
    by the call. *)
Lemma sys_panic_calls_radio :
  radio_calls sample_hold = [] /\
  option_map radio_calls
    (state_of (sys_panic (MD := sample_modules) 64 sample_hold))
    = Some [radio_sleep; radio_gag].
Proof.
  split; reflexivity.
Qed.

Lemma sysevt_beacon_disabled_witness :
  b_attempts (netconf (dll sample_no_beacon)) = 0 /\
  exists k',
    sysevt_beacon (MC := le_host) (MD := sample_modules) sample_no_beacon = Ok tt k' /\
    nextevent (BTS (evt (sys k'))) = 65535 /\
    session k' = session sample_no_beacon /\
    txq k' = txq sample_no_beacon /\
    cursor (BTS (evt (sys k'))) = cursor (BTS (evt (sys sample_no_beacon))).
Proof.
  split; [reflexivity|].
  destruct (sysevt_beacon_disabled (MC := le_host) (MD := sample_modules) sample_no_beacon)
    as (k' & Hrun & Hne & Hs & Hq & Hc & _).
  - left. reflexivity.
  - exists k'. auto.
Defined.

(** * Further properties of the kernel *)

(** ** Bits *)

Lemma ot_u8_as_land (z : Z) : ot_u8 z = Z.land z 255.
Proof. unfold ot_u8. change 255 with (Z.ones 8). rewrite Z.land_ones by lia. reflexivity. Qed.

Lemma ot_u8_range (z : Z) : 0 <= ot_u8 z < 256.
Proof. unfold ot_u8. apply Z.mod_pos_bound. lia. Qed.

Lemma land_shifted_ones (y n m : Z) :
  0 <= m ->
  Z.land y (Z.shiftl (Z.ones n) m) = Z.shiftl (Z.land (Z.shiftr y m) (Z.ones n)) m.
Proof.
  intros Hm. apply Z.bits_inj'; intros i Hi.
  rewrite Z.land_spec, !Z.shiftl_spec, Z.land_spec by lia.
  destruct (Z.lt_ge_cases i m) as [Hlt|Hge].
  - rewrite !(Z.testbit_neg_r _ (i - m)) by lia. apply andb_false_r.
  - rewrite Z.shiftr_spec by lia. replace (i - m + m) with i by lia. reflexivity.
Qed.

Section Idle_routine.
Context {MC : Macros} {MD : Modules}.

Lemma sys_idle_run (k : kernel) :
  let m := Z.land (idle_state (dll k)) 3 in
  exists k',
    sys_idle k = Ok tt k' /\
    mutex (sys k') = 0 /\
    rfa_event_no (RFA (evt (sys k'))) = 0 /\
    dll k' = dll k /\
    radio_calls k' = radio_sleep :: radio_gag :: radio_calls k /\
    event_no (HSS (evt (sys k'))) = (if (m =? 0) || (m =? 1) then 0 else 1) /\
    event_no (SSS (evt (sys k'))) = (if m =? 1 then 1 else 0) /\
    event_no (BTS (evt (sys k'))) =
      (if m =? 0 then 0 else event_no (BTS (evt (sys k)))) /\
    cursor (SSS (evt (sys k'))) = (if m =? 1 then 0 else cursor (SSS (evt (sys k)))) /\
    session k' = (if m =? 0 then session_init_ (session k) else session k).
Proof.
  intros m. subst m.
  unfold sys_idle, sys_goto_off, sys_goto_sleep, sys_goto_hold, session_init,
    set_sys_mutex, upd_sys_evt, call, bind, ret, get, modify.
  cbn [dll upd_trace upd_sys].
  destruct (Z.land (idle_state (dll k)) 3) as [|[p|p|]|p];
    cbn [dll sys evt upd_trace upd_sys upd_session SSS HSS sched_id];
    repeat match goal with
           | |- context [if nonzero ?z then _ else _] => destruct (nonzero z)
           end;
    (eexists; split; [reflexivity|]); unfold radio_calls; cbn; auto 12.
Qed.

(** X1.  Whatever dll.idle_state holds, sys_idle returns with the mutex
    and RFA.event_no at 0, having gagged the radio and put it to sleep and
    made no other radio call, and with dll untouched.  The two low bits of
    idle_state pick the routine: 0 switches the hold, sleep and beacon
    events off and resets the session stack; 1 enables the sleep scan from
    cursor 0 and disables the hold scan; 2 and 3 both enable the hold scan
    and disable the sleep scan. *)
Theorem sys_idle_modes (k : kernel) :
  let m := Z.land (idle_state (dll k)) 3 in
  exists k',
    sys_idle k = Ok tt k' /\
    mutex (sys k') = 0 /\
    rfa_event_no (RFA (evt (sys k'))) = 0 /\
    dll k' = dll k /\
    radio_calls k' = radio_sleep :: radio_gag :: radio_calls k /\
    event_no (HSS (evt (sys k'))) = (if (m =? 0) || (m =? 1) then 0 else 1) /\
    event_no (SSS (evt (sys k'))) = (if m =? 1 then 1 else 0) /\
    event_no (BTS (evt (sys k'))) =
      (if m =? 0 then 0 else event_no (BTS (evt (sys k)))) /\
    cursor (SSS (evt (sys k'))) = (if m =? 1 then 0 else cursor (SSS (evt (sys k)))) /\
    session k' = (if m =? 0 then session_init_ (session k) else session k).
Proof. exact (sys_idle_run k). Qed.

End Idle_routine.

Section Startup.
Context {MC : Macros} {MD : Modules}.

Lemma sub_sys_flush_events (k : kernel) :
  exists k0 k',
    sys_idle k0 = Ok tt k' /\
    sub_sys_flush k = Ok tt k' /\
    session k0 = session_init_ (session k) /\
    idle_state (dll k0) =
      (let a := Z.land (active (netconf (dll k))) M2_SET_CLASSMASK in
       if a >=? M2_SET_SUBCONTROLLER then M2_MACIDLE_HOLD
       else if nonzero (Z.land a M2_SET_ENDPOINT) then M2_MACIDLE_SLEEP
       else M2_MACIDLE_OFF) /\
    netconf (dll k0) = netconf (dll k) /\
    comm (dll k0) = comm (dll k) /\
    cursor (HSS (evt (sys k0))) = 0 /\ nextevent (HSS (evt (sys k0))) = 0 /\
    cursor (SSS (evt (sys k0))) = 0 /\ nextevent (SSS (evt (sys k0))) = 0 /\
    cursor (BTS (evt (sys k0))) = 0 /\ nextevent (BTS (evt (sys k0))) = 0 /\
    event_no (BTS (evt (sys k0))) = c_bool (nonzero (b_attempts (netconf (dll k)))) /\
    trace k0 = trace k.
Proof.
  unfold sub_sys_flush, sub_default_idle, sched_bit, session_init, set_dll_idle_state,
    upd_sys_evt.
  unfold bind, ret, get, modify.
  cbn [dll upd_session netconf].
  destruct (Z.land (active (netconf (dll k))) M2_SET_CLASSMASK >=? M2_SET_SUBCONTROLLER);
    [|destruct (nonzero (Z.land (Z.land (active (netconf (dll k))) M2_SET_CLASSMASK)
                           M2_SET_ENDPOINT))];
    match goal with
    | |- exists k0 k', sys_idle k0 = _ /\ sys_idle ?k1 = _ /\ _ =>
        destruct (sys_idle_frame k1) as (k' & Hrun & _);
        exists k1, k'; split; [exact Hrun|]; split; [exact Hrun|]; cbn; auto 20
    end.
Qed.

(** X2.  Cold start of an endpoint.  When the active class is below
    SUBCONTROLLER and has the ENDPOINT bit, and the sleep idle state selects
    entry 1 of the idle table, sub_sys_flush (the tail of sys_init and
    sys_refresh) leaves the device asleep: idle_state is SLEEP, the sleep
    scan is enabled at cursor 0 and due at once, the hold scan is disabled,
    the beacon event is enabled exactly when b_attempts is not 0, the radio
    event and the mutex are 0, the session stack is reset and the radio has
    been put to sleep. *)
Theorem sub_sys_flush_endpoint (k : kernel) :
  Z.land (active (netconf (dll k))) M2_SET_CLASSMASK < M2_SET_SUBCONTROLLER ->
  Z.land (Z.land (active (netconf (dll k))) M2_SET_CLASSMASK) M2_SET_ENDPOINT <> 0 ->
  Z.land M2_MACIDLE_SLEEP 3 = 1 ->
  exists k',
    sub_sys_flush k = Ok tt k' /\
    idle_state (dll k') = M2_MACIDLE_SLEEP /\
    event_no (SSS (evt (sys k'))) = 1 /\
    cursor (SSS (evt (sys k'))) = 0 /\
    nextevent (SSS (evt (sys k'))) = 0 /\
    event_no (HSS (evt (sys k'))) = 0 /\
    event_no (BTS (evt (sys k'))) = c_bool (nonzero (b_attempts (netconf (dll k)))) /\
    rfa_event_no (RFA (evt (sys k'))) = 0 /\
    mutex (sys k') = 0 /\
    session k' = session_init_ (session k) /\
    radio_calls k' = radio_sleep :: radio_gag :: radio_calls k.
Proof.
  intros Hlow Hep Hsel.
  destruct (sub_sys_flush_events k)
    as (k0 & k' & Hidle & Hrun & Hs0 & Hst & _ & _ & _ & _ & Hc & Hn & _ & _ & Hb & Htr).
  cbv zeta in Hst.
  destruct (Z.geb_spec (Z.land (active (netconf (dll k))) M2_SET_CLASSMASK)
              M2_SET_SUBCONTROLLER) as [|_]; [lia|].
  unfold nonzero in Hst.
  destruct (Z.eqb_spec (Z.land (Z.land (active (netconf (dll k))) M2_SET_CLASSMASK)
              M2_SET_ENDPOINT) 0) as [|_]; [contradiction|].
  cbn [negb] in Hst.
  exists k'. split; [exact Hrun|].
  revert Hidle. unfold sys_idle, sys_goto_sleep, set_sys_mutex, upd_sys_evt, call,
    bind, ret, get, modify. cbn [dll upd_trace upd_sys]. rewrite Hst, Hsel.
  cbn.
  destruct (nonzero (sched_id (SSS (evt (sys k0))))); intros Hidle;
    injection Hidle as <-; unfold radio_calls; cbn; rewrite Hst, Hs0, Hb, Htr, Hn;
    repeat split; reflexivity.
Qed.

(** X3.  Start of a subcontroller or gateway.  When the active class is
    SUBCONTROLLER or above, and the hold idle state selects entry 2 or 3 of
    the idle table, sub_sys_flush leaves the device in hold: idle_state is
    HOLD, the hold scan is enabled at cursor 0 and due at once, and the
    sleep scan is disabled. *)
Theorem sub_sys_flush_controller (k : kernel) :
  M2_SET_SUBCONTROLLER <= Z.land (active (netconf (dll k))) M2_SET_CLASSMASK ->
  2 <= Z.land M2_MACIDLE_HOLD 3 ->
  exists k',
    sub_sys_flush k = Ok tt k' /\
    idle_state (dll k') = M2_MACIDLE_HOLD /\
    event_no (HSS (evt (sys k'))) = 1 /\
    cursor (HSS (evt (sys k'))) = 0 /\
    nextevent (HSS (evt (sys k'))) = 0 /\
    event_no (SSS (evt (sys k'))) = 0 /\
    rfa_event_no (RFA (evt (sys k'))) = 0 /\
    mutex (sys k') = 0.
Proof.
  intros Hhigh Hsel.
  destruct (sub_sys_flush_events k)
    as (k0 & k' & Hidle & Hrun & Hs0 & Hst & _ & _ & Hc & Hn & _).
  cbv zeta in Hst.
  destruct (Z.geb_spec (Z.land (active (netconf (dll k))) M2_SET_CLASSMASK)
              M2_SET_SUBCONTROLLER) as [_|]; [|lia].
  exists k'. split; [exact Hrun|].
  revert Hidle. unfold sys_idle, sys_goto_hold, sys_goto_off, sys_goto_sleep,
    set_sys_mutex, upd_sys_evt, call, bind, ret, get, modify.
  cbn [dll upd_trace upd_sys]. rewrite Hst.
  destruct (Z.land M2_MACIDLE_HOLD 3) as [|[p|p|]|p]; try lia; cbn;
    destruct (nonzero (sched_id (HSS (evt (sys k0))))); intros Hidle;
    injection Hidle as <-; cbn; rewrite Hst, Hc, Hn; repeat split; reflexivity.
Qed.

End Startup.

(** ** Small routines *)

(** X4.  sys_default_csma looks at bits 5:4 of the channel id only, the
    channel class: it hands back 4 for classes 0 and 3, and 0 for classes 1
    and 2. *)
Theorem sys_default_csma_class (chan_id : Z) :
  let class := (chan_id / 16) mod 4 in
  sys_default_csma chan_id = if (class =? 0) || (class =? 3) then 4 else 0.
Proof.
  intros class. unfold sys_default_csma.
  assert (E : Z.land chan_id 0x30 = class * 16).
  { change 0x30 with (Z.shiftl (Z.ones 2) 4).
    rewrite land_shifted_ones by lia.
    rewrite Z.land_ones, Z.shiftr_div_pow2, Z.shiftl_mul_pow2 by lia.
    reflexivity. }
  rewrite E.
  assert (Hc : 0 <= class < 4) by (apply Z.mod_pos_bound; lia).
  assert (Hcases : class = 0 \/ class = 1 \/ class = 2 \/ class = 3) by lia.
  destruct Hcases as [-> | [-> | [-> | ->]]]; reflexivity.
Qed.

Section Bookkeeping.
Context {MC : Macros} {MD : Modules}.

(** X5.  The mutex is a byte of flags: sys_set_mutex sets every bit of the
    low byte of its mask and keeps the mutex a byte; sys_clear_mutex after
    it leaves no bit of the mask set, and the mutex as if the mask had only
    been cleared. *)
Theorem sys_set_clear_mutex (mask : Z) (k : kernel) :
  exists k1 k2,
    sys_set_mutex mask k = Ok tt k1 /\
    sys_clear_mutex mask k1 = Ok tt k2 /\
    0 <= mutex (sys k1) < 256 /\
    Z.land (mutex (sys k1)) (ot_u8 mask) = ot_u8 mask /\
    Z.land (mutex (sys k2)) mask = 0 /\
    mutex (sys k2) = ot_u8 (Z.land (mutex (sys k)) (Z.lnot mask)) /\
    sys_get_mutex k2 = Ok (mutex (sys k2)) k2.
Proof.
  unfold sys_set_mutex, sys_clear_mutex, sys_get_mutex, modify, get.
  do 2 eexists. split; [reflexivity|]. split; [reflexivity|].
  cbn. set (m := mutex (sys k)).
  split; [apply ot_u8_range|].
  rewrite !ot_u8_as_land.
  split; [|split; [|split; [|reflexivity]]];
    apply Z.bits_inj'; intros n Hn;
    repeat rewrite ?Z.land_spec, ?Z.lor_spec, ?Z.lnot_spec, ?Z.bits_0 by exact Hn;
    destruct (Z.testbit m n), (Z.testbit mask n), (Z.testbit 255 n); reflexivity.
Qed.

Lemma sub_clock_tasks_state (elapsed : Z) (k : kernel) :
  exists t k',
    sub_clock_tasks elapsed k = Ok t k' /\
    tca (comm (dll k')) = ot_long (tca (comm (dll k)) - elapsed) /\
    HSS (evt (sys k')) = clocked elapsed (HSS (evt (sys k))) /\
    SSS (evt (sys k')) = clocked elapsed (SSS (evt (sys k))) /\
    BTS (evt (sys k')) = clocked elapsed (BTS (evt (sys k))) /\
    EXT (evt (sys k')) = clocked elapsed (EXT (evt (sys k))) /\
    RFA (evt (sys k')) =
      (if nonzero (rfa_event_no (RFA (evt (sys k))))
       then set_rfa_nextevent (ot_long (rfa_nextevent (RFA (evt (sys k))) - elapsed))
              (RFA (evt (sys k)))
       else RFA (evt (sys k))) /\
    session k' = snd (session_refresh_ elapsed (session k)) /\
    mutex (sys k') = mutex (sys k) /\
    hold_cycle (evt (sys k')) = hold_cycle (evt (sys k)) /\
    set_tca (tca (comm (dll k))) (comm (dll k')) = comm (dll k) /\
    netconf (dll k') = netconf (dll k) /\
    idle_state (dll k') = idle_state (dll k) /\
    txq k' = txq k /\
    trace k' = trace k.
Proof.
  unfold sub_clock_tasks, sub_clock_tasks_loop, session_refresh, RFA_event_no,
    sys_get_mutex, upd_RFA_, upd_idle_evt, idle_field, upd_dll_comm, upd_sys_evt,
    bind, ret, get, modify, IDLE_EVENTS, clocked.
  cbn.
  destruct (nonzero (rfa_event_no (RFA (evt (sys k))))); cbn;
    (do 2 eexists; split; [reflexivity|]); cbn;
    destruct (comm (dll k)); destruct (RFA (evt (sys k))); cbn; auto 20.
Qed.

(** X6.  Clocking.  sub_clock_tasks takes the elapsed ticks off dll.comm.tca
    and off the countdown of each of the four idle-time events, enabled or
    not, and off RFA.nextevent only while a radio event is active; it
    refreshes the session stack, and changes nothing else: the mutex, the
    event numbers, the cursors, the hold cycle and the queue stay, and no
    call leaves the kernel. *)
Theorem sub_clock_tasks_clocks (elapsed : Z) (k : kernel) :
  exists t k',
    sub_clock_tasks elapsed k = Ok t k' /\
    tca (comm (dll k')) = ot_long (tca (comm (dll k)) - elapsed) /\
    HSS (evt (sys k')) = clocked elapsed (HSS (evt (sys k))) /\
    SSS (evt (sys k')) = clocked elapsed (SSS (evt (sys k))) /\
    BTS (evt (sys k')) = clocked elapsed (BTS (evt (sys k))) /\
    EXT (evt (sys k')) = clocked elapsed (EXT (evt (sys k))) /\
    RFA (evt (sys k')) =
      (if nonzero (rfa_event_no (RFA (evt (sys k))))
       then set_rfa_nextevent (ot_long (rfa_nextevent (RFA (evt (sys k))) - elapsed))
              (RFA (evt (sys k)))
       else RFA (evt (sys k))) /\
    session k' = snd (session_refresh_ elapsed (session k)) /\
    mutex (sys k') = mutex (sys k) /\
    hold_cycle (evt (sys k')) = hold_cycle (evt (sys k)) /\
    set_tca (tca (comm (dll k))) (comm (dll k')) = comm (dll k) /\
    netconf (dll k') = netconf (dll k) /\
    idle_state (dll k') = idle_state (dll k) /\
    txq k' = txq k /\
    trace k' = trace k.
Proof. exact (sub_clock_tasks_state elapsed k). Qed.

End Bookkeeping.

(** ** Reading the scan sequences *)

(** Reduction of the record projections and field updates only, leaving
    the arithmetic as it stands. *)
Ltac ksimpl :=
  cbn [sys dll session txq rxq isf link_qual tg rssi prand gptim csma trace
       upd_sys upd_dll upd_session upd_txq upd_isf upd_prand upd_gptim upd_csma upd_trace
       mutex watchdog evt upd_mutex upd_watchdog upd_evt
       RFA HSS SSS BTS EXT hold_cycle adv_time
       upd_RFA upd_HSS upd_SSS upd_BTS upd_EXT upd_hold_cycle upd_adv_time
       event_no sched_id cursor nextevent
       set_event_no set_sched_id set_cursor set_nextevent
       rfa_event_no rfa_nextevent set_rfa_event_no set_rfa_nextevent
       idle_state netconf comm set_idle_state upd_netconf upd_comm
       tc tca rx_timeout csmaca_params redundants tx_channels rx_channels
       tx_chanlist rx_chanlist scratch0 scratch1
       set_tc set_tca set_rx_timeout set_csmaca_params set_redundants
       set_tx_channels set_rx_channels set_tx_chanlist set_rx_chanlist
       set_scratch0 set_scratch1
       subnet b_subnet dd_flags b_attempts active hold_limit
       s_channel s_subnet s_flags s_dialog_id s_netstate s_counter
       set_s_channel set_s_subnet set_s_flags set_s_dialog_id set_s_netstate set_s_counter
       q_alloc q_length q_front q_getcursor q_putcursor f_length f_data
       idle upd_idle fst snd].

Lemma ot_int_id (z : Z) : - 32768 <= z < 32768 -> ot_int z = z.
Proof. intros Hz. unfold ot_int. rewrite Z.mod_small; lia. Qed.

Lemma ot_long_id (z : Z) : - 2147483648 <= z < 2147483648 -> ot_long z = z.
Proof. intros Hz. unfold ot_long. rewrite Z.mod_small; lia. Qed.

Lemma file_byte_range (f : vlFILE) (offset : Z) : 0 <= file_byte f offset < 256.
Proof. apply ot_u8_range. Qed.

Lemma lor_disjoint_add (x y : Z) : Z.land x y = 0 -> Z.lor x y = x + y.
Proof.
  intros H. rewrite (Z.add_nocarry_lxor x y H). symmetry. apply Z.lxor_lor. exact H.
Qed.

Lemma byte_high_bits (b n : Z) : 0 <= b < 256 -> 8 <= n -> Z.testbit b n = false.
Proof.
  intros Hb Hn. replace b with (b mod 2 ^ 8) by (apply Z.mod_small; lia).
  apply Z.mod_pow2_bits_high. lia.
Qed.

(** Swapping the halves of the halfword with low byte [a] and high byte
    [b] gives the one with high byte [a] and low byte [b]. *)
Lemma swap16_bytes (a b : Z) :
  0 <= a < 256 -> 0 <= b < 256 -> swap16 (b * 256 + a) = a * 256 + b.
Proof.
  intros Ha Hb. unfold swap16, ot_u16.
  rewrite Z.shiftr_div_pow2, Z.shiftl_mul_pow2 by lia.
  change (2 ^ 8) with 256.
  replace ((b * 256 + a) / 256) with b
    by (apply (Z.div_unique _ 256 b a); lia).
  rewrite lor_disjoint_add.
  - replace ((b * 256 + a) * 256 + b) with (b * 2 ^ 16 + (a * 256 + b)) by lia.
    rewrite Z.add_comm, Z.mod_add by lia. apply Z.mod_small. lia.
  - apply Z.bits_inj'; intros n Hn. rewrite Z.land_spec, Z.bits_0.
    destruct (Z.lt_ge_cases n 8) as [Hlt|Hge].
    + replace ((b * 256 + a) * 256) with (Z.shiftl (b * 256 + a) 8)
        by (rewrite Z.shiftl_mul_pow2; lia).
      rewrite Z.shiftl_spec_low by lia. reflexivity.
    + rewrite (byte_high_bits b n Hb Hge). apply andb_false_r.
Qed.

Section Scan_sequences.
Context {MC : Macros} {MD : Modules}.

Lemma ubyte_halfword (a b : Z) :
  0 <= a < 256 -> 0 <= b < 256 ->
  ubyte 0 (halfword a b) = a /\ ubyte 1 (halfword a b) = b.
Proof.
  intros Ha Hb. unfold ubyte, halfword. destruct big_endian; split.
  - symmetry. apply (Z.div_unique _ 256 a b); lia.
  - rewrite Z.add_comm, Z.mod_add by lia. apply Z.mod_small. lia.
  - rewrite Z.add_comm, Z.mod_add by lia. apply Z.mod_small. lia.
  - symmetry. apply (Z.div_unique _ 256 b a); lia.
Qed.

(** The two-byte big-endian field comes out the same on either host. *)
Lemma halfword_to_big_endian (a b : Z) :
  0 <= a < 256 -> 0 <= b < 256 ->
  (if big_endian then halfword a b else swap16 (halfword a b)) = big_endian_u16 a b.
Proof.
  intros Ha Hb. unfold halfword, big_endian_u16. destruct big_endian; [reflexivity|].
  apply swap16_bytes; assumption.
Qed.

(** X7.  A scan entry is decoded the same way on a big-endian and on a
    little-endian host.  With the event's cursor c (0 <= c <= 32763) in the
    sequence file, sub_scan_channel takes the channel from byte c and the
    scan flags from byte c+1, sets the event's countdown to the big-endian
    number in bytes c+2 and c+3, and moves the cursor to c+4, or to 0 when
    c+4 reaches the file length; it sets rx_timeout from the flags,
    redundants to 0 and a one-entry channel list in scratch[1]. *)
Theorem sub_scan_channel_decodes (i : nat) (SS_ISF : Z) (k : kernel) :
  let c := cursor (idle i (evt (sys k))) in
  let f := isf k SS_ISF in
  0 <= c <= 32763 ->
  exists k',
    sub_scan_channel i SS_ISF k = Ok tt k' /\
    scratch1 (comm (dll k')) = file_byte f c /\
    rx_chanlist (comm (dll k')) = Scratch 1 /\
    rx_channels (comm (dll k')) = 1 /\
    redundants (comm (dll k')) = 0 /\
    rx_timeout (comm (dll k')) = otutils_calc_timeout (file_byte f (c + 1)) /\
    nextevent (idle i (evt (sys k'))) =
      big_endian_u16 (file_byte f (c + 2)) (file_byte f (c + 2 + 1)) /\
    cursor (idle i (evt (sys k'))) = (if c + 4 >=? f_length f then 0 else c + 4).
Proof.
  intros c f Hc.
  pose proof (file_byte_range f c) as Hb0.
  pose proof (file_byte_range f (c + 1)) as Hb1.
  pose proof (file_byte_range f (c + 2)) as Hb2.
  pose proof (file_byte_range f (c + 2 + 1)) as Hb3.
  destruct (ubyte_halfword _ _ Hb0 Hb1) as [Hu0 Hu1].
  pose proof (halfword_to_big_endian _ _ Hb2 Hb3) as Hbe.
  assert (Hnext : 0 <= big_endian_u16 (file_byte f (c + 2)) (file_byte f (c + 2 + 1)) < 65536)
    by (unfold big_endian_u16; lia).
  unfold sub_scan_channel, read_nextevent, cursor_wrap, cursor_advance, session_new,
    vl_read, fp_length, ISF_open_su, idle_field, upd_idle_evt, upd_dll_comm,
    upd_sys_evt, call, bind, ret, get, modify.
  cbv beta.
  assert (Hidle : forall j g e, idle j (upd_idle j g e) = g (idle j e))
    by (intros [|[|[|j]]] g e; reflexivity).
  ksimpl. rewrite !Hidle. ksimpl. fold c. fold f.
  rewrite (ot_int_id (c + 2)) by lia.
  rewrite (ot_int_id (c + 2 + 2)) by lia.
  replace (c + 2 + 2) with (c + 4) by lia.
  rewrite Hu0, Hu1, Hbe.
  rewrite (ot_long_id (big_endian_u16 (file_byte f (c + 2)) (file_byte f (c + 2 + 1))))
    by lia.
  destruct (c + 4 >=? f_length f);
    match goal with
    | |- context [session_new_ ?a ?b ?d ?e] => destruct (session_new_ a b d e)
    end;
    (eexists; split; [reflexivity|]); ksimpl; rewrite ?Hidle; ksimpl;
    repeat split; try reflexivity;
    fold c; rewrite (ot_int_id (c + 2)) by lia; rewrite ot_int_id by lia; lia.
Qed.

(** X8.  The session a scan opens.  sub_scan_channel first runs the
    event's prestart hook, then reads and closes the file, and last asks
    for an ad-hoc session (wait 0) on the entry's channel: a background
    scan, REQRX|INIT|FLOOD, when bit 7 of the scan flags is set, a
    foreground scan, REQRX|INIT, when it is clear.  When session_new
    refuses, the stack is left as it was. *)
Theorem sub_scan_channel_session (i : nat) (SS_ISF : Z) (k : kernel) :
  let f := isf k SS_ISF in
  let c := cursor (idle i (evt (sys k))) in
  let netstate :=
    if nonzero (Z.land (file_byte f (c + 1)) 0x80)
    then Z.lor (Z.lor M2_NETSTATE_REQRX M2_NETSTATE_INIT) M2_NETFLAG_FLOOD
    else Z.lor M2_NETSTATE_REQRX M2_NETSTATE_INIT in
  exists k',
    sub_scan_channel i SS_ISF k = Ok tt k' /\
    session k' =
      match session_new_ 0 (ot_u8 netstate) (file_byte f c) (session k) with
      | Some l => l
      | None => session k
      end /\
    trace k' = vl_close SS_ISF :: sig_prestart i :: trace k.
Proof.
  intros f c netstate. subst netstate.
  destruct (ubyte_halfword _ _ (file_byte_range f c) (file_byte_range f (c + 1)))
    as [Hu0 Hu1].
  unfold sub_scan_channel, read_nextevent, cursor_wrap, cursor_advance, session_new,
    vl_read, fp_length, ISF_open_su, idle_field, upd_idle_evt, upd_dll_comm,
    upd_sys_evt, call, bind, ret, get, modify.
  cbv beta. ksimpl. fold f. fold c. rewrite Hu0, Hu1.
  match goal with
  | |- context [if ?a >=? ?b then _ else _] => destruct (a >=? b)
  end; cbv beta; ksimpl;
  match goal with
  | |- context [session_new_ ?a ?b ?d ?e] => destruct (session_new_ a b d e)
  end;
  (eexists; split; [reflexivity|]); ksimpl; split; reflexivity.
Qed.

(** X9.  On a device whose active class is not ENDPOINT the hold task
    never descends to sleep: whatever hold_cycle and hold_limit are, it
    counts the cycle and runs the hold scan, and the enable flags of the
    hold and sleep scans stay as they were. *)
Theorem task_hold_other_class (k : kernel) :
  Z.land (active (netconf (dll k))) M2_SET_CLASSMASK <> M2_SET_ENDPOINT ->
  exists k',
    run_task TASK_hold k = Ok None k' /\
    sysevt_holdscan (count_hold_cycle k) = Ok tt k' /\
    hold_cycle (evt (sys k')) = hold_cycle_counted k /\
    event_no (HSS (evt (sys k'))) = event_no (HSS (evt (sys k))) /\
    event_no (SSS (evt (sys k'))) = event_no (SSS (evt (sys k))).
Proof.
  intros Hclass.
  cbn [run_task]. unfold task_hold, idle_field, upd_sys_evt.
  unfold bind at 1. unfold get at 1. cbn [idle].
  unfold bind at 1. unfold modify at 1.
  assert (Hcb : forall b, ot_uint (c_bool b) = c_bool b) by (intros []; reflexivity).
  rewrite Hcb.
  change (upd_sys (upd_evt (upd_hold_cycle
            (fun h => ot_uint (h + c_bool (cursor (HSS (evt (sys k))) =? 0))))) k)
    with (count_hold_cycle k).
  unfold bind, get, ret.
  change (active (netconf (dll (count_hold_cycle k)))) with (active (netconf (dll k))).
  destruct (Z.eqb_spec (Z.land (active (netconf (dll k))) M2_SET_CLASSMASK)
              M2_SET_ENDPOINT) as [|_]; [contradiction|].
  cbn [andb].
  destruct (sub_scan_channel_run 0 ISF_ID_hold_scan_sequence (count_hold_cycle k))
    as (k' & Hscan & Hhc & Hhss & Hsss & _).
  exists k'. unfold sysevt_holdscan. rewrite Hscan.
  split; [reflexivity|]. split; [reflexivity|].
  rewrite Hhc, Hhss, Hsss. auto.
Qed.

End Scan_sequences.

(** ** From hold to sleep *)

Section Hold_to_sleep.
Context {MC : Macros} {MD : Modules}.

(** The whole of what sys_goto_sleep does. *)
Lemma sys_goto_sleep_state (k : kernel) :
  exists k2,
    sys_goto_sleep k = Ok tt k2 /\
    sys k2 =
      upd_evt (fun e => upd_RFA (set_rfa_event_no 0)
                          (upd_HSS (set_event_no 0)
                             (upd_SSS (fun s => set_event_no 1 (set_cursor 0 s)) e)))
        (sys k) /\
    dll k2 = dll k /\ session k2 = session k /\ txq k2 = txq k /\ rxq k2 = rxq k /\
    isf k2 = isf k /\ link_qual k2 = link_qual k /\ tg k2 = tg k /\ rssi k2 = rssi k /\
    prand k2 = prand k /\ gptim k2 = gptim k /\ csma k2 = csma k /\
    trace k2 =
      (if nonzero (sched_id (SSS (evt (sys k))))
       then [sub_activate_scheduler (sched_id (SSS (evt (sys k))))] else []) ++ trace k.
Proof.
  unfold sys_goto_sleep, upd_sys_evt, call, bind, ret, get, modify.
  destruct (nonzero (sched_id (SSS (evt (sys k)))));
    (eexists; split; [reflexivity|]); repeat split.
Qed.

(** The whole of what a scan does from a cursor [c] in range: the entry
    at [c] is decoded, the cursor moves on by 4 or wraps, [dll.comm] gets
    the scan's parameters, a session is asked for, and the rest of the
    kernel stays. *)
Lemma sub_scan_channel_state (i : nat) (SS_ISF : Z) (k : kernel) :
  let c := cursor (idle i (evt (sys k))) in
  let f := isf k SS_ISF in
  let netstate :=
    if nonzero (Z.land (file_byte f (c + 1)) 0x80)
    then Z.lor (Z.lor M2_NETSTATE_REQRX M2_NETSTATE_INIT) M2_NETFLAG_FLOOD
    else Z.lor M2_NETSTATE_REQRX M2_NETSTATE_INIT in
  0 <= c <= 32763 ->
  exists k',
    sub_scan_channel i SS_ISF k = Ok tt k' /\
    sys k' =
      upd_evt (upd_idle i (fun s =>
        set_cursor (if c + 4 >=? f_length f then 0 else c + 4)
          (set_nextevent (big_endian_u16 (file_byte f (c + 2)) (file_byte f (c + 2 + 1))) s)))
        (sys k) /\
    dll k' =
      upd_comm (fun m =>
        set_scratch1 (file_byte f c)
          (set_rx_chanlist (Scratch 1)
             (set_rx_channels 1
                (set_redundants 0
                   (set_rx_timeout (otutils_calc_timeout (file_byte f (c + 1))) m)))))
        (dll k) /\
    session k' =
      match session_new_ 0 (ot_u8 netstate) (file_byte f c) (session k) with
      | Some l => l
      | None => session k
      end /\
    txq k' = txq k /\ rxq k' = rxq k /\
    isf k' = isf k /\ link_qual k' = link_qual k /\ tg k' = tg k /\ rssi k' = rssi k /\
    prand k' = prand k /\ gptim k' = gptim k /\ csma k' = csma k /\
    trace k' = vl_close SS_ISF :: sig_prestart i :: trace k.
Proof.
  intros c f netstate Hc. subst netstate.
  pose proof (file_byte_range f c) as Hb0.
  pose proof (file_byte_range f (c + 1)) as Hb1.
  pose proof (file_byte_range f (c + 2)) as Hb2.
  pose proof (file_byte_range f (c + 2 + 1)) as Hb3.
  destruct (ubyte_halfword _ _ Hb0 Hb1) as [Hu0 Hu1].
  pose proof (halfword_to_big_endian _ _ Hb2 Hb3) as Hbe.
  assert (Hnext : 0 <= big_endian_u16 (file_byte f (c + 2)) (file_byte f (c + 2 + 1)) < 65536)
    by (unfold big_endian_u16; lia).
  assert (Hidle : forall j g e, idle j (upd_idle j g e) = g (idle j e))
    by (intros [|[|[|j]]] g e; reflexivity).
  unfold sub_scan_channel, read_nextevent, cursor_wrap, cursor_advance,
    session_new, vl_read, fp_length, ISF_open_su, idle_field, upd_idle_evt, upd_dll_comm,
    upd_sys_evt, call, bind, ret, get, modify.
  cbv beta. ksimpl. rewrite !Hidle. ksimpl. fold c. fold f.
  rewrite (ot_int_id (c + 2)) by lia.
  rewrite (ot_int_id (c + 2 + 2)) by lia.
  replace (c + 2 + 2) with (c + 4) by lia.
  rewrite Hu0, Hu1, Hbe.
  rewrite (ot_long_id (big_endian_u16 (file_byte f (c + 2)) (file_byte f (c + 2 + 1))))
    by lia.
  destruct (c + 4 >=? f_length f); cbv beta; ksimpl;
    match goal with
    | |- context [session_new_ ?a ?b ?d ?e] => destruct (session_new_ a b d e)
    end;
    (eexists; split; [reflexivity|]); ksimpl;
    (split;
     [subst c; destruct i as [|[|[|i]]]; cbn [idle] in Hc;
      unfold upd_evt, upd_idle, upd_HSS, upd_SSS, upd_BTS, upd_EXT; ksimpl;
      repeat match goal with
             | |- context [ot_int ?z] => rewrite (ot_int_id z) by lia
             end;
      rewrite <- ?Z.add_assoc; reflexivity|]);
    repeat split.
Qed.

(** C6.  On a device whose active class is ENDPOINT, a hold-scan task
    dispatch adds one to sys.evt.hold_cycle when HSS.cursor is 0.  When
    hold_cycle then equals dll.netconf.hold_limit, the same dispatch moves
    the device from hold to sleep (SSS.event_no = 1, SSS.cursor = 0,
    HSS.event_no = 0, the state sys_goto_sleep leaves) and runs one sleep
    scan at once from that state.  The scan is the one of the first entry
    of the sleep scan sequence: channel from byte 0, scan flags from byte
    1, the time to the next scan from the big-endian number in bytes 2 and
    3, a session asked for on that channel; it moves SSS.cursor on to 4, or
    back to 0 when the file ends there.  At the end of the dispatch the
    sleep scan is enabled, the hold scan and the radio event are off, and
    nothing else of the kernel has changed.  When hold_cycle does not
    equal hold_limit the dispatch runs the hold scan, of the entry at
    HSS.cursor, and enables or disables nothing. *)
Theorem task_hold_endpoint (k : kernel) :
  endpoint_class k ->
  exists k',
    run_task TASK_hold k = Ok None k' /\
    hold_cycle (evt (sys k')) = hold_cycle_counted k /\
    (cursor (HSS (evt (sys k))) = 0 ->
       hold_cycle_counted k = ot_uint (hold_cycle (evt (sys k)) + 1)) /\
    (hold_cycle_counted k = hold_limit (netconf (dll k)) ->
       let f := isf k ISF_ID_sleep_scan_sequence in
       let netstate :=
         if nonzero (Z.land (file_byte f 1) 0x80)
         then Z.lor (Z.lor M2_NETSTATE_REQRX M2_NETSTATE_INIT) M2_NETFLAG_FLOOD
         else Z.lor M2_NETSTATE_REQRX M2_NETSTATE_INIT in
       let scheduled := sched_id (SSS (evt (sys k))) in
       (exists k2,
          sys_goto_sleep (count_hold_cycle k) = Ok tt k2 /\
          event_no (SSS (evt (sys k2))) = 1 /\
          cursor (SSS (evt (sys k2))) = 0 /\
          event_no (HSS (evt (sys k2))) = 0 /\
          sysevt_sleepscan k2 = Ok tt k') /\
       event_no (SSS (evt (sys k'))) = 1 /\
       event_no (HSS (evt (sys k'))) = 0 /\
       rfa_event_no (RFA (evt (sys k'))) = 0 /\
       scratch1 (comm (dll k')) = file_byte f 0 /\
       rx_chanlist (comm (dll k')) = Scratch 1 /\
       rx_channels (comm (dll k')) = 1 /\
       redundants (comm (dll k')) = 0 /\
       rx_timeout (comm (dll k')) = otutils_calc_timeout (file_byte f 1) /\
       nextevent (SSS (evt (sys k'))) = big_endian_u16 (file_byte f 2) (file_byte f 3) /\
       cursor (SSS (evt (sys k'))) = (if 4 >=? f_length f then 0 else 4) /\
       session k' =
         match session_new_ 0 (ot_u8 netstate) (file_byte f 0) (session k) with
         | Some l => l
         | None => session k
         end /\
       trace k' =
         vl_close ISF_ID_sleep_scan_sequence :: sig_prestart 1
           :: (if nonzero scheduled then [sub_activate_scheduler scheduled] else [])
           ++ trace k /\
       sched_id (SSS (evt (sys k'))) = scheduled /\
       HSS (evt (sys k')) = set_event_no 0 (HSS (evt (sys k))) /\
       RFA (evt (sys k')) = set_rfa_event_no 0 (RFA (evt (sys k))) /\
       BTS (evt (sys k')) = BTS (evt (sys k)) /\
       EXT (evt (sys k')) = EXT (evt (sys k)) /\
       adv_time (evt (sys k')) = adv_time (evt (sys k)) /\
       mutex (sys k') = mutex (sys k) /\
       watchdog (sys k') = watchdog (sys k) /\
       netconf (dll k') = netconf (dll k) /\
       idle_state (dll k') = idle_state (dll k) /\
       tc (comm (dll k')) = tc (comm (dll k)) /\
       tca (comm (dll k')) = tca (comm (dll k)) /\
       csmaca_params (comm (dll k')) = csmaca_params (comm (dll k)) /\
       tx_channels (comm (dll k')) = tx_channels (comm (dll k)) /\
       tx_chanlist (comm (dll k')) = tx_chanlist (comm (dll k)) /\
       scratch0 (comm (dll k')) = scratch0 (comm (dll k)) /\
       txq k' = txq k /\ rxq k' = rxq k /\ isf k' = isf k /\
       prand k' = prand k /\ gptim k' = gptim k /\ csma k' = csma k) /\
    (hold_cycle_counted k <> hold_limit (netconf (dll k)) ->
       let c := cursor (HSS (evt (sys k))) in
       let f := isf k ISF_ID_hold_scan_sequence in
       let netstate :=
         if nonzero (Z.land (file_byte f (c + 1)) 0x80)
         then Z.lor (Z.lor M2_NETSTATE_REQRX M2_NETSTATE_INIT) M2_NETFLAG_FLOOD
         else Z.lor M2_NETSTATE_REQRX M2_NETSTATE_INIT in
       sysevt_holdscan (count_hold_cycle k) = Ok tt k' /\
       event_no (HSS (evt (sys k'))) = event_no (HSS (evt (sys k))) /\
       event_no (SSS (evt (sys k'))) = event_no (SSS (evt (sys k))) /\
       (0 <= c <= 32763 ->
          scratch1 (comm (dll k')) = file_byte f c /\
          rx_timeout (comm (dll k')) = otutils_calc_timeout (file_byte f (c + 1)) /\
          nextevent (HSS (evt (sys k'))) =
            big_endian_u16 (file_byte f (c + 2)) (file_byte f (c + 3)) /\
          cursor (HSS (evt (sys k'))) = (if c + 4 >=? f_length f then 0 else c + 4) /\
          session k' =
            match session_new_ 0 (ot_u8 netstate) (file_byte f c) (session k) with
            | Some l => l
            | None => session k
            end)).
Proof.
  intros Hclass. unfold endpoint_class in Hclass.
  cbn [run_task]. unfold task_hold, idle_field, upd_sys_evt.
  unfold bind at 1. unfold get at 1. cbn [idle].
  unfold bind at 1. unfold modify at 1.
  assert (Hcb : forall b, ot_uint (c_bool b) = c_bool b) by (intros []; reflexivity).
  rewrite Hcb.
  fold (hold_cycle_counted k).
  change (upd_sys (upd_evt (upd_hold_cycle
            (fun h => ot_uint (h + c_bool (cursor (HSS (evt (sys k))) =? 0))))) k)
    with (count_hold_cycle k).
  unfold bind, get, ret.
  change (active (netconf (dll (count_hold_cycle k)))) with (active (netconf (dll k))).
  change (hold_limit (netconf (dll (count_hold_cycle k))))
    with (hold_limit (netconf (dll k))).
  change (hold_cycle (evt (sys (count_hold_cycle k)))) with (hold_cycle_counted k).
  rewrite Hclass, Z.eqb_refl. cbn [andb].
  assert (Hone : cursor (HSS (evt (sys k))) = 0 ->
            hold_cycle_counted k = ot_uint (hold_cycle (evt (sys k)) + 1)).
  { intros Hc. unfold hold_cycle_counted. rewrite Hc. reflexivity. }
  destruct (Z.eqb_spec (hold_cycle_counted k) (hold_limit (netconf (dll k)))) as [He|Hne].
  - destruct (sys_goto_sleep_state (count_hold_cycle k))
      as (k2 & Hsleep & Hsys2 & Hdll2 & Hses2 & Htxq2 & Hrxq2 & Hisf2 & _ & _ & _
          & Hprand2 & Hgptim2 & Hcsma2 & Htr2).
    assert (Hcur : cursor (SSS (evt (sys k2))) = 0) by (rewrite Hsys2; reflexivity).
    destruct (sub_scan_channel_state 1 ISF_ID_sleep_scan_sequence k2)
      as (k' & Hscan & Hsys & Hdll & Hses & Htxq & Hrxq & Hisf & _ & _ & _
          & Hprand & Hgptim & Hcsma & Htr).
    { cbn [idle]. rewrite Hcur. lia. }
    cbn [idle] in Hsys, Hdll, Hses.
    fold sysevt_sleepscan in Hscan.
    rewrite Hcur, Hisf2, Hses2 in *.
    exists k'. rewrite Hsleep, Hscan.
    split; [reflexivity|].
    split; [rewrite Hsys, Hsys2; reflexivity|].
    split; [exact Hone|].
    split; [|intros Hc; contradiction].
    intros _. cbv zeta.
    split.
    { exists k2. split; [reflexivity|]. rewrite Hsys2.
      split; [reflexivity|]. split; [reflexivity|]. split; [reflexivity|exact Hscan]. }
    rewrite Hsys, Hdll, Hses, Htr, Htxq, Hrxq, Hisf, Hprand, Hgptim, Hcsma.
    rewrite Hsys2, Hdll2, Htr2, Htxq2, Hrxq2, Hprand2, Hgptim2, Hcsma2.
    repeat split.
  - destruct (sub_scan_channel_run 0 ISF_ID_hold_scan_sequence (count_hold_cycle k))
      as (k' & Hscan & Hhc' & Hhss' & Hsss' & _).
    exists k'. unfold sysevt_holdscan. rewrite Hscan.
    split; [reflexivity|].
    split; [rewrite Hhc'; reflexivity|].
    split; [exact Hone|].
    split; [intros Hc; contradiction|].
    intros _. cbv zeta. split; [reflexivity|]. split; [exact Hhss'|].
    split; [exact Hsss'|].
    intros Hc.
    destruct (sub_scan_channel_state 0 ISF_ID_hold_scan_sequence (count_hold_cycle k) Hc)
      as (k'' & Hscan'' & Hsys & Hdll & Hses & _).
    rewrite Hscan in Hscan''. injection Hscan'' as <-.
    replace (cursor (HSS (evt (sys k))) + 3) with (cursor (HSS (evt (sys k))) + 2 + 1)
      by lia.
    rewrite Hsys, Hdll, Hses. repeat split.
Qed.

End Hold_to_sleep.

Lemma task_hold_endpoint_witness :
  endpoint_class (MC := le_host) sample_hold /\
  hold_cycle_counted sample_hold = hold_limit (netconf (dll sample_hold)) /\
  exists k',
    run_task (MC := le_host) (MD := sample_modules) TASK_hold sample_hold = Ok None k' /\
    hold_cycle (evt (sys k')) = 3 /\
    event_no (SSS (evt (sys k'))) = 1 /\
    event_no (HSS (evt (sys k'))) = 0 /\
    scratch1 (comm (dll k')) = 0x10 /\
    rx_timeout (comm (dll k')) = 5 /\
    nextevent (SSS (evt (sys k'))) = 100 /\
    cursor (SSS (evt (sys k'))) = 4 /\
    session k' = [Build_m2session 0x10 0 0 0 0x28 0; sample_session].
Proof.
  split; [reflexivity|]. split; [reflexivity|].
  destruct (task_hold_endpoint (MC := le_host) (MD := sample_modules) sample_hold)
    as (k' & Hrun & Hhc & _ & Hsleep & _).
  - reflexivity.
  - destruct (Hsleep eq_refl)
      as (_ & Hsss & Hhss & _ & Hch & _ & _ & _ & Hto & Hne & Hcur & Hses & _).
    exists k'. split; [exact Hrun|]. split; [exact Hhc|]. split; [exact Hsss|].
    split; [exact Hhss|]. split; [exact Hch|]. split; [exact Hto|].
    split; [exact Hne|]. split; [exact Hcur|exact Hses].
Defined.

(** ** The radio task and the CSMA-CA step *)

Section Radio_task.
Context {MC : Macros} {MD : Modules}.

(** X10.  When the contention period is over (dll.comm.tca < 0),
    sysevt_txcsma does not try the channel: no CSMA code is taken from the
    radio; it reports termination code 3 with -1, pops the session and
    goes idle, which leaves the mutex and RFA.event_no at 0 and the radio
    asleep. *)
Theorem sysevt_txcsma_window_over (k : kernel) :
  tca (comm (dll k)) < 0 ->
  exists k',
    sysevt_txcsma k = Ok tt k' /\
    csma k' = csma k /\
    mutex (sys k') = 0 /\
    rfa_event_no (RFA (evt (sys k'))) = 0 /\
    (session k' = tl (session k) \/ session k' = session_init_ (tl (session k))) /\
    radio_calls k' = radio_sleep :: radio_gag :: radio_calls k /\
    In (sig_rfaterminate 3 (-1)) (trace k').
Proof.
  intros Hover.
  unfold sysevt_txcsma, sysevt_txcsma_fail, comm_field, session_pop, call.
  unfold bind at 1. unfold get at 1.
  destruct (Z.geb_spec (tca (comm (dll k))) 0) as [|_]; [lia|].
  unfold bind, modify.
  match goal with
  | |- exists k', sys_idle ?k0 = _ /\ _ =>
      destruct (sys_idle_run k0)
        as (k' & Hrun & Hm & Hev & Hdll & Hrc & _ & _ & _ & _ & Hs);
      exists k'; split; [exact Hrun|]
  end.
  cbv zeta in Hs. revert Hdll Hrc Hs. unfold radio_calls. ksimpl. cbn [filter is_radio_call].
  intros Hdll Hrc Hs.
  assert (Hcs : csma k' = csma k).
  { revert Hrun. unfold sys_idle, sys_goto_off, sys_goto_sleep, sys_goto_hold,
      session_init, set_sys_mutex, upd_sys_evt, call, bind, ret, get, modify.
    ksimpl.
    destruct (Z.land (idle_state (dll k)) 3) as [|[p|p|]|p]; ksimpl;
      repeat match goal with
             | |- context [if nonzero ?z then _ else _] => destruct (nonzero z)
             end;
      intros Hrun; injection Hrun as <-; reflexivity. }
  assert (Htr : In (sig_rfaterminate 3 (-1)) (trace k')).
  { revert Hrun. unfold sys_idle, sys_goto_off, sys_goto_sleep, sys_goto_hold,
      session_init, set_sys_mutex, upd_sys_evt, call, bind, ret, get, modify.
    ksimpl.
    destruct (Z.land (idle_state (dll k)) 3) as [|[p|p|]|p]; ksimpl;
      repeat match goal with
             | |- context [if nonzero ?z then _ else _] => destruct (nonzero z)
             end;
      intros Hrun; injection Hrun as <-; ksimpl; cbn [In]; auto 6. }
  repeat split; try assumption.
  destruct (Z.land (idle_state (dll k)) 3 =? 0); [right | left]; exact Hs.
Qed.

(** X11.  When the radio reports the end of CSMA (code -1, which is
    neither of the two error codes) within the contention period,
    sysevt_txcsma sets the mutex to RADIO_DATA, moves RFA.event_no two up,
    from 3 to 5 or from 4 to 6, and sets RFA.nextevent to the advertising
    time for the flood (event 5) and to the duration of the packet in the
    TX queue otherwise. *)
Theorem sysevt_txcsma_clear_channel (k : kernel) :
  0 <= tca (comm (dll k)) ->
  ot_int (hd 0 (csma k)) = -1 ->
  RM2_ERR_BADCHANNEL <> -1 ->
  RM2_ERR_CCAFAIL <> -1 ->
  exists k',
    sysevt_txcsma k = Ok tt k' /\
    mutex (sys k') = SYS_MUTEX_RADIO_DATA /\
    rfa_event_no (RFA (evt (sys k'))) = ot_u8 (rfa_event_no (RFA (evt (sys k))) + 2) /\
    rfa_nextevent (RFA (evt (sys k'))) =
      ot_long (if rfa_event_no (RFA (evt (sys k'))) =? 5
               then adv_time (evt (sys k))
               else rm2_pkt_duration (q_length (txq k))) /\
    csma k' = tl (csma k) /\
    session k' = session k /\
    trace k' = rm2_txcsma :: trace k.
Proof.
  intros Hin Hcode Hbad Hcca.
  unfold sysevt_txcsma, rm2_txcsma_, take, comm_field, RFA_event_no, set_sys_mutex,
    upd_RFA_, upd_sys_evt, call, bind, ret, get, modify.
  destruct (Z.geb_spec (tca (comm (dll k))) 0) as [_|]; [|lia].
  ksimpl. rewrite Hcode.
  destruct (Z.eqb_spec (-1) RM2_ERR_BADCHANNEL) as [E|_]; [congruence|].
  destruct (Z.eqb_spec (-1) RM2_ERR_CCAFAIL) as [E|_]; [congruence|].
  cbn [Z.eqb Pos.eqb]. ksimpl.
  eexists. split; [reflexivity|]. ksimpl. auto 10.
Qed.

(** X12.  The radio task while the radio is busy.  With time left on
    RFA.nextevent it hands that time back and touches nothing.  With no
    time left and a packet in flight (RFA.event_no of 5 or more) it takes
    one off the soft watchdog and asks to be called again in 1 tick; it
    starts no radio operation. *)
Theorem task_radio_busy (k : kernel) :
  (0 < rfa_nextevent (RFA (evt (sys k))) ->
     run_task TASK_radio k = Ok (Some (ot_uint (rfa_nextevent (RFA (evt (sys k)))))) k) /\
  (rfa_nextevent (RFA (evt (sys k))) <= 0 ->
   5 <= rfa_event_no (RFA (evt (sys k))) ->
     run_task TASK_radio k =
       Ok (Some 1) (upd_sys (upd_watchdog (fun w => ot_int (w - 1))) k)).
Proof.
  cbn [run_task]. unfold task_radio, RFA_event_no, SYS_WATCHDOG_RUN, bind, ret, get, modify.
  split.
  - intros Hleft.
    destruct (Z.leb_spec (rfa_nextevent (RFA (evt (sys k)))) 0) as [|_]; [lia|].
    reflexivity.
  - intros Hdone Hflight.
    destruct (Z.leb_spec (rfa_nextevent (RFA (evt (sys k)))) 0) as [_|]; [|lia].
    destruct (Z.ltb_spec (rfa_event_no (RFA (evt (sys k)))) 3) as [|_]; [lia|].
    destruct (Z.ltb_spec (rfa_event_no (RFA (evt (sys k)))) 5) as [|_]; [lia|].
    reflexivity.
Qed.

(** X13.  The event manager while the radio is busy.  When no packet
    processing is pending, a radio event is active and its countdown is
    still positive once the elapsed ticks are taken off, sys_event_manager
    returns that remaining time after one pass, for any bound of one pass
    or more: it runs no task body, and the only calls it makes are the
    timer flush and, when the soft watchdog has run out, rm2_kill. *)
Theorem sys_event_manager_radio_busy (fuel : nat) (elapsed : Z) (k : kernel) :
  let left := ot_long (rfa_nextevent (RFA (evt (sys k))) - elapsed) in
  Z.land (mutex (sys k)) SYS_MUTEX_PROCESSING = 0 ->
  rfa_event_no (RFA (evt (sys k))) <> 0 ->
  0 < left ->
  exists k',
    sys_event_manager (S fuel) elapsed k = Ok (ot_uint left) k' /\
    rfa_nextevent (RFA (evt (sys k'))) = left /\
    rfa_event_no (RFA (evt (sys k'))) = rfa_event_no (RFA (evt (sys k))) /\
    trace k' = (if watchdog (sys k) <=? 0 then [rm2_kill] else [])
                 ++ platform_flush_gptim :: trace k.
Proof.
  intros left Hproc Hradio Hleft.
  cbn [sys_event_manager]. unfold dispatch, SYS_WATCHDOG_CHECK, call.
  unfold bind at 1. unfold bind at 1. unfold modify at 1.
  unfold bind at 1. unfold bind at 1. unfold get at 1. ksimpl.
  set (k0 := upd_trace (cons platform_flush_gptim) k).
  set (k1 := if watchdog (sys k) <=? 0 then upd_trace (cons rm2_kill) k0 else k0).
  assert (Hwd : (if watchdog (sys k) <=? 0 then call rm2_kill else ret tt) k0 = Ok tt k1).
  { unfold k1, call, modify, ret. destruct (watchdog (sys k) <=? 0); reflexivity. }
  unfold call in Hwd. rewrite Hwd.
  assert (Hsame : sys k1 = sys k /\ dll k1 = dll k /\ session k1 = session k
                  /\ trace k1 = (if watchdog (sys k) <=? 0 then [rm2_kill] else [])
                                  ++ platform_flush_gptim :: trace k).
  { unfold k1, k0. destruct (watchdog (sys k) <=? 0); auto. }
  destruct Hsame as (Hsys & Hdll & Hses & Htr).
  destruct (sub_clock_tasks_choice elapsed k1) as (k2 & Hrun).
  destruct (sub_clock_tasks_state elapsed k1)
    as (t & k2' & Hrun' & _ & _ & _ & _ & _ & Hrfa & _ & _ & _ & _ & _ & _ & _ & Htr2).
  rewrite Hrun in Hrun'. injection Hrun' as <- <-.
  unfold bind at 1. rewrite Hrun.
  assert (Hchoice : task_choice elapsed k1 = TASK_radio).
  { unfold task_choice, processing_pending, radio_active, nonzero.
    rewrite Hsys, Hproc. cbn [Z.eqb negb].
    destruct (Z.eqb_spec (rfa_event_no (RFA (evt (sys k)))) 0); [contradiction|].
    reflexivity. }
  rewrite Hchoice. cbn [run_task].
  rewrite Hsys in Hrfa. unfold nonzero in Hrfa.
  destruct (Z.eqb_spec (rfa_event_no (RFA (evt (sys k)))) 0) as [|_]; [contradiction|].
  cbn [negb] in Hrfa. fold left in Hrfa.
  unfold task_radio, bind, get, ret. rewrite Hrfa. ksimpl.
  destruct (Z.leb_spec left 0) as [|_]; [lia|].
  exists k2. rewrite Hrfa. ksimpl. rewrite Htr2, Htr. auto.
Qed.

End Radio_task.

(** ** The session task *)

Section Session_task.
Context {MC : Macros} {MD : Modules}.

Lemma call_code_cases (ns : Z) :
  0 <= ns < 256 ->
  ot_u8 (Z.shiftr ns 5) = ns / 32 /\ 0 <= ns / 32 < 8.
Proof.
  intros Hns. rewrite Z.shiftr_div_pow2 by lia. change (2 ^ 5) with 32.
  assert (0 <= ns / 32 < 8).
  { split; [apply Z.div_pos; lia | apply Z.div_lt_upper_bound; lia]. }
  split; [apply ot_u8_small; lia | assumption].
Qed.

(** X14.  A scrapped session is discarded.  When the session on top, once
    session_drop has run, has bit 7 of its netstate set, the session task
    pops it and goes idle: no radio event is started (RFA.event_no and the
    mutex end at 0), and the only radio calls are the gag and the sleep of
    sys_idle. *)
Theorem task_session_scraps (k : kernel) (s : m2session) (below : list m2session) :
  session_drop_ (session k) = s :: below ->
  128 <= s_netstate s < 256 ->
  exists k',
    run_task TASK_session k = Ok None k' /\
    rfa_event_no (RFA (evt (sys k'))) = 0 /\
    mutex (sys k') = 0 /\
    (session k' = below \/ session k' = session_init_ below) /\
    radio_calls k' = radio_sleep :: radio_gag :: radio_calls k.
Proof.
  intros Hdrop Hns.
  destruct (call_code_cases (s_netstate s) ltac:(lia)) as [Hcode Hrange].
  assert (H4 : 4 <= s_netstate s / 32) by (apply Z.div_le_lower_bound; lia).
  assert (Hbit : nonzero (Z.land (s_netstate s / 32) 4) = true).
  { assert (Hc : s_netstate s / 32 = 4 \/ s_netstate s / 32 = 5 \/
                 s_netstate s / 32 = 6 \/ s_netstate s / 32 = 7) by lia.
    destruct Hc as [-> | [-> | [-> | ->]]]; reflexivity. }
  cbn [run_task].
  unfold task_session, session_drop, sub_default_idle, set_dll_idle_state,
    session_netstate, session_pop, bind, ret, get, modify.
  ksimpl.
  destruct (Z.land (active (netconf (dll k))) M2_SET_CLASSMASK >=? M2_SET_SUBCONTROLLER);
    [|destruct (nonzero (Z.land (Z.land (active (netconf (dll k))) M2_SET_CLASSMASK)
                            M2_SET_ENDPOINT))];
    ksimpl; rewrite Hdrop, Hcode, Hbit;
    match goal with
    | |- exists k', match sys_idle ?k0 with _ => _ end = _ /\ _ =>
        destruct (sys_idle_run k0)
          as (k' & Hrun & Hm & Hev & _ & Hrc & _ & _ & _ & _ & Hs);
        exists k'; rewrite Hrun;
        cbv zeta in Hs; revert Hrc Hs; unfold radio_calls; ksimpl;
        rewrite Hdrop; cbn [tl]; intros Hrc Hs;
        (split; [reflexivity|]); (split; [exact Hev|]); (split; [exact Hm|]);
        (split; [|exact Hrc]);
        destruct (Z.land _ 3 =? 0); [right | left]; exact Hs
    end.
Qed.

(** X15.  The session task picks the initialiser from bits 6 and 5 of the
    top session's netstate.  When that netstate is below 128 (bit 7, scrap,
    is clear), no session is popped and exactly one of the four is run:
    sysevt_initftx for 0, sysevt_fscan for 1, sysevt_initbtx for 2 and
    sysevt_bscan for 3.  It is run on the state that session_drop and the
    default idle state leave: the stack as session_drop made it,
    dll.idle_state HOLD for a class of SUBCONTROLLER or above, SLEEP for a
    lower class with the ENDPOINT bit and OFF otherwise, and everything
    else as it was. *)
Theorem task_session_dispatch (k : kernel) (s : m2session) (below : list m2session) :
  session_drop_ (session k) = s :: below ->
  0 <= s_netstate s < 128 ->
  let class := Z.land (active (netconf (dll k))) M2_SET_CLASSMASK in
  let default_idle :=
    if class >=? M2_SET_SUBCONTROLLER then M2_MACIDLE_HOLD
    else if nonzero (Z.land class M2_SET_ENDPOINT) then M2_MACIDLE_SLEEP
    else M2_MACIDLE_OFF in
  exists k1,
    run_task TASK_session k =
      ((match s_netstate s / 32 with
        | 0 => sysevt_initftx
        | 1 => sysevt_fscan
        | 2 => sysevt_initbtx
        | _ => sysevt_bscan
        end ;; ret None) k1) /\
    session k1 = s :: below /\
    idle_state (dll k1) = default_idle /\
    netconf (dll k1) = netconf (dll k) /\
    comm (dll k1) = comm (dll k) /\
    sys k1 = sys k /\
    txq k1 = txq k /\ rxq k1 = rxq k /\ isf k1 = isf k /\
    link_qual k1 = link_qual k /\ tg k1 = tg k /\ rssi k1 = rssi k /\
    prand k1 = prand k /\ gptim k1 = gptim k /\ csma k1 = csma k /\
    trace k1 = trace k.
Proof.
  intros Hdrop Hns class default_idle. subst default_idle class.
  destruct (call_code_cases (s_netstate s) ltac:(lia)) as [Hcode Hrange].
  assert (H4 : s_netstate s / 32 < 4) by (apply Z.div_lt_upper_bound; lia).
  assert (Hc : s_netstate s / 32 = 0 \/ s_netstate s / 32 = 1 \/
               s_netstate s / 32 = 2 \/ s_netstate s / 32 = 3) by lia.
  cbn [run_task].
  unfold task_session, session_drop, sub_default_idle, set_dll_idle_state,
    session_netstate, bind at 1 2 3 4 5, ret at 1 2 3, get, modify.
  ksimpl.
  destruct (Z.land (active (netconf (dll k))) M2_SET_CLASSMASK >=? M2_SET_SUBCONTROLLER);
    [|destruct (nonzero (Z.land (Z.land (active (netconf (dll k))) M2_SET_CLASSMASK)
                            M2_SET_ENDPOINT))];
    ksimpl; rewrite ?Hdrop, ?Hcode;
    (eexists; split; [destruct Hc as [-> | [-> | [-> | ->]]]; reflexivity|]);
    ksimpl; (split; [exact Hdrop|]); repeat split.
Qed.

End Session_task.

(** ** The radio callbacks *)

Section More_callbacks.
Context {MC : Macros} {MD : Modules}.

Lemma sub_mac_filter_pure (k : kernel) : exists b, sub_mac_filter k = Ok b k.
Proof.
  unfold sub_mac_filter, radio_rssi, bind, get, ret. eexists. reflexivity.
Qed.

(** X16.  End of a background scan.  On a retry (scode = -1 while
    redundants is not 0) rfevt_bscan only arms the receiver again on the
    first channel of the RX list: the session stays, and redundants is not
    decremented.  On every other outcome it returns with the mutex and
    RFA.event_no at 0, also when the frame passed the filter and the
    mutex had been set to PROCESSING for the parser. *)
Theorem rfevt_bscan_outcomes (scode fcode : Z) (k : kernel) :
  (scode = -1 -> redundants (comm (dll k)) <> 0 ->
     rfevt_bscan scode fcode k =
       Ok tt (upd_trace
                (cons (rm2_rxinit_bf (chan0 (rx_chanlist (comm (dll k))) (comm (dll k)))))
                k)) /\
  (scode <> -1 \/ redundants (comm (dll k)) = 0 ->
     exists k',
       rfevt_bscan scode fcode k = Ok tt k' /\
       mutex (sys k') = 0 /\
       rfa_event_no (RFA (evt (sys k'))) = 0).
Proof.
  unfold rfevt_bscan, comm_field, rx_chanlist0, session_pop, set_sys_mutex,
    upd_RFA_, upd_sys_evt, call.
  split.
  - intros Hs Hr. unfold bind, get, modify. unfold nonzero.
    destruct (Z.eqb_spec scode (-1)) as [_|]; [|contradiction].
    destruct (Z.eqb_spec (redundants (comm (dll k))) 0) as [|_]; [contradiction|].
    reflexivity.
  - intros Hend.
    assert (Hc : (scode =? -1) && nonzero (redundants (comm (dll k))) = false).
    { apply andb_false_iff. unfold nonzero.
      destruct Hend as [Hs|Hr]; [left; apply Z.eqb_neq; exact Hs|right].
      rewrite Hr. reflexivity. }
    unfold bind at 1. unfold get at 1. rewrite Hc.
    unfold bind at 1. unfold modify at 1.
    unfold bind at 1. unfold modify at 1.
    unfold bind at 1.
    destruct (scode >=? 0).
    + match goal with
      | |- context [sub_mac_filter ?k0] =>
          destruct (sub_mac_filter_pure k0) as (b & Hf); rewrite Hf
      end.
      destruct b; unfold bind, modify, ret;
        (eexists; split; [reflexivity|]); split; reflexivity.
    + unfold bind, modify, ret. eexists. split; [reflexivity|]. split; reflexivity.
Qed.

(** X17.  A frame with a bad CRC on a session that is not a datastream
    dialog.  When it ends the packet (pcode = 0) and a radio event is
    active, rfevt_frx only re-enters RX: PROCESSING is not set, RFA is not
    touched, no terminate hook runs and the kernel is not preempted.  When
    more frames are to come (pcode > 0) it does nothing at all. *)
Theorem rfevt_frx_bad_crc (frx_code0 pcode fcode : Z) (k : kernel)
    (s : m2session) (below : list m2session) :
  session k = s :: below ->
  fcode <> 0 ->
  Z.land (s_netstate s) M2_NETSTATE_DSDIALOG = 0 ->
  rfa_event_no (RFA (evt (sys k))) <> 0 ->
  0 <= pcode ->
  rfevt_frx frx_code0 pcode fcode k =
    Ok tt (if pcode =? 0 then upd_trace (cons (rm2_reenter_rx 0)) k else k).
Proof.
  intros Hs Hf Hds Hev Hp.
  assert (Hev' : (rfa_event_no (RFA (evt (sys k))) =? 0) = false)
    by (apply Z.eqb_neq; exact Hev).
  unfold rfevt_frx, session_top, RFA_event_no, sys_set_mutex, call.
  unfold bind at 1. unfold get at 1. rewrite Hs. cbn [top_slot].
  destruct (Z.ltb_spec pcode 0) as [|_]; [lia|].
  unfold nonzero at 1.
  destruct (Z.eqb_spec fcode 0) as [|_]; [contradiction|]. cbn [negb].
  unfold bind, ret, get, modify. cbv beta.
  rewrite (deref_top k s below Hs).
  unfold nonzero at 1. rewrite Hds. cbn [Z.eqb negb].
  destruct (Z.eqb_spec pcode 0) as [E|E].
  - rewrite (deref_top k s below Hs).
    change (-1 =? 0) with false. cbv iota.
    rewrite Z.lor_m1_l. cbn. rewrite Hev'. reflexivity.
  - ksimpl. rewrite Hev'.
    destruct (Z.eqb_spec pcode 0) as [|_]; [contradiction|]. reflexivity.
Qed.

(** X18.  A good frame that ends the packet (pcode = 0, fcode = 0, the MAC
    filter passes).  rfevt_frx sets PROCESSING in the mutex and preempts
    the kernel.  For a request (no RESP bit in the netstate) it also ends
    the radio event: RFA.event_no becomes 0, the radio is put to sleep and
    the terminate hook runs with code 0.  For a response it re-enters RX
    and leaves RFA.event_no as it is (the terminate hook runs only if
    RFA.event_no was 0 already). *)
Theorem rfevt_frx_good_frame (frx_code0 : Z) (k : kernel)
    (s : m2session) (below : list m2session) :
  session k = s :: below ->
  sub_mac_filter k = Ok true k ->
  exists k',
    rfevt_frx frx_code0 0 0 k = Ok tt k' /\
    mutex (sys k') = ot_u8 (Z.lor (mutex (sys k)) (ot_u8 SYS_MUTEX_PROCESSING)) /\
    session k' = session k /\
    (Z.land (s_netstate s) M2_NETSTATE_RESP = 0 ->
       rfa_event_no (RFA (evt (sys k'))) = 0 /\
       trace k' = platform_ot_preempt :: sig_rfaterminate 2 0 :: radio_sleep :: trace k) /\
    (Z.land (s_netstate s) M2_NETSTATE_RESP <> 0 ->
       rfa_event_no (RFA (evt (sys k'))) = rfa_event_no (RFA (evt (sys k))) /\
       trace k' =
         platform_ot_preempt
           :: (if rfa_event_no (RFA (evt (sys k))) =? 0 then [sig_rfaterminate 2 0] else [])
           ++ rm2_reenter_rx 0 :: trace k).
Proof.
  intros Hs Hpass.
  unfold rfevt_frx, session_top, RFA_event_no, sys_set_mutex, upd_RFA_, upd_sys_evt, call.
  unfold bind at 1. unfold get at 1. rewrite Hs. cbn [top_slot].
  change (0 <? 0) with false. change (nonzero 0) with false. cbv iota.
  unfold bind, ret, get, modify. cbv beta.
  rewrite Hpass. change (0 =? 0) with true. cbv beta iota.
  rewrite (deref_top k s below Hs). cbv beta iota.
  rewrite Z.lor_0_l. unfold nonzero.
  destruct (Z.eqb_spec (Z.land (s_netstate s) M2_NETSTATE_RESP) 0) as [Hreq|Hresp];
    cbn [negb]; ksimpl.
  - cbn [Z.eqb].
    eexists. split; [reflexivity|]. ksimpl.
    split; [reflexivity|]. split; [exact Hs|].
    split; [intros _; split; reflexivity | intros H; contradiction].
  - cbn [Z.eqb].
    destruct (rfa_event_no (RFA (evt (sys k))) =? 0);
      (eexists; split; [reflexivity|]); ksimpl;
      (split; [reflexivity|]); (split; [exact Hs|]);
      (split; [intros H; contradiction|]); intros _;
      split; reflexivity.
Qed.

(** X19.  The last transmission.  When a packet TX completes (pcode
    other than 1) with exactly one redundant TX left, rfevt_ftx leaves
    redundants at 0 and prepares no resend: the mutex and RFA.event_no
    become 0, csmaca_params stays, the top session keeps all but its
    netstate, which gets every bit of RESPRX, the terminate hook runs with
    code 5 and the kernel is preempted. *)
Theorem rfevt_ftx_last_transmission (pcode scratch : Z) (k : kernel)
    (s : m2session) (below : list m2session) :
  session k = s :: below ->
  pcode <> 1 ->
  redundants (comm (dll k)) = 1 ->
  exists (k' : kernel) (s' : m2session),
    rfevt_ftx pcode scratch k = Ok tt k' /\
    redundants (comm (dll k')) = 0 /\
    mutex (sys k') = 0 /\
    rfa_event_no (RFA (evt (sys k'))) = 0 /\
    csmaca_params (comm (dll k')) = csmaca_params (comm (dll k)) /\
    session k' = s' :: below /\
    s' = set_s_netstate (s_netstate s') s /\
    Z.land (s_netstate s') (ot_u8 M2_NETSTATE_RESPRX) = ot_u8 M2_NETSTATE_RESPRX /\
    trace k' = platform_ot_preempt :: sig_rfaterminate 5 pcode :: trace k.
Proof.
  intros Hs Hp Hred.
  unfold rfevt_ftx.
  destruct (Z.eqb_spec pcode 1) as [|_]; [contradiction|].
  unfold session_top, upd_RFA_, upd_sys_evt, comm_field, set_sys_mutex, upd_dll_comm.
  unfold bind, modify, get, ret, call. cbn [session upd_sys]. rewrite Hs. cbn [top_slot].
  set (k1 := upd_sys _ (upd_sys _ k)).
  assert (Hs1 : session k1 = s :: below) by exact Hs.
  rewrite (deref_top k1 s below Hs1).
  set (k2 := upd_dll _ k1).
  assert (Hs2 : session k2 = s :: below) by exact Hs.
  assert (Hred2 : redundants (comm (dll k2)) = 0).
  { unfold k2, k1. ksimpl. rewrite Hred. reflexivity. }
  rewrite Hred2. change (nonzero 0) with false. rewrite andb_false_r.
  rewrite (store_top k2 s below _ Hs2).
  set (k3 := upd_session _ k2).
  rewrite (store_top k3 _ below _ eq_refl).
  set (k4 := upd_session _ k3).
  rewrite (store_top k4 _ below _ eq_refl).
  do 2 eexists. split; [reflexivity|].
  split; [exact Hred2|].
  do 5 (split; [reflexivity|]).
  split; [|reflexivity]. ksimpl.
  rewrite !ot_u8_as_land.
  apply Z.bits_inj'; intros n Hn.
  repeat rewrite ?Z.land_spec, ?Z.lor_spec.
  destruct (Z.testbit M2_NETSTATE_RESPRX n), (Z.testbit 255 n);
    rewrite ?andb_true_r, ?andb_false_r, ?orb_true_r, ?orb_false_r; reflexivity.
Qed.

(** X20.  A redundant transmission.  When a packet TX completes (pcode
    other than 1) with no response window (rx_timeout = 0) or on a session
    whose netstate has a RESPTX bit, and redundants less one is not 0 as a
    byte, rfevt_ftx prepares an immediate resend without CSMA:
    csmaca_params becomes NOCSMA|MACCA and rm2_prep_resend is called, and
    the session is left as it is.  The count is taken down before it is
    tested, so from redundants = 0 it wraps to 255 and a resend is
    prepared. *)
Theorem rfevt_ftx_resend (pcode scratch : Z) (k : kernel)
    (s : m2session) (below : list m2session) :
  session k = s :: below ->
  pcode <> 1 ->
  rx_timeout (comm (dll k)) = 0 \/ Z.land (s_netstate s) M2_NETSTATE_RESPTX <> 0 ->
  ot_u8 (redundants (comm (dll k)) - 1) <> 0 ->
  exists k' : kernel,
    rfevt_ftx pcode scratch k = Ok tt k' /\
    redundants (comm (dll k')) = ot_u8 (redundants (comm (dll k)) - 1) /\
    (redundants (comm (dll k)) = 0 -> redundants (comm (dll k')) = 255) /\
    csmaca_params (comm (dll k')) = Z.lor M2_CSMACA_NOCSMA M2_CSMACA_MACCA /\
    session k' = session k /\
    mutex (sys k') = 0 /\
    rfa_event_no (RFA (evt (sys k'))) = 0 /\
    trace k' = platform_ot_preempt :: sig_rfaterminate 5 pcode
                 :: rm2_prep_resend :: trace k.
Proof.
  intros Hs Hp Hscrap Hleft.
  unfold rfevt_ftx.
  destruct (Z.eqb_spec pcode 1) as [|_]; [contradiction|].
  unfold session_top, upd_RFA_, upd_sys_evt, comm_field, set_sys_mutex, upd_dll_comm.
  unfold bind, modify, get, ret, call. cbn [session upd_sys]. rewrite Hs. cbn [top_slot].
  set (k1 := upd_sys _ (upd_sys _ k)).
  assert (Hs1 : session k1 = s :: below) by exact Hs.
  rewrite (deref_top k1 s below Hs1).
  set (k2 := upd_dll _ k1).
  assert (Hred2 : redundants (comm (dll k2)) = ot_u8 (redundants (comm (dll k)) - 1))
    by reflexivity.
  rewrite Hred2.
  assert (Hbit : nonzero (Z.lor (c_bool (rx_timeout (comm (dll k1)) =? 0))
                     (c_bool (nonzero (Z.land (s_netstate s) M2_NETSTATE_RESPTX))))
                 = true).
  { change (rx_timeout (comm (dll k1))) with (rx_timeout (comm (dll k))).
    unfold nonzero.
    destruct Hscrap as [Hrt|Hresp].
    - rewrite Hrt. cbn [Z.eqb c_bool].
      destruct (Z.land (s_netstate s) M2_NETSTATE_RESPTX =? 0); reflexivity.
    - destruct (Z.eqb_spec (Z.land (s_netstate s) M2_NETSTATE_RESPTX) 0) as [|_];
        [contradiction|].
      destruct (rx_timeout (comm (dll k)) =? 0); reflexivity. }
  rewrite Hbit.
  assert (Hnz : nonzero (ot_u8 (redundants (comm (dll k)) - 1)) = true).
  { unfold nonzero. destruct (Z.eqb_spec (ot_u8 (redundants (comm (dll k)) - 1)) 0);
      [contradiction | reflexivity]. }
  rewrite Hnz. cbn [andb].
  eexists. split; [reflexivity|]. ksimpl.
  split; [reflexivity|].
  split; [intros H0; change (ot_u8 (redundants (comm (dll k)) - 1) = 255);
          rewrite H0; reflexivity|].
  split; [reflexivity|]. split; [exact Hs|].
  split; [reflexivity|]. split; reflexivity.
Qed.

End More_callbacks.

(** ** The network settings file *)

Lemma list_upd_length {A} (i : nat) (f : A -> A) (l : list A) :
  length (list_upd i f l) = length l.
Proof.
  revert i. induction l as [|x r IH]; intros [|j]; cbn; try reflexivity.
  rewrite IH. reflexivity.
Qed.

Lemma nth_poke_same (i : nat) (v : Z) (l : list Z) :
  (i < length l)%nat -> nth i (poke i v l) 0 = v.
Proof.
  unfold poke. revert i. induction l as [|x r IH]; intros [|j] H; cbn in *; try lia.
  apply IH. lia.
Qed.

Lemma nth_poke_other (i j : nat) (v : Z) (l : list Z) :
  i <> j -> nth j (poke i v l) 0 = nth j l 0.
Proof.
  unfold poke. revert i j. induction l as [|x r IH]; intros [|i] [|j] H; cbn;
    try reflexivity; try congruence.
  apply IH. congruence.
Qed.

Lemma u16_bytes (a : Z) : 0 <= a < 65536 -> 0 <= a / 256 < 256 /\ 0 <= a mod 256 < 256.
Proof.
  intros Ha. split; [|apply Z.mod_pos_bound; lia].
  split; [apply Z.div_pos; lia|apply Z.div_lt_upper_bound; lia].
Qed.

Lemma ot_u16_range (z : Z) : 0 <= ot_u16 z < 65536.
Proof. unfold ot_u16. apply Z.mod_pos_bound. lia. Qed.

Lemma u16_high_bits (a n : Z) : 0 <= a < 65536 -> 16 <= n -> Z.testbit a n = false.
Proof.
  intros Ha Hn. replace a with (a mod 2 ^ 16) by (apply Z.mod_small; lia).
  apply Z.mod_pow2_bits_high. lia.
Qed.

Lemma ot_u16_bits (z n : Z) :
  0 <= n -> Z.testbit (ot_u16 z) n = (n <? 16) && Z.testbit z n.
Proof.
  intros Hn. unfold ot_u16. destruct (Z.ltb_spec n 16).
  - rewrite Z.mod_pow2_bits_low by lia. reflexivity.
  - rewrite Z.mod_pow2_bits_high by lia. reflexivity.
Qed.

Section Settings.
Context {MC : Macros} {MD : Modules}.

Lemma halfword_range (a b : Z) :
  0 <= a < 256 -> 0 <= b < 256 -> 0 <= halfword a b < 65536.
Proof. intros Ha Hb. unfold halfword. destruct big_endian; lia. Qed.

(** The halfword put back together from its two bytes in memory order. *)
Lemma halfword_ubyte (a : Z) :
  0 <= a < 65536 -> halfword (ubyte 0 a) (ubyte 1 a) = a.
Proof.
  intros Ha. unfold halfword, ubyte. pose proof (Z.div_mod a 256).
  destruct big_endian; lia.
Qed.

Lemma sys_idle_files (k : kernel) :
  exists k', sys_idle k = Ok tt k' /\ dll k' = dll k /\ isf k' = isf k.
Proof.
  unfold sys_idle, sys_goto_off, sys_goto_sleep, sys_goto_hold, session_init,
    set_sys_mutex, upd_sys_evt, call, bind, ret, get, modify.
  cbn [dll upd_trace upd_sys].
  destruct (Z.land (idle_state (dll k)) 3) as [|[p|p|]|p];
    cbn [dll sys evt upd_trace upd_sys upd_session SSS HSS sched_id ];
    repeat match goal with
           | |- context [if nonzero ?z then _ else _] => destruct (nonzero z)
           end;
    (eexists; split; [reflexivity|]); split; reflexivity.
Qed.

Lemma sub_sys_flush_files (k : kernel) :
  exists k', sub_sys_flush k = Ok tt k' /\ netconf (dll k') = netconf (dll k) /\
             isf k' = isf k.
Proof.
  unfold sub_sys_flush, sub_default_idle, sched_bit, session_init, set_dll_idle_state,
    upd_sys_evt.
  unfold bind, ret, get, modify.
  cbn [dll upd_session netconf].
  destruct (Z.land (active (netconf (dll k))) M2_SET_CLASSMASK >=? M2_SET_SUBCONTROLLER);
    [|destruct (nonzero (Z.land (Z.land (active (netconf (dll k))) M2_SET_CLASSMASK)
                           M2_SET_ENDPOINT))];
    match goal with
    | |- exists k', sys_idle ?k0 = _ /\ _ =>
        destruct (sys_idle_files k0) as (k' & Hrun & Hdll & Hisf);
        exists k'; split; [exact Hrun|]; rewrite Hdll, Hisf; split; reflexivity
    end.
Qed.

(** X21.  On a big-endian and on a little-endian host alike, sys_refresh
    loads subnet, b_subnet, dd_flags and b_attempts from bytes 2, 3, 6 and
    7 of the network settings file (ISF 0), takes the active settings as
    the halfword the host reads at offset 4, and leaves every file as it
    was. *)
Theorem sys_refresh_byte_fields (k : kernel) :
  let f := isf k 0 in
  exists k',
    sys_refresh k = Ok tt k' /\
    subnet (netconf (dll k')) = file_byte f 2 /\
    b_subnet (netconf (dll k')) = file_byte f 3 /\
    dd_flags (netconf (dll k')) = file_byte f 6 /\
    b_attempts (netconf (dll k')) = file_byte f 7 /\
    active (netconf (dll k')) = halfword (file_byte f 4) (file_byte f 5) /\
    isf k' = isf k.
Proof.
  intros f. subst f.
  unfold sys_refresh, ISF_open_su, vl_read, upd_dll_netconf, call.
  unfold bind, ret, get, modify.
  match goal with
  | |- exists k', sub_sys_flush ?k0 = _ /\ _ =>
      destruct (sub_sys_flush_files k0) as (k' & Hrun & Hnet & Hisf);
      exists k'; split; [exact Hrun|]; rewrite Hnet, Hisf
  end.
  cbn.
  destruct (ubyte_halfword (file_byte (isf k 0) 2) (file_byte (isf k 0) 3)
              (file_byte_range _ _) (file_byte_range _ _)) as [E2 E3].
  destruct (ubyte_halfword (file_byte (isf k 0) 6) (file_byte (isf k 0) 7)
              (file_byte_range _ _) (file_byte_range _ _)) as [E6 E7].
  repeat split; assumption.
Qed.

(** X22.  sys_change_settings changes a bit of the active settings only
    where the mask has it and ISF 1 lists it as supported, and there it
    takes the bit of new_settings; every other bit keeps the value stored
    in ISF 0.  When ISF 0 holds at least 6 bytes the result is written
    back to it: reading offset 4 afterwards gives dll.netconf.active, and
    no other file is changed. *)
Theorem sys_change_settings_bits (new_mask new_settings : Z) (k : kernel) :
  let old := halfword (file_byte (isf k 0) 4) (file_byte (isf k 0) 5) in
  let supported := halfword (file_byte (isf k 1) 8) (file_byte (isf k 1) 9) in
  (6 <= length (f_data (isf k 0)))%nat ->
  exists k',
    sys_change_settings new_mask new_settings k = Ok tt k' /\
    0 <= active (netconf (dll k')) < 65536 /\
    (forall n, 0 <= n < 16 ->
       Z.testbit (active (netconf (dll k'))) n =
         if Z.testbit new_mask n && Z.testbit supported n
         then Z.testbit new_settings n
         else Z.testbit old n) /\
    vl_read 0 4 k' = Ok (active (netconf (dll k'))) k' /\
    (forall id, id <> 0 -> isf k' id = isf k id).
Proof.
  intros old supported Hlen.
  assert (Hold : 0 <= old < 65536)
    by (apply halfword_range; apply file_byte_range).
  assert (Hsup : 0 <= supported < 65536)
    by (apply halfword_range; apply file_byte_range).
  unfold sys_change_settings, ISF_open_su, vl_read, vl_write, upd_dll_netconf, call.
  unfold bind, ret, get, modify. cbv beta.
  match goal with
  | |- exists k', sub_sys_flush ?k0 = _ /\ _ =>
      destruct (sub_sys_flush_files k0) as (k' & Hrun & Hnet & Hisf);
      exists k'; split; [exact Hrun|]; rewrite Hnet, Hisf
  end.
  cbn [isf dll netconf active upd_dll upd_netconf upd_isf upd_trace].
  change (0 + 1) with 1. change (4 + 1) with 5. change (8 + 1) with 9.
  fold old. fold supported.
  set (a := ot_u16 (Z.lor (ot_u16 (Z.land old (Z.lnot (ot_u16 (Z.land new_mask supported)))))
                       (ot_u16 (Z.land new_settings (ot_u16 (Z.land new_mask supported)))))).
  assert (Ha : 0 <= a < 65536) by apply ot_u16_range.
  split; [exact Ha|]. split; [|split].
  - intros n [Hn Hlt]. subst a.
    rewrite ot_u16_bits, Z.lor_spec, !ot_u16_bits, !Z.land_spec, Z.lnot_spec,
      !ot_u16_bits, Z.land_spec by lia.
    apply Z.ltb_lt in Hlt. rewrite Hlt.
    destruct (Z.testbit new_mask n), (Z.testbit supported n),
      (Z.testbit new_settings n), (Z.testbit old n); reflexivity.
  - f_equal. cbn [Z.eqb]. unfold file_byte. cbn [f_data].
    change (Z.to_nat 4) with 4%nat. change (Z.to_nat 5) with 5%nat.
    rewrite nth_poke_other by discriminate.
    rewrite nth_poke_same by lia.
    rewrite nth_poke_same by (unfold poke; rewrite list_upd_length; lia).
    destruct (u16_bytes a Ha) as [Hhi Hlo].
    assert (Hb0 : 0 <= ubyte 0 a < 256) by (unfold ubyte; destruct big_endian; assumption).
    assert (Hb1 : 0 <= ubyte 1 a < 256) by (unfold ubyte; destruct big_endian; assumption).
    rewrite !ot_u8_small by assumption.
    apply halfword_ubyte. exact Ha.
  - intros id Hid. destruct (Z.eqb_spec id 0); [contradiction|reflexivity].
Qed.

End Settings.

(** ** Ad-hoc sessions and the first transmission *)

(** A byte merged from a default and a template under a mask. *)
Lemma merge_bits (d m v n : Z) :
  0 <= n < 8 ->
  Z.testbit (ot_u8 (Z.lor (Z.land d (Z.lnot m)) (Z.land v m))) n =
    if Z.testbit m n then Z.testbit v n else Z.testbit d n.
Proof.
  intros Hn. unfold ot_u8. rewrite Z.mod_pow2_bits_low by lia.
  rewrite Z.lor_spec, !Z.land_spec, Z.lnot_spec by lia.
  destruct (Z.testbit m n), (Z.testbit v n), (Z.testbit d n); reflexivity.
Qed.

Section Requests.
Context {MC : Macros} {MD : Modules}.

(** X23.  otapi_new_session flushes the stack and asks for a session in
    state INIT|REQTX on the template's channel.  When none is to be had
    it returns 0 and leaves the communication parameters alone.  When one
    is put on top, each bit of its subnet and of its flags is the
    template's where the template's mask has the bit and the device
    default (dll.netconf.subnet, dd_flags) elsewhere; its other fields
    stay as session_new made them; tc is the template's timeout,
    redundants is 1, both channel lists are the one channel of the
    session, held in scratch[0], csmaca_params is NA2P|MACCA, and the
    value returned is the session's id halfword. *)
Theorem otapi_new_session_template (s_tmpl : session_tmpl) (k : kernel) :
  let fresh := session_new_ 0 (Z.lor M2_NETSTATE_INIT M2_NETSTATE_REQTX)
                 (t_channel s_tmpl) (session_flush_ (session k)) in
  (fresh = None ->
     otapi_new_session s_tmpl k = Ok 0 (upd_session session_flush_ k)) /\
  (forall s below, fresh = Some (s :: below) ->
     exists s' k',
       otapi_new_session s_tmpl k = Ok (ot_u16 (session_id_ s')) k' /\
       session k' = s' :: below /\
       (forall n, 0 <= n < 8 ->
          Z.testbit (s_subnet s') n =
            if Z.testbit (t_subnetmask s_tmpl) n then Z.testbit (t_subnet s_tmpl) n
            else Z.testbit (subnet (netconf (dll k))) n) /\
       (forall n, 0 <= n < 8 ->
          Z.testbit (s_flags s') n =
            if Z.testbit (t_flagmask s_tmpl) n then Z.testbit (t_flags s_tmpl) n
            else Z.testbit (dd_flags (netconf (dll k))) n) /\
       s' = set_s_flags (s_flags s') (set_s_subnet (s_subnet s') s) /\
       tc (comm (dll k')) = t_timeout s_tmpl /\
       redundants (comm (dll k')) = 1 /\
       tx_channels (comm (dll k')) = 1 /\
       rx_channels (comm (dll k')) = 1 /\
       tx_chanlist (comm (dll k')) = Scratch 0 /\
       rx_chanlist (comm (dll k')) = Scratch 0 /\
       scratch0 (comm (dll k')) = s_channel s /\
       csmaca_params (comm (dll k')) = Z.lor M2_CSMACA_NA2P M2_CSMACA_MACCA).
Proof.
  intros fresh. split.
  - intros Hnone.
    unfold otapi_new_session, session_flush, session_new, bind, modify, ret.
    cbn [session upd_session]. fold fresh. rewrite Hnone. reflexivity.
  - intros s below Hsome.
    unfold otapi_new_session, session_flush, session_new, upd_dll_comm.
    unfold bind, modify, ret, get.
    cbn [session upd_session]. fold fresh. rewrite Hsome. cbn [top_slot].
    set (k1 := upd_session _ (upd_session _ k)).
    rewrite (store_top k1 s below _ eq_refl).
    set (k2 := upd_session _ k1).
    rewrite (store_top k2 _ below _ eq_refl).
    set (k3 := upd_session _ k2).
    set (k4 := upd_dll _ (upd_dll _ (upd_dll _ (upd_dll _ k3)))).
    rewrite (deref_top k4 _ below eq_refl).
    set (k5 := upd_dll _ (upd_dll _ (upd_dll _ (upd_dll _ k4)))).
    rewrite (deref_top k5 _ below eq_refl).
    do 2 eexists. split; [reflexivity|].
    split; [reflexivity|].
    split; [intros n Hn; ksimpl; apply merge_bits; exact Hn|].
    split; [intros n Hn; ksimpl; apply merge_bits; exact Hn|].
    split; [destruct s; reflexivity|].
    repeat split.
Qed.

(** X24.  The first transmission in RIGD.  With the RIGD discipline
    selected (bits 3 and 4 of csmaca_params clear) and a contention period
    tc of at least 2, sysevt_initftx halves tc, makes tca equal to the new
    tc and schedules the CSMA attempt at a random offset inside the new
    period: 0 <= RFA.nextevent < tc.  The radio event becomes 4, the mutex
    RADIO_LISTEN, and the init hook and rm2_txinit_ff(0) are called. *)
Theorem sysevt_initftx_rigd_window (k : kernel) :
  Z.land (Z.shiftr (csmaca_params (comm (dll k))) 3) 3 = 0 ->
  2 <= tc (comm (dll k)) ->
  exists k',
    sysevt_initftx k = Ok tt k' /\
    tc (comm (dll k')) = Z.shiftr (tc (comm (dll k))) 1 /\
    tca (comm (dll k')) = tc (comm (dll k')) /\
    0 <= rfa_nextevent (RFA (evt (sys k'))) < tc (comm (dll k')) /\
    rfa_event_no (RFA (evt (sys k'))) = 4 /\
    mutex (sys k') = SYS_MUTEX_RADIO_LISTEN /\
    session k' = session k /\
    trace k' = rm2_txinit_ff 0 :: sig_rfainit 4 :: trace k.
Proof.
  intros Hrigd Htc.
  assert (Hhalf : 0 < Z.shiftr (tc (comm (dll k))) 1).
  { rewrite Z.shiftr_div_pow2 by lia. change (2 ^ 1) with 2.
    apply Z.div_str_pos. lia. }
  unfold sysevt_initftx, sub_fcinit, upd_RFA_, upd_sys_evt, set_sys_mutex, call.
  unfold bind, ret, get, modify. ksimpl.
  change (Z.land (Z.shiftr (csmaca_params (comm (dll k))) 3) 0x03)
    with (Z.land (Z.shiftr (csmaca_params (comm (dll k))) 3) 3).
  rewrite Hrigd.
  unfold sub_rigd_newslot, platform_prand_u16, take, c_mod, upd_dll_comm,
    bind, ret, get, modify, fail. cbn -[Z.shiftr Z.rem ot_long ot_uint ot_u16].
  destruct (Z.shiftr (tc (comm (dll k))) 1 =? 0) eqn:Hz; [apply Z.eqb_eq in Hz; lia|].
  eexists. split; [reflexivity|]. cbn -[Z.shiftr Z.rem ot_long ot_uint ot_u16].
  split; [reflexivity|]. split; [reflexivity|].
  split; [|repeat split].
  set (random := ot_u16 (hd 0 (prand k))).
  assert (Hrand : 0 <= random < 65536) by apply ot_u16_range.
  pose proof (Z.rem_bound_pos random _ (proj1 Hrand) Hhalf) as Hrem.
  assert (Hle : Z.rem random (Z.shiftr (tc (comm (dll k))) 1) <= random)
    by (rewrite Z.rem_mod_nonneg by lia; apply Z.mod_le; lia).
  assert (E : ot_long (ot_uint (Z.rem random (Z.shiftr (tc (comm (dll k))) 1))) =
              Z.rem random (Z.shiftr (tc (comm (dll k))) 1)).
  { unfold ot_uint, ot_u16. rewrite Z.mod_small by lia. apply ot_long_id. lia. }
  rewrite E. lia.
Qed.

(** X25.  The first slot in RAIND.  With the RAIND discipline selected
    (bits 3 and 4 of csmaca_params give 1), sub_fcinit draws a random
    halfword and reduces it modulo tca less the duration of the packet in
    the TX queue.  When tca equals that duration the remainder divides by
    zero.  Otherwise the offset handed back is at least 0 and below the
    size of the difference (also when tca is the smaller), and dll is not
    changed. *)
Theorem sub_fcinit_raind (k : kernel) :
  let window := tca (comm (dll k)) - rm2_pkt_duration (front (txq k) 0) in
  Z.land (Z.shiftr (csmaca_params (comm (dll k))) 3) 3 = 1 ->
  (window = 0 -> sub_fcinit k = Halt DivisionByZero) /\
  (window <> 0 ->
     exists r k',
       sub_fcinit k = Ok r k' /\
       0 <= r < Z.abs window /\
       r <= 65535 /\
       dll k' = dll k /\ session k' = session k /\ sys k' = sys k).
Proof.
  intros window Hraind.
  unfold sub_fcinit, platform_prand_u16, take, c_mod.
  unfold bind, ret, get, modify, fail. ksimpl.
  change (Z.land (Z.shiftr (csmaca_params (comm (dll k))) 3) 0x03)
    with (Z.land (Z.shiftr (csmaca_params (comm (dll k))) 3) 3).
  rewrite Hraind. cbv beta iota. ksimpl. fold window.
  split; intros Hw.
  - rewrite Hw. reflexivity.
  - destruct (Z.eqb_spec window 0) as [|_]; [contradiction|].
    do 2 eexists. split; [reflexivity|].
    set (random := ot_u16 (hd 0 (prand k))).
    assert (Hrand : 0 <= random < 65536) by apply ot_u16_range.
    assert (Hrem : 0 <= Z.rem random window < Z.abs window)
      by (rewrite <- (Z.rem_abs_r random window) by lia; apply Z.rem_bound_pos; lia).
    assert (Hle : Z.rem random window <= random).
    { rewrite <- (Z.rem_abs_r random window) by lia.
      rewrite Z.rem_mod_nonneg by lia. apply Z.mod_le; lia. }
    assert (E : ot_u16 (Z.rem random window) = Z.rem random window)
      by (unfold ot_u16; apply Z.mod_small; lia).
    rewrite E. repeat split; lia.
Qed.

End Requests.

(** ** The next idle-time event and the flood countdown *)

Section Countdowns.
Context {MC : Macros} {MD : Modules}.

Lemma sub_next_event_loop_run (n : nat) (eta : Z) (k : kernel) :
  (forall i, (i < n)%nat -> sched_id (idle i (evt (sys k))) = 0) ->
  exists eta',
    sub_next_event_loop n eta k = Ok eta' k /\
    eta' <= eta /\
    (forall i, (i < n)%nat -> event_no (idle i (evt (sys k))) <> 0 ->
       eta' <= nextevent (idle i (evt (sys k)))) /\
    (eta' = eta \/
     exists i, (i < n)%nat /\ event_no (idle i (evt (sys k))) <> 0 /\
               eta' = nextevent (idle i (evt (sys k)))).
Proof.
  revert eta. induction n as [|n IH]; intros eta Hsched.
  - exists eta. split; [reflexivity|]. split; [lia|]. split; [intros i Hi; lia|].
    left. reflexivity.
  - cbn [sub_next_event_loop]. unfold bind, idle_field, get at 1.
    assert (Hn : sched_id (idle n (evt (sys k))) = 0) by (apply Hsched; lia).
    assert (Hbelow : forall i, (i < n)%nat -> sched_id (idle i (evt (sys k))) = 0)
      by (intros i Hi; apply Hsched; lia).
    unfold nonzero.
    destruct (Z.eqb_spec (event_no (idle n (evt (sys k)))) 0) as [Hoff|Hon];
      cbn [negb].
    + unfold ret at 1.
      destruct (IH eta Hbelow) as (eta' & Hrun & Hle & Hall & Hex).
      exists eta'. split; [exact Hrun|]. split; [exact Hle|]. split.
      * intros i Hi Hno. destruct (Nat.eq_dec i n) as [->|Hne]; [contradiction|].
        apply Hall; [lia|exact Hno].
      * destruct Hex as [->|(i & Hi & Hno & ->)]; [left; reflexivity|].
        right. exists i. split; [lia|]. split; [exact Hno|reflexivity].
    + unfold sub_idlevt_ctrl, bind, idle_field, get, ret. rewrite Hn.
      change (negb (0 =? 0)) with false. cbv iota.
      set (m := if nextevent (idle n (evt (sys k))) <? eta
                then nextevent (idle n (evt (sys k))) else eta).
      assert (Hm : m <= eta /\ m <= nextevent (idle n (evt (sys k))) /\
                   (m = eta \/ m = nextevent (idle n (evt (sys k))))).
      { subst m. destruct (Z.ltb_spec (nextevent (idle n (evt (sys k)))) eta); lia. }
      destruct (IH m Hbelow) as (eta' & Hrun & Hle & Hall & Hex).
      exists eta'. split; [exact Hrun|]. split; [lia|]. split.
      * intros i Hi Hno. destruct (Nat.eq_dec i n) as [->|Hne]; [lia|].
        apply Hall; [lia|exact Hno].
      * destruct Hex as [E|(i & Hi & Hno & ->)].
        -- destruct Hm as (_ & _ & [E'|E']).
           ++ left. lia.
           ++ right. exists n. split; [lia|]. split; [exact Hon|]. lia.
        -- right. exists i. split; [lia|]. split; [exact Hno|reflexivity].
Qed.

(** X26.  With no idle-time event bound to the real-time scheduler
    (every sched_id is 0), sub_next_event changes nothing and hands back
    the time to the nearest enabled idle-time event, capped at 65535: the
    value is at most 65535 and at most the nextevent of every enabled
    event, and it is 65535 or the nextevent of an enabled event.  A
    disabled event (event_no = 0) is never counted. *)
Theorem sub_next_event_earliest (k : kernel) :
  (forall i, (i < IDLE_EVENTS)%nat -> sched_id (idle i (evt (sys k))) = 0) ->
  exists eta,
    sub_next_event k = Ok eta k /\
    eta <= 65535 /\
    (forall i, (i < IDLE_EVENTS)%nat -> event_no (idle i (evt (sys k))) <> 0 ->
       eta <= nextevent (idle i (evt (sys k)))) /\
    (eta = 65535 \/
     exists i, (i < IDLE_EVENTS)%nat /\ event_no (idle i (evt (sys k))) <> 0 /\
               eta = nextevent (idle i (evt (sys k)))).
Proof.
  intros Hsched. exact (sub_next_event_loop_run IDLE_EVENTS 65535 k Hsched).
Qed.

(** X27.  While a flood goes on (flcode 2), rfevt_btx compares the time
    left, adv_time less the timer reading as a signed halfword, with the
    duration of a 7-byte packet.  When less is left it stops the flood and
    leaves the TX queue alone.  Otherwise it writes the time left into
    bytes 3 and 4 of the TX queue, high byte first on either host, puts
    the put cursor at byte 5, leaves the other bytes alone and does not
    stop the flood. *)
Theorem rfevt_btx_countdown (scratch : Z) (k : kernel) :
  let remaining := ot_int (adv_time (evt (sys k)) - ot_u16 (hd 0 (gptim k))) in
  (remaining < rm2_pkt_duration 7 ->
     exists k',
       rfevt_btx 2 scratch k = Ok tt k' /\
       txq k' = txq k /\
       trace k' = rm2_txstop_flood :: platform_get_gptim :: trace k) /\
  (rm2_pkt_duration 7 <= remaining -> 0 <= remaining ->
   (5 <= length (q_front (txq k)))%nat ->
     exists k',
       rfevt_btx 2 scratch k = Ok tt k' /\
       front (txq k') 3 * 256 + front (txq k') 4 = remaining /\
       q_putcursor (txq k') = 5 /\
       (forall i, i <> 3%nat -> i <> 4%nat -> front (txq k') i = front (txq k) i) /\
       trace k' = platform_get_gptim :: trace k).
Proof.
  intros remaining.
  unfold rfevt_btx, platform_get_gptim_, take, call, upd_txq_.
  unfold bind, ret, get, modify. ksimpl. fold remaining.
  split.
  - intros Hlt. apply Z.ltb_lt in Hlt. rewrite Hlt.
    eexists. split; [reflexivity|]. split; reflexivity.
  - intros Hge Hpos Hlen.
    destruct (Z.ltb_spec remaining (rm2_pkt_duration 7)) as [|_]; [lia|].
    eexists. split; [reflexivity|]. ksimpl.
    assert (Hr : remaining < 32768).
    { subst remaining. unfold ot_int.
      pose proof (Z.mod_pos_bound
        (adv_time (evt (sys k)) - ot_u16 (hd 0 (gptim k)) + 2 ^ 15) (2 ^ 16)). lia. }
    split; [|split; [reflexivity|split; [|reflexivity]]].
    + unfold front. ksimpl.
      rewrite nth_poke_other by discriminate.
      rewrite nth_poke_same by lia.
      rewrite nth_poke_same by (unfold poke; rewrite list_upd_length; lia).
      assert (E16 : ot_u16 remaining = remaining)
        by (unfold ot_u16; apply Z.mod_small; lia).
      rewrite E16. rewrite Z.shiftr_div_pow2 by lia. change (2 ^ 8) with 256.
      rewrite !(ot_u8_small (ot_u8 _)) by apply ot_u8_range.
      assert (Hhi : 0 <= remaining / 256 < 256).
      { split; [apply Z.div_pos; lia|apply Z.div_lt_upper_bound; lia]. }
      rewrite (ot_u8_small (remaining / 256)) by exact Hhi.
      unfold ot_u8. change (2 ^ 8) with 256.
      pose proof (Z.div_mod remaining 256). lia.
    + intros i H3 H4. unfold front. ksimpl.
      rewrite !nth_poke_other by congruence. reflexivity.
Qed.

End Countdowns.

(** ** Byte order, unrolled loops and ids *)

Lemma ot_u32_bits (z n : Z) :
  0 <= n -> Z.testbit (ot_u32 z) n = (n <? 32) && Z.testbit z n.
Proof.
  intros Hn. unfold ot_u32. destruct (Z.ltb_spec n 32).
  - rewrite Z.mod_pow2_bits_low by lia. reflexivity.
  - rewrite Z.mod_pow2_bits_high by lia. reflexivity.
Qed.

Lemma byte_mask_bits (n m : Z) :
  0 <= m -> 0 <= n ->
  Z.testbit (Z.shiftl (Z.ones 8) m) n = (m <=? n) && (n <? m + 8).
Proof.
  intros Hm Hn. rewrite Z.shiftl_spec by lia.
  rewrite Z.testbit_ones by lia.
  destruct (Z.leb_spec 0 (n - m)), (Z.leb_spec m n), (Z.ltb_spec (n - m) 8),
    (Z.ltb_spec n (m + 8)); cbn; try reflexivity; lia.
Qed.

Ltac split_ranges :=
  repeat match goal with
         | |- context [?a <? ?b] => destruct (Z.ltb_spec a b)
         | |- context [?a <=? ?b] => destruct (Z.leb_spec a b)
         end.

(** Equations between bits at indices given by ranges: split the ranges,
    drop the bits at negative indices, and compare what is left. *)
Ltac bit_ranges :=
  split_ranges; try (exfalso; lia);
  repeat match goal with
         | |- context [Z.testbit ?a ?i] => rewrite (Z.testbit_neg_r a i) by lia
         end;
  repeat match goal with
         | |- context [Z.testbit (ot_u32 ?a) ?i] => rewrite (ot_u32_bits a i) by lia
         end;
  split_ranges; try (exfalso; lia);
  cbn [andb orb];
  rewrite ?andb_false_r, ?orb_false_r, ?andb_true_r;
  try reflexivity; try (f_equal; lia).

Section Byte_order.
Context {MC : Macros}.

Lemma PUT_BE_U16_value (x : Z) :
  PUT_BE_U16 x =
    if big_endian then ot_u16 x else (ot_u16 x mod 256) * 256 + ot_u16 x / 256.
Proof.
  unfold PUT_BE_U16. destruct big_endian; [reflexivity|].
  pose proof (ot_u16_range x) as Hh.
  destruct (u16_bytes (ot_u16 x) Hh) as [Hhi Hlo].
  rewrite Z.lor_comm. fold (swap16 (ot_u16 x)).
  rewrite (Z.div_mod (ot_u16 x) 256) at 1 by lia.
  rewrite (Z.mul_comm 256). apply swap16_bytes; assumption.
Qed.

(** The bits of a 32-bit word with its four bytes in reverse order. *)
Lemma PUT_BE_U32_bits (x n : Z) :
  big_endian = false -> 0 <= n ->
  Z.testbit (PUT_BE_U32 x) n =
    if n <? 8 then Z.testbit x (n + 24)
    else if n <? 16 then Z.testbit x (n + 8)
    else if n <? 24 then Z.testbit x (n - 8)
    else if n <? 32 then Z.testbit x (n - 24)
    else false.
Proof.
  intros Hle Hn. unfold PUT_BE_U32. rewrite Hle.
  change 0x00FF0000 with (Z.shiftl (Z.ones 8) 16).
  change 0x0000FF00 with (Z.shiftl (Z.ones 8) 8).
  rewrite !Z.lor_spec, !Z.land_spec, !byte_mask_bits by lia.
  rewrite !Z.shiftr_spec by lia. rewrite !ot_u32_bits by lia.
  rewrite !Z.shiftl_spec by lia.
  bit_ranges.
Qed.

Lemma FLIP_BE_U32_bits (x n : Z) :
  big_endian = false -> 0 <= n ->
  Z.testbit (FLIP_BE_U32 x) n =
    if n <? 16 then Z.testbit x (n + 16)
    else if n <? 32 then Z.testbit x (n - 16)
    else false.
Proof.
  intros Hle Hn. unfold FLIP_BE_U32. rewrite Hle.
  rewrite ot_u32_bits, Z.lor_spec, Z.shiftr_spec by lia.
  rewrite (ot_u32_bits (Z.shiftl _ _)), Z.shiftl_spec by lia.
  bit_ranges.
Qed.

(** X28.  The big-endian converters of OT_utils.h.  On a host of either
    byte order, PUT_BE_U16 of a halfword is a halfword whose first byte
    in memory is the high byte and whose second byte is the low byte;
    GET_BE_U16 takes it back, GET_BE_U32 takes back what PUT_BE_U32
    made of a 32-bit word, and FLIP_BE_U32 applied twice gives the word
    back.  Wider arguments are cut to 16 and 32 bits. *)
Theorem big_endian_converters (x : Z) :
  GET_B0_U16 (PUT_BE_U16 x) = ot_u16 x / 256 /\
  GET_B1_U16 (PUT_BE_U16 x) = ot_u16 x mod 256 /\
  GET_BE_U16 (PUT_BE_U16 x) = ot_u16 x /\
  GET_BE_U32 (PUT_BE_U32 x) = ot_u32 x /\
  FLIP_BE_U32 (FLIP_BE_U32 x) = ot_u32 x.
Proof.
  pose proof (ot_u16_range x) as Hh.
  destruct (u16_bytes (ot_u16 x) Hh) as [Hhi Hlo].
  pose proof (Z.div_mod (ot_u16 x) 256 ltac:(lia)) as Hdm.
  assert (Hidem16 : ot_u16 (ot_u16 x) = ot_u16 x)
    by (unfold ot_u16; apply Z.mod_mod; lia).
  assert (Hidem32 : ot_u32 (ot_u32 x) = ot_u32 x)
    by (unfold ot_u32; apply Z.mod_mod; lia).
  split; [|split; [|split; [|split]]].
  - unfold GET_B0_U16, ubyte. rewrite PUT_BE_U16_value.
    destruct big_endian; [reflexivity|].
    rewrite Z.add_comm, Z.mod_add by lia. apply Z.mod_small. exact Hhi.
  - unfold GET_B1_U16, ubyte. rewrite PUT_BE_U16_value.
    destruct big_endian; [reflexivity|].
    symmetry. apply (Z.div_unique _ 256 _ (ot_u16 x / 256)); lia.
  - unfold GET_BE_U16. rewrite (PUT_BE_U16_value (PUT_BE_U16 x)), PUT_BE_U16_value.
    destruct big_endian; [exact Hidem16|].
    assert (Hsw : ot_u16 (ot_u16 x mod 256 * 256 + ot_u16 x / 256) =
                  ot_u16 x mod 256 * 256 + ot_u16 x / 256)
      by (unfold ot_u16 at 1; apply Z.mod_small; lia).
    rewrite Hsw.
    replace ((ot_u16 x mod 256 * 256 + ot_u16 x / 256) mod 256) with (ot_u16 x / 256)
      by (rewrite Z.add_comm, Z.mod_add by lia; symmetry; apply Z.mod_small; exact Hhi).
    replace ((ot_u16 x mod 256 * 256 + ot_u16 x / 256) / 256) with (ot_u16 x mod 256)
      by (apply (Z.div_unique _ 256 _ (ot_u16 x / 256)); lia).
    lia.
  - unfold GET_BE_U32. destruct big_endian eqn:Hbe.
    + unfold PUT_BE_U32. rewrite Hbe. exact Hidem32.
    + apply Z.bits_inj'; intros n Hn.
      rewrite (PUT_BE_U32_bits _ n Hbe Hn), ot_u32_bits by lia.
      destruct (Z.ltb_spec n 8); [|destruct (Z.ltb_spec n 16);
        [|destruct (Z.ltb_spec n 24); [|destruct (Z.ltb_spec n 32)]]];
        rewrite ?(PUT_BE_U32_bits _ _ Hbe) by lia; bit_ranges.
  - destruct big_endian eqn:Hbe.
    + unfold FLIP_BE_U32. rewrite Hbe. exact Hidem32.
    + apply Z.bits_inj'; intros n Hn.
      rewrite (FLIP_BE_U32_bits _ n Hbe Hn), ot_u32_bits by lia.
      destruct (Z.ltb_spec n 16); [|destruct (Z.ltb_spec n 32)];
        rewrite ?(FLIP_BE_U32_bits _ _ Hbe) by lia; bit_ranges.
Qed.

End Byte_order.
Lemma duff_while_run {S : Type} (unroll : nat) (aAction : S -> S) (fuel : nat)
    (times_ : Z) (s : S) :
  -32767 <= times_ <= 32767 -> (Z.to_nat times_ <= fuel)%nat ->
  duff_while unroll aAction fuel times_ s =
    Nat.iter (unroll * Z.to_nat (times_ - 1)) aAction s.
Proof.
  revert times_ s. induction fuel as [|fuel IH]; intros times_ s Hr Hf.
  - cbn [duff_while]. replace (Z.to_nat (times_ - 1)) with 0%nat by lia.
    rewrite Nat.mul_0_r. reflexivity.
  - cbn [duff_while]. rewrite ot_int_id by lia.
    destruct (Z.gtb_spec (times_ - 1) 0) as [Hgt|Hle].
    + rewrite IH by lia. rewrite <- Nat.iter_add.
      replace (Z.to_nat (times_ - 1)) with (Datatypes.S (Z.to_nat (times_ - 1 - 1))) by lia.
      rewrite Nat.mul_succ_r. reflexivity.
    + replace (Z.to_nat (times_ - 1)) with 0%nat by lia.
      rewrite Nat.mul_0_r. reflexivity.
Qed.

(** What the unrolled loop comes to: the first pass from the entry point,
    then the passes counted by [times_]. *)
Lemma duff_entry {S : Type} (unroll : nat) (aAction : S -> S) (entry times_ : Z)
    (s : S) :
  0 <= entry -> -32767 <= times_ <= 32767 ->
  duff_while unroll aAction (Z.to_nat times_) times_
    match entry with
    | 0 => Nat.iter unroll aAction s
    | Zpos p => Nat.iter (Z.to_nat (Zpos p)) aAction s
    | Zneg p => Nat.iter (Z.to_nat (Zneg p)) aAction s
    end =
  Nat.iter (unroll * Z.to_nat (times_ - 1) +
            (if entry =? 0 then unroll else Z.to_nat entry)) aAction s.
Proof.
  intros He Ht. rewrite duff_while_run by lia. rewrite Nat.iter_add.
  destruct entry; reflexivity.
Qed.

(** X29.  Duff's device.  For a count from 1 to 32752 DUFFLOOP_16 and
    DUFFLOOP_8 run the action exactly count times.  For a count of 0 they
    do not skip the loop: the body is entered at case 0, so the action
    runs 16 (or 8) times.  For a count from -7 to -1 the body is entered
    at the case for the low bits of the count, and the action runs as
    many times as the low 4 (or 3) bits say: 16 + count (or 8 + count). *)
Theorem DUFFLOOP_runs {S : Type} (count : Z) (aAction : S -> S) (s : S) :
  (1 <= count <= 32752 ->
     DUFFLOOP_16 count aAction s = Nat.iter (Z.to_nat count) aAction s /\
     DUFFLOOP_8 count aAction s = Nat.iter (Z.to_nat count) aAction s) /\
  (-7 <= count <= 0 ->
     DUFFLOOP_16 count aAction s =
       Nat.iter (if count mod 16 =? 0 then 16 else Z.to_nat (count mod 16)) aAction s /\
     DUFFLOOP_8 count aAction s =
       Nat.iter (if count mod 8 =? 0 then 8 else Z.to_nat (count mod 8)) aAction s).
Proof.
  assert (E16 : Z.land count 0xF = count mod 16)
    by (change 0xF with (Z.ones 4); rewrite Z.land_ones by lia; reflexivity).
  assert (E8 : Z.land count 0x7 = count mod 8)
    by (change 0x7 with (Z.ones 3); rewrite Z.land_ones by lia; reflexivity).
  pose proof (Z.mod_pos_bound count 16 ltac:(lia)) as H16.
  pose proof (Z.mod_pos_bound count 8 ltac:(lia)) as H8.
  pose proof (Z.div_mod count 16 ltac:(lia)) as D16.
  pose proof (Z.div_mod count 8 ltac:(lia)) as D8.
  pose proof (Z.mod_pos_bound (count + 15) 16 ltac:(lia)) as H16'.
  pose proof (Z.mod_pos_bound (count + 7) 8 ltac:(lia)) as H8'.
  pose proof (Z.div_mod (count + 15) 16 ltac:(lia)) as D16'.
  pose proof (Z.div_mod (count + 7) 8 ltac:(lia)) as D8'.
  assert (T16 : Z.shiftr (count + 15) 4 = (count + 15) / 16)
    by (rewrite Z.shiftr_div_pow2 by lia; reflexivity).
  assert (T8 : Z.shiftr (count + 7) 3 = (count + 7) / 8)
    by (rewrite Z.shiftr_div_pow2 by lia; reflexivity).
  split; intros Hc; (split; [unfold DUFFLOOP_16 | unfold DUFFLOOP_8]);
    cbv zeta; rewrite (ot_int_id count) by lia;
    rewrite ?E16, ?E8, ?T16, ?T8.
  - rewrite ot_int_id by lia. rewrite duff_entry by lia. f_equal.
    destruct (Z.eqb_spec (count mod 16) 0); lia.
  - rewrite ot_int_id by lia. rewrite duff_entry by lia. f_equal.
    destruct (Z.eqb_spec (count mod 8) 0); lia.
  - rewrite ot_int_id by lia. rewrite duff_entry by lia. f_equal.
    destruct (Z.eqb_spec (count mod 16) 0); lia.
  - rewrite ot_int_id by lia. rewrite duff_entry by lia. f_equal.
    destruct (Z.eqb_spec (count mod 8) 0); lia.
Qed.

Section Ids.
Context {MC : Macros}.

Lemma halfword_inj (a b c d : Z) :
  0 <= a < 256 -> 0 <= b < 256 -> 0 <= c < 256 -> 0 <= d < 256 ->
  (halfword a b =? halfword c d) = true <-> a = c /\ b = d.
Proof.
  intros Ha Hb Hc Hd. rewrite Z.eqb_eq. unfold halfword.
  destruct big_endian; lia.
Qed.

Lemma value_u16_eq (u a : id_tmpl) (i : nat) :
  (value_u16 u i =? value_u16 a i) = true <->
    ot_u8 (nth (2 * i) (id_value u) 0) = ot_u8 (nth (2 * i) (id_value a) 0) /\
    ot_u8 (nth (2 * i + 1) (id_value u) 0) = ot_u8 (nth (2 * i + 1) (id_value a) 0).
Proof. unfold value_u16. apply halfword_inj; apply ot_u8_range. Qed.

(** X30.  sub_idcmp takes two ids for the same exactly when their
    lengths are equal and their bytes agree: all 8 bytes when the length
    is 8, and the first 2 bytes only for every other length, on a host of
    either byte order. *)
Theorem sub_idcmp_compares (user_id : id_tmpl) (auth_id : auth_entry) :
  let byte (id : id_tmpl) (i : nat) := ot_u8 (nth i (id_value id) 0) in
  sub_idcmp user_id auth_id = true <->
    id_length user_id = id_length (a_id auth_id) /\
    (forall i, (i < (if (id_length user_id =? 8)%Z then 8 else 2))%nat ->
       byte user_id i = byte (a_id auth_id) i).
Proof.
  intros byte. subst byte. cbv beta. unfold sub_idcmp.
  destruct (Z.eqb_spec (id_length user_id) (id_length (a_id auth_id))) as [Hlen|Hlen];
    cbn [negb]; [|split; [discriminate|intros [H _]; contradiction]].
  destruct (id_length user_id =? 8).
  - cbn [andb]. rewrite !andb_true_iff, !value_u16_eq. cbn [Nat.mul Nat.add].
    split.
    + intros [[[[H6 H7] [H4 H5]] [H2 H3]] [H0 H1]]. split; [exact Hlen|].
      intros i Hi.
      destruct i as [|[|[|[|[|[|[|[|i]]]]]]]]; try assumption; lia.
    + intros [_ H]. repeat split; apply H; lia.
  - cbn [andb]. rewrite value_u16_eq. cbn [Nat.mul Nat.add].
    split.
    + intros [H0 H1]. split; [exact Hlen|].
      intros i Hi. destruct i as [|[|i]]; try assumption; lia.
    + intros [_ H]. split; apply H; lia.
Qed.

End Ids.

(** * Further runs of the sample configuration *)

Ltac concrete :=
  vm_compute; repeat split; first [reflexivity | discriminate | intro; discriminate].

Lemma sub_sys_flush_endpoint_witness :
  endpoint_class (MC := le_host) sample_hold /\
  exists k',
    sub_sys_flush (MC := le_host) (MD := sample_modules) sample_hold = Ok tt k' /\
    idle_state (dll k') = 1 /\
    event_no (SSS (evt (sys k'))) = 1 /\
    event_no (HSS (evt (sys k'))) = 0.
Proof.
  split; [reflexivity|].
  destruct (sub_sys_flush_endpoint (MC := le_host) (MD := sample_modules) sample_hold)
    as (k' & Hrun & Hst & Hsss & _ & _ & Hhss & _).
  - concrete.
  - concrete.
  - reflexivity.
  - exists k'. split; [exact Hrun|]. split; [exact Hst|]. split; [exact Hsss|exact Hhss].
Defined.

Lemma sub_sys_flush_controller_witness :
  active (netconf (dll sample_controller)) = 0x0200 /\
  exists k',
    sub_sys_flush (MC := le_host) (MD := sample_modules) sample_controller = Ok tt k' /\
    idle_state (dll k') = 2 /\
    event_no (HSS (evt (sys k'))) = 1 /\
    event_no (SSS (evt (sys k'))) = 0.
Proof.
  split; [reflexivity|].
  destruct (sub_sys_flush_controller (MC := le_host) (MD := sample_modules)
              sample_controller)
    as (k' & Hrun & Hst & Hhss & _ & _ & Hsss & _).
  - concrete.
  - concrete.
  - exists k'. split; [exact Hrun|]. split; [exact Hst|]. split; [exact Hhss|exact Hsss].
Defined.

Lemma sub_scan_channel_decodes_witness :
  cursor (SSS (evt (sys sample_hold))) = 0 /\
  exists k',
    sub_scan_channel (MC := le_host) (MD := sample_modules) 1 4 sample_hold = Ok tt k' /\
    scratch1 (comm (dll k')) = 0x10 /\
    nextevent (SSS (evt (sys k'))) = 100 /\
    cursor (SSS (evt (sys k'))) = 4.
Proof.
  split; [reflexivity|].
  destruct (sub_scan_channel_decodes (MC := le_host) (MD := sample_modules) 1 4 sample_hold)
    as (k' & Hrun & Hch & _ & _ & _ & _ & Hne & Hc).
  - concrete.
  - exists k'. split; [exact Hrun|]. split; [exact Hch|]. split; [exact Hne|exact Hc].
Defined.

Lemma task_hold_other_class_witness :
  active (netconf (dll sample_controller)) = 0x0200 /\
  exists k',
    run_task (MC := le_host) (MD := sample_modules) TASK_hold sample_controller
      = Ok None k' /\
    event_no (HSS (evt (sys k'))) = 1 /\
    event_no (SSS (evt (sys k'))) = 0.
Proof.
  split; [reflexivity|].
  destruct (task_hold_other_class (MC := le_host) (MD := sample_modules) sample_controller)
    as (k' & Hrun & _ & _ & Hhss & Hsss).
  - concrete.
  - exists k'. split; [exact Hrun|]. split; [exact Hhss|exact Hsss].
Defined.

Lemma sysevt_txcsma_window_over_witness :
  exists k',
    sysevt_txcsma (MC := le_host) (MD := sample_modules)
      (with_comm (set_tca (-1)) sample_hold) = Ok tt k' /\
    mutex (sys k') = 0 /\
    rfa_event_no (RFA (evt (sys k'))) = 0 /\
    csma k' = [-1].
Proof.
  destruct (sysevt_txcsma_window_over (MC := le_host) (MD := sample_modules)
              (with_comm (set_tca (-1)) sample_hold))
    as (k' & Hrun & Hcsma & Hm & Hev & _).
  - reflexivity.
  - exists k'. split; [exact Hrun|]. split; [exact Hm|]. split; [exact Hev|exact Hcsma].
Defined.

Lemma sysevt_txcsma_clear_channel_witness :
  csma sample_hold = [-1] /\
  exists k',
    sysevt_txcsma (MC := le_host) (MD := sample_modules) sample_hold = Ok tt k' /\
    mutex (sys k') = 2 /\
    rfa_event_no (RFA (evt (sys k'))) = 2 /\
    rfa_nextevent (RFA (evt (sys k'))) = 9.
Proof.
  split; [reflexivity|].
  destruct (sysevt_txcsma_clear_channel (MC := le_host) (MD := sample_modules) sample_hold)
    as (k' & Hrun & Hm & Hev & Hne & _).
  - concrete.
  - reflexivity.
  - concrete.
  - concrete.
  - exists k'. split; [exact Hrun|]. split; [exact Hm|]. split; [exact Hev|].
    rewrite Hne, Hev. reflexivity.
Defined.

Lemma task_radio_busy_witness :
  run_task (MC := le_host) (MD := sample_modules) TASK_radio sample_radio_busy
    = Ok (Some 100) sample_radio_busy.
Proof.
  apply (proj1 (task_radio_busy (MC := le_host) (MD := sample_modules) sample_radio_busy)).
  reflexivity.
Defined.

Lemma sys_event_manager_radio_busy_witness :
  exists k',
    sys_event_manager (MC := le_host) (MD := sample_modules) 1 10 sample_radio_busy
      = Ok 90 k' /\
    rfa_nextevent (RFA (evt (sys k'))) = 90.
Proof.
  destruct (sys_event_manager_radio_busy (MC := le_host) (MD := sample_modules)
              0 10 sample_radio_busy)
    as (k' & Hrun & Hne & _).
  - reflexivity.
  - concrete.
  - reflexivity.
  - exists k'. split; [exact Hrun|exact Hne].
Defined.

Lemma task_session_scraps_witness :
  exists k',
    run_task (MC := le_host) (MD := sample_modules) TASK_session sample_scrap
      = Ok None k' /\
    rfa_event_no (RFA (evt (sys k'))) = 0 /\
    mutex (sys k') = 0.
Proof.
  destruct (task_session_scraps (MC := le_host) (MD := sample_modules) sample_scrap
              (Build_m2session 0x10 0x5A 0 1 0x90 0) [])
    as (k' & Hrun & Hev & Hm & _).
  - reflexivity.
  - concrete.
  - exists k'. split; [exact Hrun|]. split; [exact Hev|exact Hm].
Defined.

Lemma task_session_dispatch_witness :
  exists k1,
    run_task (MC := le_host) (MD := sample_modules) TASK_session sample_hold =
      bind (sysevt_fscan (MC := le_host)) (fun _ => ret None) k1 /\
    session k1 = [sample_session] /\
    idle_state (dll k1) = 1.
Proof.
  destruct (task_session_dispatch (MC := le_host) (MD := sample_modules) sample_hold
              sample_session [])
    as (k1 & Hrun & Hs & Hidle & _).
  - reflexivity.
  - concrete.
  - exists k1. split; [exact Hrun|]. split; [exact Hs|exact Hidle].
Defined.

Lemma rfevt_bscan_outcomes_witness :
  rfevt_bscan (MC := le_host) (MD := sample_modules) (-1) 0 sample_hold =
    Ok tt (upd_trace (cons (rm2_rxinit_bf 7)) sample_hold).
Proof.
  apply (proj1 (rfevt_bscan_outcomes (MC := le_host) (MD := sample_modules)
                  (-1) 0 sample_hold)).
  - reflexivity.
  - concrete.
Defined.

Lemma rfevt_frx_bad_crc_witness :
  rfevt_frx (MC := le_host) (MD := sample_modules) 0 0 1 sample_radio_busy =
    Ok tt (upd_trace (cons (rm2_reenter_rx 0)) sample_radio_busy).
Proof.
  apply (rfevt_frx_bad_crc (MC := le_host) (MD := sample_modules) 0 0 1
           sample_radio_busy sample_session []).
  - reflexivity.
  - concrete.
  - reflexivity.
  - concrete.
  - concrete.
Defined.

Lemma rfevt_frx_good_frame_witness :
  sub_mac_filter sample_own_subnet = Ok true sample_own_subnet /\
  exists k',
    rfevt_frx (MC := le_host) (MD := sample_modules) 0 0 0 sample_own_subnet = Ok tt k' /\
    mutex (sys k') = 4 /\
    session k' = [sample_session].
Proof.
  split; [reflexivity|].
  destruct (rfevt_frx_good_frame (MC := le_host) (MD := sample_modules) 0
              sample_own_subnet sample_session [])
    as (k' & Hrun & Hm & Hs & _).
  - reflexivity.
  - reflexivity.
  - exists k'. split; [exact Hrun|]. split; [exact Hm|exact Hs].
Defined.

Lemma rfevt_ftx_last_transmission_witness :
  exists k' s',
    rfevt_ftx (MC := le_host) 0 0 (with_comm (set_redundants 1) sample_hold) = Ok tt k' /\
    redundants (comm (dll k')) = 0 /\
    session k' = [s'] /\
    trace k' = [platform_ot_preempt; sig_rfaterminate 5 0].
Proof.
  destruct (rfevt_ftx_last_transmission (MC := le_host) 0 0
              (with_comm (set_redundants 1) sample_hold) sample_session [])
    as (k' & s' & Hrun & Hred & _ & _ & _ & Hs & _ & _ & Htr).
  - reflexivity.
  - concrete.
  - reflexivity.
  - exists k', s'. split; [exact Hrun|]. split; [exact Hred|]. split; [exact Hs|exact Htr].
Defined.

Lemma rfevt_ftx_resend_witness :
  redundants (comm (dll sample_hold)) = 2 /\
  exists k',
    rfevt_ftx (MC := le_host) 0 0 sample_hold = Ok tt k' /\
    redundants (comm (dll k')) = 1 /\
    csmaca_params (comm (dll k')) = 0x1C /\
    trace k' = [platform_ot_preempt; sig_rfaterminate 5 0; rm2_prep_resend].
Proof.
  split; [reflexivity|].
  destruct (rfevt_ftx_resend (MC := le_host) 0 0 sample_hold sample_session [])
    as (k' & Hrun & Hred & _ & Hp & _ & _ & _ & Htr).
  - reflexivity.
  - concrete.
  - right. concrete.
  - concrete.
  - exists k'. split; [exact Hrun|]. split; [exact Hred|]. split; [exact Hp|exact Htr].
Defined.

Lemma sys_change_settings_bits_witness :
  length (f_data (isf sample_hold 0)) = 10%nat /\
  exists k',
    sys_change_settings (MC := le_host) (MD := sample_modules) 0xFFFF 0x0200 sample_hold
      = Ok tt k' /\
    vl_read (MC := le_host) 0 4 k' = Ok (active (netconf (dll k'))) k'.
Proof.
  split; [reflexivity|].
  destruct (sys_change_settings_bits (MC := le_host) (MD := sample_modules)
              0xFFFF 0x0200 sample_hold)
    as (k' & Hrun & _ & _ & Hread & _).
  - vm_compute. lia.
  - exists k'. split; [exact Hrun|exact Hread].
Defined.

Lemma otapi_new_session_template_witness :
  exists s' k',
    otapi_new_session (MC := le_host) (MD := sample_modules) sample_tmpl sample_hold
      = Ok (ot_u16 (session_id_ (Modules := sample_modules) s')) k' /\
    session k' = [s'; sample_session] /\
    tc (comm (dll k')) = 512 /\
    scratch0 (comm (dll k')) = 0x12.
Proof.
  destruct (proj2 (otapi_new_session_template (MC := le_host) (MD := sample_modules)
                     sample_tmpl sample_hold)
              (Build_m2session 0x12 0 0 0 8 0) [sample_session])
    as (s' & k' & Hrun & Hs & _ & _ & _ & Htc & _ & _ & _ & _ & _ & Hch & _).
  - reflexivity.
  - exists s', k'. split; [exact Hrun|]. split; [exact Hs|]. split; [exact Htc|exact Hch].
Defined.

Lemma sysevt_initftx_rigd_window_witness :
  tc (comm (dll sample_hold)) = 1000 /\
  exists k',
    sysevt_initftx (MC := le_host) (MD := sample_modules) sample_hold = Ok tt k' /\
    tc (comm (dll k')) = 500 /\
    tca (comm (dll k')) = 500 /\
    0 <= rfa_nextevent (RFA (evt (sys k'))) < 500.
Proof.
  split; [reflexivity|].
  destruct (sysevt_initftx_rigd_window (MC := le_host) (MD := sample_modules) sample_hold)
    as (k' & Hrun & Htc & Htca & Hwin & _).
  - reflexivity.
  - concrete.
  - rewrite Htc in Htca, Hwin.
    exists k'. split; [exact Hrun|]. split; [exact Htc|]. split; [exact Htca|exact Hwin].
Defined.

Lemma sub_fcinit_raind_witness :
  sub_fcinit (MD := sample_modules)
    (with_comm (fun c => set_tca 9 (set_csmaca_params 8 c)) sample_hold)
    = Halt DivisionByZero /\
  exists r k',
    sub_fcinit (MD := sample_modules) (with_comm (set_csmaca_params 8) sample_hold)
      = Ok r k' /\
    0 <= r < 991.
Proof.
  split.
  - apply (proj1 (sub_fcinit_raind (MD := sample_modules)
                    (with_comm (fun c => set_tca 9 (set_csmaca_params 8 c)) sample_hold)
                    eq_refl)).
    reflexivity.
  - destruct (proj2 (sub_fcinit_raind (MD := sample_modules)
                       (with_comm (set_csmaca_params 8) sample_hold) eq_refl))
      as (r & k' & Hrun & Hr & _).
    + concrete.
    + exists r, k'. split; [exact Hrun|exact Hr].
Defined.

Lemma sub_next_event_earliest_witness :
  exists eta,
    sub_next_event (MC := le_host) sample_hold = Ok eta sample_hold /\
    eta <= nextevent (HSS (evt (sys sample_hold))).
Proof.
  destruct (sub_next_event_earliest (MC := le_host) sample_hold)
    as (eta & Hrun & _ & Hall & _).
  - intros i Hi. destruct i as [|[|[|[|i]]]]; reflexivity.
  - exists eta. split; [exact Hrun|].
    apply (Hall 0%nat); [unfold IDLE_EVENTS; lia|concrete].
Defined.

Lemma rfevt_btx_countdown_witness :
  exists k',
    rfevt_btx (MC := le_host) (MD := sample_modules) 2 0 (with_adv_time 1000 sample_hold)
      = Ok tt k' /\
    front (txq k') 3 * 256 + front (txq k') 4 = 997 /\
    q_putcursor (txq k') = 5.
Proof.
  destruct (proj2 (rfevt_btx_countdown (MC := le_host) (MD := sample_modules) 0
                     (with_adv_time 1000 sample_hold)))
    as (k' & Hrun & Hbytes & Hput & _).
  - concrete.
  - concrete.
  - vm_compute. lia.
  - exists k'. split; [exact Hrun|]. split; [exact Hbytes|exact Hput].
Defined.

Lemma DUFFLOOP_runs_witness :
  DUFFLOOP_16 35 Datatypes.S 0%nat = 35%nat /\
  DUFFLOOP_8 35 Datatypes.S 0%nat = 35%nat /\
  DUFFLOOP_16 0 Datatypes.S 0%nat = 16%nat /\
  DUFFLOOP_8 0 Datatypes.S 0%nat = 8%nat.
Proof.
  destruct (proj1 (DUFFLOOP_runs 35 Datatypes.S 0%nat)) as [H16 H8]; [lia|].
  destruct (proj2 (DUFFLOOP_runs 0 Datatypes.S 0%nat)) as [Z16 Z8]; [lia|].
  split; [exact H16|]. split; [exact H8|]. split; [exact Z16|exact Z8].
Defined.

Lemma sub_idcmp_compares_witness :
  nth 2 (id_value sample_user) 0 <> nth 2 (id_value (a_id sample_entry)) 0 /\
  sub_idcmp (MC := le_host) sample_user sample_entry = true.
Proof.
  split; [concrete|].
  apply (proj2 (sub_idcmp_compares (MC := le_host) sample_user sample_entry)).
  split; [reflexivity|].
  intros i Hi. destruct i as [|[|i]]; [reflexivity|reflexivity|].
  exfalso. revert Hi. vm_compute. lia.
Defined.
